(** * Monster AI and combat system: a shallow embedding of
      [monster_ai_system.py] and the properties of its specification.

    The Python classes [Position], [MonsterAI] and [MonsterSpawner] are
    translated method by method.  Python objects that are mutated in place
    live in an explicit state: the object a method is called on ([self]),
    the heap of [MonsterStats] objects that agents share by reference, and
    what the code takes from its platform: [time.time()], the [random]
    module and the C library's [pow], which are oracles of the environment.

    Python [float] is IEEE-754 binary64; it is modelled by the Standard
    Library's executable specification [SpecFloat] at precision 53, whose
    sum, difference, product, quotient and square root are the correctly
    rounded ones, as Python's are.  [x ** 2] is not one of them: CPython
    hands it to the C library's [pow], whose result IEEE-754 does not fix;
    the properties below hold for every [pow].  Python [int] is [Z]. *)

From Stdlib Require Import ZArith Bool Lia.
From Stdlib Require Import Floats.SpecFloat.
From stdpp Require Import base option list strings pretty.

Local Open Scope Z_scope.

(** * Python numbers and exceptions *)

Module Py.

(** The exceptions the modelled code can raise.  [DanglingRef] has no Python
    counterpart: it is the model's answer to a heap address that holds no
    object, which Python's memory model rules out. *)
Inductive exn : Type :=
| KeyError (key : string)
| IndexError
| ZeroDivisionError
| OverflowError
| ValueError
| DanglingRef.

Inductive outcome (A : Type) : Type :=
| Ok (a : A)
| Raise (e : exn).
Arguments Ok {A} a.
Arguments Raise {A} e.

Definition obind {A B} (o : outcome A) (k : A -> outcome B) : outcome B :=
  match o with
  | Ok a => k a
  | Raise e => Raise e
  end.

Definition is_ok {A} (o : outcome A) : bool :=
  match o with Ok _ => true | Raise _ => false end.

(** ** binary64 *)

Definition float : Type := spec_float.
Definition prec : Z := 53.
Definition emax : Z := 1024.

Definition fadd : float -> float -> float := SFadd prec emax.
Definition fsub : float -> float -> float := SFsub prec emax.
Definition fmul : float -> float -> float := SFmul prec emax.
Definition fdiv : float -> float -> float := SFdiv prec emax.
Definition fsqrt : float -> float := SFsqrt prec emax.
Definition fltb : float -> float -> bool := SFltb.
Definition fleb : float -> float -> bool := SFleb.
Definition feqb : float -> float -> bool := SFeqb.

Definition is_nan (x : float) : bool :=
  match x with S754_nan => true | _ => false end.

Definition is_inf (x : float) : bool :=
  match x with S754_infinity _ => true | _ => false end.

(** The double nearest to an integer (ties to even); exact below [2^53]. *)
Definition Z2F (n : Z) : float := binary_normalize prec emax n 0 false.

(** The double nearest to the decimal literal [n/d], for [n] and [d] below
    [2^53]: the correctly rounded quotient of two exact doubles, which is
    how Python reads the literals [0.7], [1.5], [0.2], ... *)
Definition lit (n d : Z) : float := fdiv (Z2F n) (Z2F d).

Definition fzero : float := S754_zero false.
Definition finf : float := S754_infinity false.

(** [float(n)], also the implicit conversion of an int operand in mixed
    arithmetic: OverflowError when [n] rounds outside the doubles. *)
Definition float_of_int (n : Z) : outcome float :=
  let x := Z2F n in
  if is_inf x then Raise OverflowError else Ok x.

(** [int(x)]: truncation toward zero. *)
Definition int_of_float (x : float) : outcome Z :=
  match x with
  | S754_zero _ => Ok 0
  | S754_finite s m e => Ok (cond_Zopp s (Z.shiftl (Zpos m) e))
  | S754_infinity _ => Raise OverflowError
  | S754_nan => Raise ValueError
  end.

(** [round(x)] with one argument: the nearest integer, ties to even. *)
Definition py_round (x : float) : outcome Z :=
  match x with
  | S754_zero _ => Ok 0
  | S754_finite s m e =>
      if 0 <=? e then Ok (cond_Zopp s (Z.shiftl (Zpos m) e))
      else
        let q := Z.shiftl (Zpos m) e in
        let r := Zpos m - Z.shiftl q (- e) in
        let up := match Z.compare (2 * r) (Z.shiftl 1 (- e)) with
                  | Lt => false
                  | Eq => Z.odd q
                  | Gt => true
                  end in
        Ok (cond_Zopp s (if up then q + 1 else q))
  | S754_infinity _ => Raise OverflowError
  | S754_nan => Raise ValueError
  end.

(** [x / y] on floats. *)
Definition float_truediv (x y : float) : outcome float :=
  if feqb y fzero then Raise ZeroDivisionError else Ok (fdiv x y).

(** [a / b] on ints: the correctly rounded quotient. *)
Definition int_truediv (a b : Z) : outcome float :=
  match a, b with
  | _, Z0 => Raise ZeroDivisionError
  | Z0, _ => Ok (S754_zero (b <? 0))
  | _, _ =>
      let '(q, e, l) := SFdiv_core_binary prec emax (Z.abs a) 0 (Z.abs b) 0 in
      let x := binary_round_aux prec emax (xorb (a <? 0) (b <? 0)) q e l in
      if is_inf x then Raise OverflowError else Ok x
  end.

(** The C library's [pow(x, 2.0)]: the double it returns and the [errno] it
    leaves.  It is part of the platform: the C standard does not ask for a
    correctly rounded [pow], and the libraries in use are within one unit in
    the last place of it, so that [x ** 2] and [x * x] can differ. *)
Definition libm : Type := float -> float * Z.

Definition ERANGE : Z := 34.

(** [x ** 2] on a float, as CPython's [float_pow] computes it: NaN, the
    infinities, the zeros and 1 are answered without the C library; every
    other operand goes to [pow] by its absolute value, and an [errno] left
    by it (or an infinite result) raises, but for [ERANGE] with the result
    [0.0]. *)
Definition float_pow2 (pow : libm) (x : float) : outcome float :=
  match x with
  | S754_nan => Ok S754_nan
  | S754_infinity _ => Ok (S754_infinity false)
  | S754_zero _ => Ok (S754_zero false)
  | S754_finite _ m e =>
      let iv := S754_finite false m e in
      if feqb iv (Z2F 1) then Ok (Z2F 1)
      else
        let '(ix, errno) := pow iv in
        let errno :=
          if errno =? 0 then (if is_inf ix then ERANGE else 0)
          else if (errno =? ERANGE) && feqb ix fzero then 0
          else errno in
        if errno =? 0 then Ok ix
        else if errno =? ERANGE then Raise OverflowError
        else Raise ValueError
  end.

(** [math.sqrt]. *)
Definition math_sqrt (x : float) : outcome float :=
  match x with
  | S754_finite true _ _ | S754_infinity true => Raise ValueError
  | _ => Ok (fsqrt x)
  end.

(** [min(a, b)] and [max(a, b)] on floats keep the first argument unless the
    second is strictly better. *)
Definition float_min (a b : float) : float := if fltb b a then b else a.

(** ** Values that are an int or a float *)

Inductive num : Type :=
| PInt (n : Z)
| PFloat (x : float).

Definition num_to_float (a : num) : outcome float :=
  match a with
  | PInt n => float_of_int n
  | PFloat x => Ok x
  end.

(** Exact comparison of an int with a float, as Python does it. *)
Definition int_float_compare (n : Z) (x : float) : option comparison :=
  match x with
  | S754_nan => None
  | S754_infinity s => Some (if s then Gt else Lt)
  | S754_zero _ => Some (Z.compare n 0)
  | S754_finite s m e =>
      let v := cond_Zopp s (Zpos m) in
      Some (if 0 <=? e then Z.compare n (Z.shiftl v e)
            else Z.compare (Z.shiftl n (- e)) v)
  end.

(** [a - x], [x] a float. *)
Definition num_sub_float (a : num) (x : float) : outcome num :=
  obind (num_to_float a) (fun fa => Ok (PFloat (fsub fa x))).

(** [a - d], [d] an int. *)
Definition num_sub_int (a : num) (d : Z) : outcome num :=
  match a with
  | PInt n => Ok (PInt (n - d))
  | PFloat x => obind (float_of_int d) (fun fd => Ok (PFloat (fsub x fd)))
  end.

(** [a / m], [m] an int. *)
Definition num_truediv_int (a : num) (m : Z) : outcome float :=
  match a with
  | PInt n => int_truediv n m
  | PFloat x =>
      if m =? 0 then Raise ZeroDivisionError
      else obind (float_of_int m) (fun fm => Ok (fdiv x fm))
  end.

(** [n * x], [n] an int and [x] a float. *)
Definition int_mul_float (n : Z) (x : float) : outcome float :=
  obind (float_of_int n) (fun fn => Ok (fmul fn x)).

(** [a > 0], [a <= 0], [a < x]. *)
Definition num_gt0 (a : num) : bool :=
  match a with
  | PInt n => 0 <? n
  | PFloat x => fltb fzero x
  end.

Definition num_le0 (a : num) : bool :=
  match a with
  | PInt n => n <=? 0
  | PFloat x => fleb x fzero
  end.

Definition num_lt0 (a : num) : bool :=
  match a with
  | PInt n => n <? 0
  | PFloat x => fltb x fzero
  end.

Definition num_lt_float (a : num) (x : float) : bool :=
  match a with
  | PInt n => match int_float_compare n x with Some Lt => true | _ => false end
  | PFloat y => fltb y x
  end.

(** [max(0, a)]: the int [0] unless [a > 0]. *)
Definition max0 (a : num) : num := if num_gt0 a then a else PInt 0.

End Py.
Import Py.

(** Float literals of the source. *)
Definition f0_2 : float := lit 2 10.
Definition f0_3 : float := lit 3 10.
Definition f0_5 : float := lit 5 10.
Definition f0_7 : float := lit 7 10.
Definition f1_0 : float := Z2F 1.
Definition f1_3 : float := lit 13 10.
Definition f1_5 : float := lit 15 10.
Definition f2_0 : float := Z2F 2.
Definition f15_0 : float := Z2F 15.

(** * Enumerations *)

Module MonsterType.
Inductive t : Type :=
| GREAT_JAGGI | QURUPECO | BARROTH | RATHIAN | RATHALOS
| DIABLOS | TIGREX | NARGACUGA | BARIOTH.
#[global] Instance eq_dec : EqDecision t.
Proof. solve_decision. Defined.

(** The member's [.value]. *)
Definition value (m : t) : string :=
  match m with
  | GREAT_JAGGI => "Great Jaggi"
  | QURUPECO => "Qurupeco"
  | BARROTH => "Barroth"
  | RATHIAN => "Rathian"
  | RATHALOS => "Rathalos"
  | DIABLOS => "Diablos"
  | TIGREX => "Tigrex"
  | NARGACUGA => "Nargacuga"
  | BARIOTH => "Barioth"
  end.
End MonsterType.

Module StatusEffect.
Inductive t : Type := POISON | PARALYSIS | SLEEP | STUN | MOUNT | TRAP.
#[global] Instance eq_dec : EqDecision t.
Proof. solve_decision. Defined.

(** The member's [.value]. *)
Definition value (e : t) : string :=
  match e with
  | POISON => "poison"
  | PARALYSIS => "paralysis"
  | SLEEP => "sleep"
  | STUN => "stun"
  | MOUNT => "mount"
  | TRAP => "trap"
  end.
End StatusEffect.

Module AttackType.
Inductive t : Type := PHYSICAL | FIRE | ICE | THUNDER | WATER | DRAGON | POISON.
#[global] Instance eq_dec : EqDecision t.
Proof. solve_decision. Defined.
End AttackType.

(** [v in xs] on a Python list. *)
Definition py_in {A} `{EqDecision A} (v : A) (xs : list A) : bool :=
  bool_decide (v ∈ xs).

(** * Dataclasses *)

Module MonsterStats.
Record t : Type := mk {
  name : string;
  monster_type : MonsterType.t;
  health : Z;
  max_health : Z;
  attack : Z;
  defense : Z;
  speed : float;
  size : string;
  elemental_weakness : list AttackType.t;
  elemental_resistance : list AttackType.t;
  status_weakness : list StatusEffect.t;
  status_resistance : list StatusEffect.t;
  rage_threshold : float;
  enrage_multiplier : float
}.

Definition set_attack (v : Z) (s : t) : t :=
  mk (name s) (monster_type s) (health s) (max_health s) v (defense s)
     (speed s) (size s) (elemental_weakness s) (elemental_resistance s)
     (status_weakness s) (status_resistance s) (rage_threshold s)
     (enrage_multiplier s).
End MonsterStats.

Module Position.
Record t : Type := mk { x : float; y : float; z : float }.

(** [sqrt((x - ox)**2 + (y - oy)**2 + (z - oz)**2)] *)
Definition distance_to (self other : t) (pow : libm) : outcome float :=
  obind (float_pow2 pow (fsub (x self) (x other))) (fun dx =>
  obind (float_pow2 pow (fsub (y self) (y other))) (fun dy =>
  obind (float_pow2 pow (fsub (z self) (z other))) (fun dz =>
  math_sqrt (fadd (fadd dx dy) dz)))).

Definition move_towards (self target : t) (speed : float) (pow : libm)
  : outcome t :=
  obind (distance_to self target pow) (fun distance =>
  if feqb distance fzero then Ok self
  else
    obind (float_truediv speed distance) (fun q =>
    let ratio := float_min q f1_0 in
    Ok (mk (fadd (x self) (fmul (fsub (x target) (x self)) ratio))
           (fadd (y self) (fmul (fsub (y target) (y self)) ratio))
           (fadd (z self) (fmul (fsub (z target) (z self)) ratio))))).
End Position.

Module StatusEffectInstance.
Record t : Type := mk {
  effect : StatusEffect.t;
  duration : float;
  intensity : float;
  start_time : float
}.
End StatusEffectInstance.

(** * Dictionaries of fixed shape *)

(** An attack pattern: [{"name", "damage", "range", "cooldown"}] with the
    optional keys ["type"] and ["status"]. *)
Module AttackPattern.
Record t : Type := mk {
  name : string;
  damage : Z;
  range : float;
  cooldown : float;
  type : option AttackType.t;
  status : option StatusEffect.t
}.

Definition set_cooldown (v : float) (p : t) : t :=
  mk (name p) (damage p) (range p) v (type p) (status p).
End AttackPattern.

(** A player descriptor.  The code reads ['id'] and ['position'] with
    [player[...]], ['name'] with [player['name']] on the hit path only, and
    ['defense'] with [player.get('defense', 0)]; the last two keys may be
    absent. *)
Module Player.
Record t : Type := mk {
  id : string;
  name : option string;
  position : Position.t;
  defense : option Z
}.
End Player.

(** The dictionaries [update] and [take_damage] return, one constructor per
    shape; [action] is the value under the key ["action"]. *)
Inductive Action : Type :=
| Cooldown (position : Position.t)
| Attack (attack_name : string) (damage : Z) (position : Position.t)
         (target_player : string) (attack_type : AttackType.t)
         (status_effect : option StatusEffect.t)
| Miss (position : Position.t)
| Stunned (position : Position.t)
| Chase (position : Position.t) (target : string) (speed : float)
| Sleep (position : Position.t)
| Patrol (position : Position.t)
| Idle (position : Position.t)
| Defeated (damage : Z)
| Flee (damage : Z) (health : num)
| Damaged (damage : Z) (health : num).

Definition action (a : Action) : string :=
  match a with
  | Cooldown _ => "cooldown"
  | Attack _ _ _ _ _ _ => "attack"
  | Miss _ => "miss"
  | Stunned _ => "stunned"
  | Chase _ _ _ => "chase"
  | Sleep _ => "sleep"
  | Patrol _ => "patrol"
  | Idle _ => "idle"
  | Defeated _ => "defeated"
  | Flee _ _ => "flee"
  | Damaged _ _ => "damaged"
  end.

(** The dictionary [get_state] returns. *)
Module MonsterState.
Record t : Type := mk {
  name : string;
  type : string;
  health : num;
  max_health : Z;
  position : Position.t;
  is_enraged : bool;
  is_stunned : bool;
  is_sleeping : bool;
  is_trapped : bool;
  is_mounted : bool;
  state : string;
  status_effects : list string;
  target_player : option string
}.
End MonsterState.

(** A [dict] with string keys, in insertion order. *)
Section Dict.
Context {V : Type}.

Fixpoint dict_get (k : string) (d : list (string * V)) : option V :=
  match d with
  | [] => None
  | (k', v) :: d' => if String.eqb k k' then Some v else dict_get k d'
  end.


(** [d[k] = v]: overwrite in place, or append a new key. *)
Fixpoint dict_set (k : string) (v : V) (d : list (string * V))
  : list (string * V) :=
  match d with
  | [] => [(k, v)]
  | (k', v') :: d' =>
      if String.eqb k k' then (k', v) :: d' else (k', v') :: dict_set k v d'
  end.

(** [del d[k]] for a key that is present. *)
Definition dict_del (k : string) (d : list (string * V)) : list (string * V) :=
  List.filter (fun kv => negb (String.eqb k (fst kv))) d.

Definition dict_keys (d : list (string * V)) : list string := map fst d.
End Dict.

(** * The environment and the state monad *)

(** A heap address of a [MonsterStats] object. *)
Definition loc : Type := nat.

(** What lies outside the objects under study: the heap of shared
    [MonsterStats] objects, the readings [time.time()] will return, and the
    draws of the [random] module ([random_float] feeds [random.random()] and
    [random.uniform], [random_nat] feeds [randint] and [choice]), and the C
    library's [pow] behind [**]. *)
Record Env : Type := mkEnv {
  heap : list MonsterStats.t;
  clock : nat -> float;
  ticks : nat;
  random_float : nat -> float;
  random_nat : nat -> nat;
  draws : nat;
  libm_pow : libm
}.

Definition set_heap (h : list MonsterStats.t) (e : Env) : Env :=
  mkEnv h (clock e) (ticks e) (random_float e) (random_nat e) (draws e)
        (libm_pow e).

(** The state a method runs in: the object it is called on, and the
    environment. *)
Record St (Self : Type) : Type := mkSt { self : Self; env : Env }.
Arguments mkSt {Self} self env.
Arguments self {Self} s.
Arguments env {Self} s.

(** A computation returns or raises, and in both cases leaves a state: what
    was mutated before an exception stays mutated. *)
Definition M (S A : Type) : Type := S -> outcome A * S.

Definition ret {S A} (a : A) : M S A := fun s => (Ok a, s).

Definition raise {S A} (e : exn) : M S A := fun s => (Raise e, s).

Definition bind {S A B} (m : M S A) (k : A -> M S B) : M S B :=
  fun s =>
    match m s with
    | (Ok a, s') => k a s'
    | (Raise e, s') => (Raise e, s')
    end.

Declare Scope py_scope.
Delimit Scope py_scope with py.
Notation "x <- m ;; k" := (bind m (fun x => k))
  (at level 100, m at next level, k at level 200, only parsing,
   right associativity) : py_scope.
Notation "m ;; k" := (bind m (fun _ => k))
  (at level 100, k at level 200, only parsing, right associativity) : py_scope.
Local Open Scope py_scope.

Definition liftO {S A} (o : outcome A) : M S A := fun s => (o, s).

(** A computation that calls the C library's [pow]. *)
Definition liftP {S A} (f : libm -> outcome A) : M (St S) A :=
  fun s => (f (libm_pow (env s)), s).

Definition get_self {S} : M (St S) S := fun s => (Ok (self s), s).

Definition modify {S} (f : S -> S) : M (St S) unit :=
  fun s => (Ok tt, mkSt (f (self s)) (env s)).

(** Run a computation on the environment alone inside a method. *)
Definition lift {S A} (m : M Env A) : M (St S) A :=
  fun s => let '(r, e) := m (env s) in (r, mkSt (self s) e).

(** Run a method on a given object; the object comes back with the result. *)
Definition call {S A} (obj : S) (m : M (St S) A) : M Env (A * S) :=
  fun e =>
    let '(r, s) := m (mkSt obj e) in
    (match r with Ok a => Ok (a, self s) | Raise x => Raise x end, env s).

(** [time.time()] *)
Definition time : M Env float :=
  fun e => (Ok (clock e (ticks e)),
            mkEnv (heap e) (clock e) (S (ticks e)) (random_float e)
                  (random_nat e) (draws e) (libm_pow e)).

(** [random.random()] *)
Definition random : M Env float :=
  fun e => (Ok (random_float e (draws e)),
            mkEnv (heap e) (clock e) (ticks e) (random_float e)
                  (random_nat e) (S (draws e)) (libm_pow e)).

Definition random_below (n : nat) : M Env nat :=
  fun e => (Ok (random_nat e (draws e) mod n)%nat,
            mkEnv (heap e) (clock e) (ticks e) (random_float e)
                  (random_nat e) (S (draws e)) (libm_pow e)).

(** [random.uniform(a, b)] is [a + (b - a) * random()]. *)
Definition uniform (a b : float) : M Env float :=
  r <- random ;; ret (fadd a (fmul (fsub b a) r)).

(** [random.randint(a, b)], [a <= b]. *)
Definition randint (a b : Z) : M Env Z :=
  n <- random_below (Z.to_nat (b - a + 1)) ;; ret (a + Z.of_nat n).

(** [random.choice(xs)] *)
Definition choice {A} (xs : list A) : M Env A :=
  match xs with
  | [] => raise IndexError
  | _ =>
      n <- random_below (length xs) ;;
      match xs !! n with
      | Some v => ret v
      | None => raise IndexError
      end
  end.

(** Reading and writing a shared [MonsterStats] object. *)
Definition deref (l : loc) : M Env MonsterStats.t :=
  fun e =>
    match heap e !! l with
    | Some v => (Ok v, e)
    | None => (Raise DanglingRef, e)
    end.

Definition store (l : loc) (v : MonsterStats.t) : M Env unit :=
  fun e => (Ok tt, set_heap (<[l := v]> (heap e)) e).

Definition alloc (v : MonsterStats.t) : M Env loc :=
  fun e => (Ok (length (heap e)), set_heap (heap e ++ [v]) e).

(** * class MonsterAI *)

Module MonsterAI.

(** The instance attributes.  [stats] is a reference: every agent spawned
    from one species holds the address of the same [MonsterStats] object.
    [last_attack_time] and [rage_timer] start as the int [0] and are only
    ever combined with floats, so they are floats here; [logger] has no
    effect on the state and is left out. *)
Record t : Type := mk {
  stats : loc;
  position : Position.t;
  target_position : Position.t;
  current_health : num;
  is_enraged : bool;
  is_stunned : bool;
  is_sleeping : bool;
  is_trapped : bool;
  is_mounted : bool;
  status_effects : list StatusEffectInstance.t;
  last_attack_time : float;
  attack_cooldown : float;
  state : string;
  target_player : option Player.t;
  rage_timer : float;
  last_movement : float;
  aggression_level : float;
  intelligence : float;
  patience : float;
  attack_patterns : list AttackPattern.t;
  current_pattern_index : nat
}.

Definition set_position (v : Position.t) (a : t) : t :=
  mk (stats a) v (target_position a) (current_health a) (is_enraged a)
     (is_stunned a) (is_sleeping a) (is_trapped a) (is_mounted a)
     (status_effects a) (last_attack_time a) (attack_cooldown a) (state a)
     (target_player a) (rage_timer a) (last_movement a) (aggression_level a)
     (intelligence a) (patience a) (attack_patterns a)
     (current_pattern_index a).

Definition set_target_position (v : Position.t) (a : t) : t :=
  mk (stats a) (position a) v (current_health a) (is_enraged a)
     (is_stunned a) (is_sleeping a) (is_trapped a) (is_mounted a)
     (status_effects a) (last_attack_time a) (attack_cooldown a) (state a)
     (target_player a) (rage_timer a) (last_movement a) (aggression_level a)
     (intelligence a) (patience a) (attack_patterns a)
     (current_pattern_index a).

Definition set_current_health (v : num) (a : t) : t :=
  mk (stats a) (position a) (target_position a) v (is_enraged a)
     (is_stunned a) (is_sleeping a) (is_trapped a) (is_mounted a)
     (status_effects a) (last_attack_time a) (attack_cooldown a) (state a)
     (target_player a) (rage_timer a) (last_movement a) (aggression_level a)
     (intelligence a) (patience a) (attack_patterns a)
     (current_pattern_index a).

Definition set_is_enraged (v : bool) (a : t) : t :=
  mk (stats a) (position a) (target_position a) (current_health a) v
     (is_stunned a) (is_sleeping a) (is_trapped a) (is_mounted a)
     (status_effects a) (last_attack_time a) (attack_cooldown a) (state a)
     (target_player a) (rage_timer a) (last_movement a) (aggression_level a)
     (intelligence a) (patience a) (attack_patterns a)
     (current_pattern_index a).

Definition set_is_stunned (v : bool) (a : t) : t :=
  mk (stats a) (position a) (target_position a) (current_health a)
     (is_enraged a) v (is_sleeping a) (is_trapped a) (is_mounted a)
     (status_effects a) (last_attack_time a) (attack_cooldown a) (state a)
     (target_player a) (rage_timer a) (last_movement a) (aggression_level a)
     (intelligence a) (patience a) (attack_patterns a)
     (current_pattern_index a).

Definition set_is_sleeping (v : bool) (a : t) : t :=
  mk (stats a) (position a) (target_position a) (current_health a)
     (is_enraged a) (is_stunned a) v (is_trapped a) (is_mounted a)
     (status_effects a) (last_attack_time a) (attack_cooldown a) (state a)
     (target_player a) (rage_timer a) (last_movement a) (aggression_level a)
     (intelligence a) (patience a) (attack_patterns a)
     (current_pattern_index a).

Definition set_is_trapped (v : bool) (a : t) : t :=
  mk (stats a) (position a) (target_position a) (current_health a)
     (is_enraged a) (is_stunned a) (is_sleeping a) v (is_mounted a)
     (status_effects a) (last_attack_time a) (attack_cooldown a) (state a)
     (target_player a) (rage_timer a) (last_movement a) (aggression_level a)
     (intelligence a) (patience a) (attack_patterns a)
     (current_pattern_index a).

Definition set_is_mounted (v : bool) (a : t) : t :=
  mk (stats a) (position a) (target_position a) (current_health a)
     (is_enraged a) (is_stunned a) (is_sleeping a) (is_trapped a) v
     (status_effects a) (last_attack_time a) (attack_cooldown a) (state a)
     (target_player a) (rage_timer a) (last_movement a) (aggression_level a)
     (intelligence a) (patience a) (attack_patterns a)
     (current_pattern_index a).

Definition set_status_effects (v : list StatusEffectInstance.t) (a : t) : t :=
  mk (stats a) (position a) (target_position a) (current_health a)
     (is_enraged a) (is_stunned a) (is_sleeping a) (is_trapped a)
     (is_mounted a) v (last_attack_time a) (attack_cooldown a) (state a)
     (target_player a) (rage_timer a) (last_movement a) (aggression_level a)
     (intelligence a) (patience a) (attack_patterns a)
     (current_pattern_index a).

Definition set_last_attack_time (v : float) (a : t) : t :=
  mk (stats a) (position a) (target_position a) (current_health a)
     (is_enraged a) (is_stunned a) (is_sleeping a) (is_trapped a)
     (is_mounted a) (status_effects a) v (attack_cooldown a) (state a)
     (target_player a) (rage_timer a) (last_movement a) (aggression_level a)
     (intelligence a) (patience a) (attack_patterns a)
     (current_pattern_index a).

Definition set_attack_cooldown (v : float) (a : t) : t :=
  mk (stats a) (position a) (target_position a) (current_health a)
     (is_enraged a) (is_stunned a) (is_sleeping a) (is_trapped a)
     (is_mounted a) (status_effects a) (last_attack_time a) v (state a)
     (target_player a) (rage_timer a) (last_movement a) (aggression_level a)
     (intelligence a) (patience a) (attack_patterns a)
     (current_pattern_index a).

Definition set_state (v : string) (a : t) : t :=
  mk (stats a) (position a) (target_position a) (current_health a)
     (is_enraged a) (is_stunned a) (is_sleeping a) (is_trapped a)
     (is_mounted a) (status_effects a) (last_attack_time a)
     (attack_cooldown a) v (target_player a) (rage_timer a)
     (last_movement a) (aggression_level a) (intelligence a) (patience a)
     (attack_patterns a) (current_pattern_index a).

Definition set_target_player (v : option Player.t) (a : t) : t :=
  mk (stats a) (position a) (target_position a) (current_health a)
     (is_enraged a) (is_stunned a) (is_sleeping a) (is_trapped a)
     (is_mounted a) (status_effects a) (last_attack_time a)
     (attack_cooldown a) (state a) v (rage_timer a) (last_movement a)
     (aggression_level a) (intelligence a) (patience a) (attack_patterns a)
     (current_pattern_index a).

Definition set_rage_timer (v : float) (a : t) : t :=
  mk (stats a) (position a) (target_position a) (current_health a)
     (is_enraged a) (is_stunned a) (is_sleeping a) (is_trapped a)
     (is_mounted a) (status_effects a) (last_attack_time a)
     (attack_cooldown a) (state a) (target_player a) v (last_movement a)
     (aggression_level a) (intelligence a) (patience a) (attack_patterns a)
     (current_pattern_index a).

Definition set_last_movement (v : float) (a : t) : t :=
  mk (stats a) (position a) (target_position a) (current_health a)
     (is_enraged a) (is_stunned a) (is_sleeping a) (is_trapped a)
     (is_mounted a) (status_effects a) (last_attack_time a)
     (attack_cooldown a) (state a) (target_player a) (rage_timer a) v
     (aggression_level a) (intelligence a) (patience a) (attack_patterns a)
     (current_pattern_index a).

Definition set_attack_patterns (v : list AttackPattern.t) (a : t) : t :=
  mk (stats a) (position a) (target_position a) (current_health a)
     (is_enraged a) (is_stunned a) (is_sleeping a) (is_trapped a)
     (is_mounted a) (status_effects a) (last_attack_time a)
     (attack_cooldown a) (state a) (target_player a) (rage_timer a)
     (last_movement a) (aggression_level a) (intelligence a) (patience a) v
     (current_pattern_index a).

Definition set_current_pattern_index (v : nat) (a : t) : t :=
  mk (stats a) (position a) (target_position a) (current_health a)
     (is_enraged a) (is_stunned a) (is_sleeping a) (is_trapped a)
     (is_mounted a) (status_effects a) (last_attack_time a)
     (attack_cooldown a) (state a) (target_player a) (rage_timer a)
     (last_movement a) (aggression_level a) (intelligence a) (patience a)
     (attack_patterns a) v.
Definition pattern (name : string) (damage : Z) (range cooldown : float)
    (type : option AttackType.t) (status : option StatusEffect.t)
  : AttackPattern.t :=
  AttackPattern.mk name damage range cooldown type status.

(** The table [base_patterns] of [_generate_attack_patterns]. *)
Definition base_patterns : list (MonsterType.t * list AttackPattern.t) :=
  [ (MonsterType.GREAT_JAGGI,
      [ pattern "Tail Swipe" 15 (Z2F 3) (lit 15 10) None None;
        pattern "Charge" 25 (Z2F 5) (Z2F 2) None None;
        pattern "Bite" 20 (Z2F 2) (Z2F 1) None None ]);
    (MonsterType.RATHIAN,
      [ pattern "Fire Breath" 30 (Z2F 4) (Z2F 3) (Some AttackType.FIRE) None;
        pattern "Tail Flip" 35 (lit 35 10) (lit 25 10) None
                (Some StatusEffect.POISON);
        pattern "Charge" 25 (Z2F 6) (Z2F 2) None None ]);
    (MonsterType.TIGREX,
      [ pattern "Roar" 10 (Z2F 8) (Z2F 4) None (Some StatusEffect.STUN);
        pattern "Claw Swipe" 40 (Z2F 3) (lit 15 10) None None;
        pattern "Rush Attack" 50 (Z2F 7) (Z2F 3) None None ]) ].

Definition default_patterns : list AttackPattern.t :=
  [ pattern "Basic Attack" 20 (Z2F 2) (lit 15 10) None None ].

(** [table.get(key, fallback)] *)
Fixpoint table_get {V} (key : MonsterType.t)
    (table : list (MonsterType.t * V)) (fallback : V) : V :=
  match table with
  | [] => fallback
  | (k, v) :: rest =>
      if bool_decide (key = k) then v else table_get key rest fallback
  end.

Definition _generate_attack_patterns : M (St t) (list AttackPattern.t) :=
  a <- get_self ;;
  st <- lift (deref (stats a)) ;;
  ret (table_get (MonsterStats.monster_type st) base_patterns default_patterns).

Definition __init__ (monster_stats : loc) (initial_position : Position.t)
  : M Env t :=
  st <- deref monster_stats ;;
  now <- time ;;
  aggression <- uniform (lit 7 10) (lit 13 10) ;;
  intel <- uniform (lit 8 10) (lit 12 10) ;;
  patient <- uniform (lit 6 10) (lit 14 10) ;;
  let obj :=
    mk monster_stats initial_position initial_position
       (PInt (MonsterStats.health st)) false false false false false []
       fzero f2_0 "idle" None fzero now aggression intel patient [] 0%nat in
  r <- call obj _generate_attack_patterns ;;
  ret (set_attack_patterns (fst r) (snd r)).

(** The body of the loop of [_update_status_effects] over
    [self.status_effects]; the result is the list [active_effects]. *)
Fixpoint status_loop (current_time delta_time : float)
    (effects : list StatusEffectInstance.t)
  : M (St t) (list StatusEffectInstance.t) :=
  match effects with
  | [] => ret []
  | effect :: rest =>
      if fltb (fsub current_time (StatusEffectInstance.start_time effect))
              (StatusEffectInstance.duration effect)
      then
        (match StatusEffectInstance.effect effect with
         | StatusEffect.POISON =>
             a <- get_self ;;
             h <- liftO (num_sub_float (current_health a)
                           (fmul (StatusEffectInstance.intensity effect)
                                 delta_time)) ;;
             modify (set_current_health h)
         | StatusEffect.PARALYSIS => modify (set_is_stunned true)
         | StatusEffect.SLEEP => modify (set_is_sleeping true)
         | StatusEffect.TRAP => modify (set_is_trapped true)
         | StatusEffect.MOUNT => modify (set_is_mounted true)
         | StatusEffect.STUN => ret tt
         end) ;;
        active <- status_loop current_time delta_time rest ;;
        ret (effect :: active)
      else
        (match StatusEffectInstance.effect effect with
         | StatusEffect.PARALYSIS => modify (set_is_stunned false)
         | StatusEffect.SLEEP => modify (set_is_sleeping false)
         | StatusEffect.TRAP => modify (set_is_trapped false)
         | StatusEffect.MOUNT => modify (set_is_mounted false)
         | StatusEffect.POISON | StatusEffect.STUN => ret tt
         end) ;;
        status_loop current_time delta_time rest
  end.

Definition _update_status_effects (delta_time : float) : M (St t) unit :=
  current_time <- lift time ;;
  a <- get_self ;;
  active_effects <- status_loop current_time delta_time (status_effects a) ;;
  modify (set_status_effects active_effects).

(** The loop of [_find_nearest_player]. *)
Fixpoint nearest_loop (here : Position.t) (players : list Player.t)
    (nearest : option Player.t) (min_distance : float) (pow : libm)
  : outcome (option Player.t) :=
  match players with
  | [] => Ok nearest
  | player :: rest =>
      obind (Position.distance_to here (Player.position player) pow)
        (fun distance =>
           if fltb distance min_distance
           then nearest_loop here rest (Some player) distance pow
           else nearest_loop here rest nearest min_distance pow)
  end.

Definition _find_nearest_player (players : list Player.t)
  : M (St t) (option Player.t) :=
  match players with
  | [] => ret None
  | _ => a <- get_self ;; liftP (nearest_loop (position a) players None finf)
  end.

Definition _become_enraged : M (St t) unit :=
  modify (set_is_enraged true) ;;
  now <- lift time ;;
  modify (set_rage_timer now) ;;
  a <- get_self ;;
  modify (set_attack_cooldown (fmul (attack_cooldown a) f0_7)) ;;
  st <- lift (deref (stats a)) ;;
  raised <- liftO (int_mul_float (MonsterStats.attack st)
                     (MonsterStats.enrage_multiplier st)) ;;
  v <- liftO (int_of_float raised) ;;
  lift (store (stats a) (MonsterStats.set_attack v st)).

Definition _perform_attack (player : Player.t) (current_time : float)
  : M (St t) Action :=
  a <- get_self ;;
  if fltb (fsub current_time (last_attack_time a)) (attack_cooldown a)
  then ret (Cooldown (position a))
  else
    match attack_patterns a !! current_pattern_index a with
    | None => raise IndexError
    | Some attack_pattern =>
        (match length (attack_patterns a) with
         | O => raise ZeroDivisionError
         | n =>
             modify (set_current_pattern_index
                       ((current_pattern_index a + 1) mod n)%nat)
         end) ;;
        base_damage <-
          (if is_enraged a
           then
             st <- lift (deref (stats a)) ;;
             raised <- liftO (int_mul_float
                                (AttackPattern.damage attack_pattern)
                                (MonsterStats.enrage_multiplier st)) ;;
             liftO (int_of_float raised)
           else ret (AttackPattern.damage attack_pattern)) ;;
        player_distance <-
          liftP (Position.distance_to (position a) (Player.position player)) ;;
        if fleb player_distance (AttackPattern.range attack_pattern)
        then
          modify (set_last_attack_time current_time) ;;
          let final_damage :=
            Z.max 1 (base_damage - default 0 (Player.defense player)) in
          match Player.name player with
          | None => raise (KeyError "name")
          | Some _ =>
              ret (Attack (AttackPattern.name attack_pattern) final_damage
                     (position a) (Player.id player)
                     (default AttackType.PHYSICAL
                        (AttackPattern.type attack_pattern))
                     (AttackPattern.status attack_pattern))
          end
        else ret (Miss (position a))
    end.

Definition _chase_player (player : Player.t) (delta_time : float)
  : M (St t) Action :=
  a <- get_self ;;
  if is_trapped a || is_stunned a || is_sleeping a
  then ret (Stunned (position a))
  else
    st <- lift (deref (stats a)) ;;
    let movement_speed := fmul (MonsterStats.speed st) delta_time in
    let movement_speed :=
      if is_enraged a then fmul movement_speed f1_3 else movement_speed in
    new_position <-
      liftP (Position.move_towards (position a) (Player.position player)
               movement_speed) ;;
    modify (set_position new_position) ;;
    ret (Chase new_position (Player.id player) movement_speed).

Definition _idle_behavior (delta_time : float) : M (St t) Action :=
  a <- get_self ;;
  if is_sleeping a then ret (Sleep (position a))
  else
    now <- lift time ;;
    wait <- lift (uniform (Z2F 3) (Z2F 8)) ;;
    (if fltb wait (fsub now (last_movement a))
     then
       dx <- lift (uniform (Z2F (-5)) (Z2F 5)) ;;
       dz <- lift (uniform (Z2F (-5)) (Z2F 5)) ;;
       modify (set_target_position
                 (Position.mk (fadd (Position.x (position a)) dx)
                              (Position.y (position a))
                              (fadd (Position.z (position a)) dz))) ;;
       moved <- lift time ;;
       modify (set_last_movement moved)
     else ret tt) ;;
    a <- get_self ;;
    d <- liftP (Position.distance_to (position a) (target_position a)) ;;
    if fltb f0_5 d
    then
      st <- lift (deref (stats a)) ;;
      let movement_speed :=
        fmul (fmul (MonsterStats.speed st) f0_3) delta_time in
      new_position <-
        liftP (Position.move_towards (position a) (target_position a)
                 movement_speed) ;;
      modify (set_position new_position) ;;
      ret (Patrol new_position)
    else ret (Idle (position a)).

Definition update (delta_time : float) (nearby_players : list Player.t)
  : M (St t) Action :=
  current_time <- lift time ;;
  _update_status_effects delta_time ;;
  a <- get_self ;;
  st <- lift (deref (stats a)) ;;
  health_percentage <-
    liftO (num_truediv_int (current_health a) (MonsterStats.max_health st)) ;;
  (if fleb health_percentage (MonsterStats.rage_threshold st)
      && negb (is_enraged a)
   then _become_enraged else ret tt) ;;
  nearest_player <- _find_nearest_player nearby_players ;;
  match nearest_player with
  | Some player =>
      modify (set_target_player (Some player)) ;;
      a <- get_self ;;
      player_distance <-
        liftP (Position.distance_to (position a) (Player.position player)) ;;
      if fleb player_distance f2_0
         && negb (is_stunned a) && negb (is_sleeping a)
      then _perform_attack player current_time
      else if fleb player_distance f15_0
              && negb (is_stunned a) && negb (is_sleeping a)
      then _chase_player player delta_time
      else _idle_behavior delta_time
  | None => _idle_behavior delta_time
  end.

Definition take_damage (damage : Z) (attack_type : AttackType.t)
    (status_effect : option StatusEffect.t) (status_duration : float)
  : M (St t) Action :=
  a <- get_self ;;
  st <- lift (deref (stats a)) ;;
  let damage_multiplier :=
    if py_in attack_type (MonsterStats.elemental_weakness st) then f1_5
    else if py_in attack_type (MonsterStats.elemental_resistance st) then f0_7
    else f1_0 in
  let status_duration :=
    match status_effect with
    | Some e =>
        if py_in e (MonsterStats.status_resistance st)
        then fmul status_duration f0_5 else status_duration
    | None => status_duration
    end in
  scaled <- liftO (int_mul_float damage damage_multiplier) ;;
  final_damage <- liftO (int_of_float scaled) ;;
  h <- liftO (num_sub_int (current_health a) final_damage) ;;
  modify (set_current_health (max0 h)) ;;
  (match status_effect with
   | Some e =>
       if fltb fzero status_duration
       then
         now <- lift time ;;
         a <- get_self ;;
         modify (set_status_effects
                   (status_effects a ++
                    [StatusEffectInstance.mk e status_duration f1_0 now]))
       else ret tt
   | None => ret tt
   end) ;;
  a <- get_self ;;
  if num_le0 (current_health a) then ret (Defeated final_damage)
  else
    threshold <- liftO (int_mul_float (MonsterStats.max_health st) f0_2) ;;
    if num_lt_float (current_health a) threshold
    then
      r <- lift random ;;
      if fltb r f0_3
      then
        modify (set_state "fleeing") ;;
        ret (Flee final_damage (current_health a))
      else ret (Damaged final_damage (current_health a))
    else ret (Damaged final_damage (current_health a)).

Definition get_state : M (St t) MonsterState.t :=
  a <- get_self ;;
  st <- lift (deref (stats a)) ;;
  ret (MonsterState.mk
         (MonsterStats.name st)
         (MonsterType.value (MonsterStats.monster_type st))
         (current_health a)
         (MonsterStats.max_health st)
         (position a)
         (is_enraged a) (is_stunned a) (is_sleeping a) (is_trapped a)
         (is_mounted a)
         (state a)
         (map (fun effect =>
                 StatusEffect.value (StatusEffectInstance.effect effect))
              (status_effects a))
         (match target_player a with
          | Some player => Some (Player.id player)
          | None => None
          end)).

End MonsterAI.

(** * class MonsterSpawner *)

Module MonsterSpawner.

(** [monster_templates] maps a species id to the address of its
    [MonsterStats] object; [spawn_timer] starts as the int [0] and only ever
    has floats added to it, so it is a float here. *)
Record t : Type := mk {
  monster_templates : list (string * loc);
  active_monsters : list (string * MonsterAI.t);
  spawn_points : list Position.t;
  max_monsters : Z;
  spawn_timer : float;
  spawn_interval : float
}.

Definition set_active_monsters (v : list (string * MonsterAI.t)) (s : t) : t :=
  mk (monster_templates s) v (spawn_points s) (max_monsters s)
     (spawn_timer s) (spawn_interval s).

Definition set_spawn_points (v : list Position.t) (s : t) : t :=
  mk (monster_templates s) (active_monsters s) v (max_monsters s)
     (spawn_timer s) (spawn_interval s).

Definition set_spawn_timer (v : float) (s : t) : t :=
  mk (monster_templates s) (active_monsters s) (spawn_points s)
     (max_monsters s) v (spawn_interval s).

Definition great_jaggi : MonsterStats.t :=
  MonsterStats.mk "Great Jaggi" MonsterType.GREAT_JAGGI 800 800 45 20
    (Z2F 3) "medium" [AttackType.FIRE] [AttackType.WATER]
    [StatusEffect.PARALYSIS] [StatusEffect.POISON] (lit 3 10) (lit 15 10).

Definition rathian : MonsterStats.t :=
  MonsterStats.mk "Rathian" MonsterType.RATHIAN 2000 2000 80 35
    (Z2F 4) "large" [AttackType.THUNDER] [AttackType.FIRE]
    [StatusEffect.STUN] [StatusEffect.POISON] (lit 4 10) (lit 18 10).

Definition tigrex : MonsterStats.t :=
  MonsterStats.mk "Tigrex" MonsterType.TIGREX 3000 3000 120 50
    (Z2F 5) "large" [AttackType.THUNDER] [AttackType.FIRE; AttackType.ICE]
    [StatusEffect.STUN] [StatusEffect.PARALYSIS] (lit 5 10) (Z2F 2).

(** Each template is one object on the heap. *)
Definition _create_monster_templates : M Env (list (string * loc)) :=
  l1 <- alloc great_jaggi ;;
  l2 <- alloc rathian ;;
  l3 <- alloc tigrex ;;
  ret [("great_jaggi", l1); ("rathian", l2); ("tigrex", l3)].

Definition __init__ : M Env t :=
  templates <- _create_monster_templates ;;
  ret (mk templates [] [] 10 fzero (Z2F 30)).

Definition add_spawn_point (position : Position.t) : M (St t) unit :=
  modify (fun s => set_spawn_points (spawn_points s ++ [position]) s).

Definition spawn_monster (monster_type : string) (position : Position.t)
  : M (St t) (option string) :=
  sp <- get_self ;;
  if Z.of_nat (length (active_monsters sp)) >=? max_monsters sp then ret None
  else
    match dict_get monster_type (monster_templates sp) with
    | None => ret None
    | Some monster_stats =>
        now <- lift time ;;
        seconds <- liftO (int_of_float now) ;;
        tag <- lift (randint 1000 9999) ;;
        let monster_id :=
          monster_type +:+ "_" +:+ pretty seconds +:+ "_" +:+ pretty tag in
        monster_ai <- lift (MonsterAI.__init__ monster_stats position) ;;
        modify (fun s =>
                  set_active_monsters
                    (dict_set monster_id monster_ai (active_monsters s)) s) ;;
        ret (Some monster_id)
    end.

(** The first loop of [update_monsters]: every agent is updated in the
    dictionary's order; the result is the dictionary with the mutated
    agents, the list [updates] and the list [monsters_to_remove].  An
    exception raised by an agent's [update] is caught here. *)
Fixpoint sweep (delta_time : float) (nearby_players : list Player.t)
    (monsters : list (string * MonsterAI.t)) (e : Env)
  : list (string * MonsterAI.t) * list (string * Action) * list string * Env :=
  match monsters with
  | [] => ([], [], [], e)
  | (monster_id, monster) :: rest =>
      let '(r, s) := MonsterAI.update delta_time nearby_players
                       (mkSt monster e) in
      let '(rest', updates, monsters_to_remove, e') :=
        sweep delta_time nearby_players rest (env s) in
      match r with
      | Ok upd =>
          ((monster_id, self s) :: rest',
           (monster_id, upd) :: updates,
           if String.eqb (action upd) "defeated"
           then monster_id :: monsters_to_remove else monsters_to_remove,
           e')
      | Raise _ =>
          ((monster_id, self s) :: rest', updates,
           monster_id :: monsters_to_remove, e')
      end
  end.

Definition remove_all (ids : list string) (d : list (string * MonsterAI.t))
  : list (string * MonsterAI.t) :=
  fold_left (fun acc monster_id => dict_del monster_id acc) ids d.

Definition _spawn_random_monster : M (St t) unit :=
  sp <- get_self ;;
  match spawn_points sp with
  | [] => ret tt
  | _ =>
      spawn_point <- lift (choice (spawn_points sp)) ;;
      let monster_types := dict_keys (monster_templates sp) in
      monster_type <- lift (choice monster_types) ;;
      spawn_monster monster_type spawn_point ;;
      ret tt
  end.

Definition update_monsters (delta_time : float)
    (nearby_players : list Player.t)
  : M (St t) (list (string * Action)) :=
  fun s0 =>
    let '(monsters, updates, monsters_to_remove, e) :=
      sweep delta_time nearby_players (active_monsters (self s0)) (env s0) in
    (modify (set_active_monsters (remove_all monsters_to_remove monsters)) ;;
     modify (fun s => set_spawn_timer (fadd (spawn_timer s) delta_time) s) ;;
     sp <- get_self ;;
     (if fleb (spawn_interval sp) (spawn_timer sp)
         && (Z.of_nat (length (active_monsters sp)) <? max_monsters sp)
      then _spawn_random_monster ;; modify (set_spawn_timer fzero)
      else ret tt) ;;
     ret updates) (mkSt (self s0) e).

(** Run a method of the agent stored under [monster_id]; the agent is
    mutated in place. *)
Definition on_monster {A} (monster_id : string) (monster : MonsterAI.t)
    (m : M (St MonsterAI.t) A) : M (St t) A :=
  fun s =>
    let '(r, s') := m (mkSt monster (env s)) in
    (r, mkSt (set_active_monsters
                (dict_set monster_id (self s') (active_monsters (self s)))
                (self s))
             (env s')).

Definition damage_monster (monster_id : string) (damage : Z)
    (attack_type : AttackType.t) (status_effect : option StatusEffect.t)
    (status_duration : float) : M (St t) (option Action) :=
  sp <- get_self ;;
  match dict_get monster_id (active_monsters sp) with
  | Some monster =>
      r <- on_monster monster_id monster
             (MonsterAI.take_damage damage attack_type status_effect
                status_duration) ;;
      ret (Some r)
  | None => ret None
  end.

Definition get_monster_state (monster_id : string)
  : M (St t) (option MonsterState.t) :=
  sp <- get_self ;;
  match dict_get monster_id (active_monsters sp) with
  | Some monster =>
      r <- lift (call monster MonsterAI.get_state) ;;
      ret (Some (fst r))
  | None => ret None
  end.

End MonsterSpawner.

(** * Callers *)

(** One call of the spawner's public interface. *)
Inductive Call : Type :=
| CallAddSpawnPoint (position : Position.t)
| CallSpawn (monster_type : string) (position : Position.t)
| CallUpdate (delta_time : float) (nearby_players : list Player.t)
| CallDamage (monster_id : string) (damage : Z) (attack_type : AttackType.t)
             (status_effect : option StatusEffect.t) (status_duration : float).

Definition run_call (c : Call) : M (St MonsterSpawner.t) unit :=
  match c with
  | CallAddSpawnPoint p => MonsterSpawner.add_spawn_point p
  | CallSpawn ty p => MonsterSpawner.spawn_monster ty p ;; ret tt
  | CallUpdate dt players => MonsterSpawner.update_monsters dt players ;; ret tt
  | CallDamage i d ty st dur =>
      MonsterSpawner.damage_monster i d ty st dur ;; ret tt
  end.

(** A caller that goes on after an exception: the state each call leaves is
    the state the next one starts from. *)
Fixpoint run_calls (cs : list Call) (s : St MonsterSpawner.t)
  : St MonsterSpawner.t :=
  match cs with
  | [] => s
  | c :: cs' => run_calls cs' (snd (run_call c s))
  end.

(** * Concrete runs *)

Module Scenario.

(** A C library whose [pow(x, 2.0)] is the correctly rounded square and
    leaves no [errno].  In the runs below the operands handed to [pow] are
    3, 44 and 45 (CPython answers 0 and 1 itself), whose squares are
    doubles: every [pow] within one unit in the last place returns them as
    this one does. *)
Definition exact_pow : libm := fun x => (fmul x x, 0).

(** Two operands at which glibc 2.36's [pow(x, 2.0)] is not the rounded
    square: [1.5781946528381936 ** 2] is [2.490698362247066], one unit below
    the product, and [1.3967822433583577 ** 2] is [1.9510006353612064], one
    unit above it.  [glibc_pow] returns these two values, and the product
    elsewhere. *)
Definition x_low : float := S754_finite false 7107556850440198 (-52).
Definition x_high : float := S754_finite false 6290547990706425 (-52).

Definition glibc_pow : libm :=
  fun x =>
    if feqb x x_low then (S754_finite false 5608554108054096 (-51), 0)
    else if feqb x x_high then (S754_finite false 8786525734412330 (-52), 0)
    else (fmul x x, 0).

(** Two players at about 2.0 from the origin:
    [(1.5781946528381936, 0, 1.2285363803131493)] and
    [(1.3967822433583577, 0, 1.4314326266502364)]. *)
Definition player_low : Player.t :=
  Player.mk "low" (Some "Low")
    (Position.mk x_low fzero (S754_finite false 5532835984589397 (-52)))
    (Some 0).

Definition player_high : Player.t :=
  Player.mk "high" (Some "High")
    (Position.mk x_high fzero (S754_finite false 6446599443987975 (-52)))
    (Some 0).

(** A frozen clock at 1000 s; every [random()] draw is 0.5. *)
Definition quiet : Env :=
  mkEnv [] (fun _ => Z2F 1000) 0 (fun _ => lit 1 2) (fun _ => 0%nat) 0
        exact_pow.

(** A clock that advances 10 s between two readings; every [random()] draw
    is 0.8. *)
Definition ticking : Env :=
  mkEnv [] (fun n => Z2F (1000 + 10 * Z.of_nat n)) 0 (fun _ => lit 8 10)
        (fun n => n) 0 exact_pow.

Definition at_ (a b c : Z) : Position.t :=
  Position.mk (Z2F a) (Z2F b) (Z2F c).

(** A player one unit away from [(5, 0, 5)], without armour. *)
Definition hunter : Player.t :=
  Player.mk "player1" (Some "Hunter1") (at_ 6 0 5) (Some 0).

Definition after {S A} (m : M S A) (s : S) : S := snd (m s).

(** [MonsterSpawner()] *)
Definition start (e : Env) : St MonsterSpawner.t :=
  let '(r, e') := MonsterSpawner.__init__ e in
  mkSt (match r with
        | Ok sp => sp
        | Raise _ => MonsterSpawner.mk [] [] [] 0 fzero fzero
        end) e'.

(** One Great Jaggi at [(5, 0, 5)]; its id is [jaggi_id] in both worlds. *)
Definition jaggi_id : string := "great_jaggi_1000_1000".

Definition one_jaggi (e : Env) : St MonsterSpawner.t :=
  after (MonsterSpawner.spawn_monster "great_jaggi" (at_ 5 0 5)) (start e).

Definition hit (damage : Z) (attack_type : AttackType.t)
    (status_effect : option StatusEffect.t) (status_duration : float)
  : M (St MonsterSpawner.t) (option Action) :=
  MonsterSpawner.damage_monster jaggi_id damage attack_type status_effect
    status_duration.

Definition tick (delta_time : Z) (players : list Player.t)
  : M (St MonsterSpawner.t) (list (string * Action)) :=
  MonsterSpawner.update_monsters (Z2F delta_time) players.

(** The agent stored under [jaggi_id]. *)
Definition jaggi (s : St MonsterSpawner.t) : option MonsterAI.t :=
  dict_get jaggi_id (MonsterSpawner.active_monsters (self s)).

(** The agent stored under [jaggi_id] as the object of a method call
    ([blank] when there is none). *)
Definition blank : MonsterAI.t :=
  MonsterAI.mk 0%nat (at_ 0 0 0) (at_ 0 0 0) (PInt 0) false false false false
    false [] fzero fzero "idle" None fzero fzero fzero fzero fzero [] 0%nat.

Definition agent_of (s : St MonsterSpawner.t) : St MonsterAI.t :=
  mkSt (default blank (jaggi s)) (env s).

(** The values under ["action"] of a sweep's reports. *)
Definition actions (r : outcome (list (string * Action))) : list string :=
  match r with
  | Ok updates => map (fun u => action (snd u)) updates
  | Raise _ => []
  end.

(** The [attack] field of the template at an address. *)
Definition template_attack {S} (s : St S) (l : loc) : option Z :=
  MonsterStats.attack <$> heap (env s) !! l.

(** Eleven spawns in a row, the clock advancing between them. *)
Definition eleven_spawns : list Call :=
  replicate 11 (CallSpawn "great_jaggi" (at_ 5 0 5)).

(** Two Great Jaggis; the first is brought to a quarter of its health. *)
Definition second_jaggi_id : string := "great_jaggi_1020_1004".

Definition two_jaggis : St MonsterSpawner.t :=
  after (hit 600 AttackType.PHYSICAL None fzero)
    (after (MonsterSpawner.spawn_monster "great_jaggi" (at_ 50 0 50))
       (one_jaggi ticking)).

(** Two Great Jaggis, both brought to a quarter of their health. *)
Definition two_weak_jaggis : St MonsterSpawner.t :=
  after (MonsterSpawner.damage_monster second_jaggi_id 600
           AttackType.PHYSICAL None fzero)
    two_jaggis.

(** The agent stored under an id. *)
Definition agent (monster_id : string) (s : St MonsterSpawner.t)
  : option MonsterAI.t :=
  dict_get monster_id (MonsterSpawner.active_monsters (self s)).

(** A Great Jaggi at a quarter of its health that has enraged and used its
    first pattern on the hunter next to it. *)
Definition enraged_jaggi : St MonsterSpawner.t :=
  after (tick 1 [hunter])
    (after (hit 600 AttackType.PHYSICAL None fzero) (one_jaggi ticking)).

(** A Great Jaggi paralysed for 100 s, the hunter one unit away. *)
Definition paralysed_jaggi : St MonsterSpawner.t :=
  after (hit 1 AttackType.PHYSICAL (Some StatusEffect.PARALYSIS) (Z2F 100))
    (one_jaggi ticking).

(** A Great Jaggi paralysed for 1000 s at time 1020, and again for 5 s at
    time 1030. *)
Definition twice_paralysed_jaggi : St MonsterSpawner.t :=
  after (hit 1 AttackType.PHYSICAL (Some StatusEffect.PARALYSIS) (Z2F 5))
    (after (hit 1 AttackType.PHYSICAL (Some StatusEffect.PARALYSIS)
              (Z2F 1000))
       (one_jaggi ticking)).

End Scenario.
Import Scenario.

(** * Vocabulary of the properties *)

(** Every value [m] returns satisfies [Q]. *)
Definition returns {S A} (Q : A -> Prop) (m : M S A) : Prop :=
  forall s a, fst (m s) = Ok a -> Q a.

(** Whatever [m] does, returning or raising, the state it leaves is related
    to the state it started from. *)
Definition stable {S A} (R : S -> S -> Prop) (m : M S A) : Prop :=
  forall s, R s (snd (m s)).

(** Python's [x >= y] on floats. *)
Definition fgeb (x y : float) : bool := fleb y x.

(** The report is not Defeated. *)
Definition not_defeated (act : Action) : Prop := action act <> "defeated".

(** A health that is not negative is not made negative. *)
Definition keeps_health_nonneg (s s' : St MonsterAI.t) : Prop :=
  num_lt0 (MonsterAI.current_health (self s)) = false ->
  num_lt0 (MonsterAI.current_health (self s')) = false.

(** An agent never rebinds [stats] or [attack_patterns]; it keeps a valid
    pattern index valid; and on the heap it writes nothing but the [attack]
    field of its own template. *)
Definition frame (s s' : St MonsterAI.t) : Prop :=
  MonsterAI.stats (self s') = MonsterAI.stats (self s) /\
  MonsterAI.attack_patterns (self s') = MonsterAI.attack_patterns (self s) /\
  ((MonsterAI.current_pattern_index (self s)
    < length (MonsterAI.attack_patterns (self s)))%nat ->
   (MonsterAI.current_pattern_index (self s')
    < length (MonsterAI.attack_patterns (self s)))%nat) /\
  forall l,
    MonsterStats.set_attack 0 <$> heap (env s') !! l
    = MonsterStats.set_attack 0 <$> heap (env s) !! l /\
    (l <> MonsterAI.stats (self s) -> heap (env s') !! l = heap (env s) !! l).

(** The heap is left as it was. *)
Definition heap_same {Self} (s s' : St Self) : Prop :=
  heap (env s') = heap (env s).

(** The spawner never rebinds its templates or its cap, and a population
    within the cap stays within it. *)
Definition sp_frame (s s' : St MonsterSpawner.t) : Prop :=
  MonsterSpawner.monster_templates (self s')
  = MonsterSpawner.monster_templates (self s) /\
  MonsterSpawner.max_monsters (self s') = MonsterSpawner.max_monsters (self s) /\
  (Z.of_nat (length (MonsterSpawner.active_monsters (self s)))
   <= MonsterSpawner.max_monsters (self s) ->
   Z.of_nat (length (MonsterSpawner.active_monsters (self s')))
   <= MonsterSpawner.max_monsters (self s)).

(** The population fits the cap. *)
Definition within_cap (s : St MonsterSpawner.t) : Prop :=
  Z.of_nat (length (MonsterSpawner.active_monsters (self s)))
  <= MonsterSpawner.max_monsters (self s).

(** Every exception [m] raises satisfies [Q]. *)
Definition raises {S A} (Q : exn -> Prop) (m : M S A) : Prop :=
  forall s x, fst (m s) = Raise x -> Q x.

(** The same for an outcome. *)
Definition oraises {A} (Q : exn -> Prop) (o : outcome A) : Prop :=
  forall x, o = Raise x -> Q x.

(** The pattern index is within the pattern list. *)
Definition wf_patterns (a : MonsterAI.t) : Prop :=
  (MonsterAI.current_pattern_index a
   < length (MonsterAI.attack_patterns a))%nat.

(** Neither of the two exceptions list indexing and [%] can raise. *)
Definition selection_safe (x : exn) : Prop :=
  x <> IndexError /\ x <> ZeroDivisionError.

(** The multiplier [take_damage] applies: 1.5 on a weakness, 0.7 on a
    resistance, 1.0 otherwise. *)
Definition damage_multiplier (st : MonsterStats.t) (attack_type : AttackType.t)
  : float :=
  if py_in attack_type (MonsterStats.elemental_weakness st) then f1_5
  else if py_in attack_type (MonsterStats.elemental_resistance st) then f0_7
  else f1_0.

(** The value under ["damage"] of a report of [take_damage]. *)
Definition reported_damage (act : Action) : option Z :=
  match act with
  | Defeated d | Flee d _ | Damaged d _ => Some d
  | _ => None
  end.


(** A method leaves an attribute of the agent, or a tuple of them, as it
    was. *)
Definition keeps {X} (f : MonsterAI.t -> X) (s s' : St MonsterAI.t) : Prop :=
  f (self s') = f (self s).

(** What choosing a behaviour reads and sensing does not write. *)
Definition sensed (a : MonsterAI.t) :=
  (MonsterAI.position a, MonsterAI.last_attack_time a,
   MonsterAI.current_pattern_index a, MonsterAI.attack_patterns a).

(** What the choice was made on and behaving does not write. *)
Definition gate (a : MonsterAI.t) :=
  (MonsterAI.is_stunned a, MonsterAI.is_sleeping a,
   MonsterAI.attack_cooldown a).

(** An attempt, hit or miss. *)
Definition attempt (act : Action) : Prop :=
  action act = "attack" \/ action act = "miss".

(** The index one slot further, around the pattern list. *)
Definition next_index (a : MonsterAI.t) : nat :=
  ((MonsterAI.current_pattern_index a + 1)
     mod length (MonsterAI.attack_patterns a))%nat.

(** Running [m] on an object transformed by [g] is running [m] and then
    transforming the object: [m] neither reads nor writes what [g] changes. *)
Definition commutes {Self A} (g : Self -> Self) (m : M (St Self) A) : Prop :=
  forall s,
    m (mkSt (g (self s)) (env s))
    = (fst (m s), mkSt (g (self (snd (m s)))) (env (snd (m s)))).

(** The agent with the [cooldown] of every pattern replaced. *)
Definition recool (f : AttackPattern.t -> float) (a : MonsterAI.t)
  : MonsterAI.t :=
  MonsterAI.set_attack_patterns
    ((fun p => AttackPattern.set_cooldown (f p) p)
       <$> MonsterAI.attack_patterns a) a.

(** ** Further vocabulary *)

(** An instance is still running at a clock reading. *)
Definition active_at (now : float) (i : StatusEffectInstance.t) : bool :=
  fltb (fsub now (StatusEffectInstance.start_time i))
       (StatusEffectInstance.duration i).

(** The flag of a kind after a pass over the instances: every instance of
    the kind overwrites it, with whether the instance is still running. *)
Fixpoint settle (kind : StatusEffect.t) (now : float)
    (effects : list StatusEffectInstance.t) (flag : bool) : bool :=
  match effects with
  | [] => flag
  | i :: rest =>
      settle kind now rest
        (if bool_decide (StatusEffectInstance.effect i = kind)
         then active_at now i else flag)
  end.

(** The four flags. *)
Definition flags (a : MonsterAI.t) :=
  (MonsterAI.is_stunned a, MonsterAI.is_sleeping a, MonsterAI.is_trapped a,
   MonsterAI.is_mounted a).

(** The last instance of a kind, in list order. *)
Definition last_of (kind : StatusEffect.t)
    (effects : list StatusEffectInstance.t) : option StatusEffectInstance.t :=
  last (List.filter
          (fun i => bool_decide (StatusEffectInstance.effect i = kind))
          effects).

(** The flag of a kind after a pass: whether the last instance of the kind
    is still running, and the old flag when there is no instance. *)
Definition decided (kind : StatusEffect.t) (now : float)
    (effects : list StatusEffectInstance.t) (flag : bool) : bool :=
  match last_of kind effects with
  | Some i => active_at now i
  | None => flag
  end.

(** Health and what rage sets: the flag, the attack timer, the rage timer. *)
Definition vitals (a : MonsterAI.t) :=
  (MonsterAI.current_health a, MonsterAI.is_enraged a,
   MonsterAI.attack_cooldown a, MonsterAI.rage_timer a).

(** What [update] does before it chooses a behaviour: the status pass and
    the rage test. *)
Definition sense (delta_time : float) : M (St MonsterAI.t) unit :=
  MonsterAI._update_status_effects delta_time ;;
  a <- get_self ;;
  st <- lift (deref (MonsterAI.stats a)) ;;
  health_percentage <-
    liftO (num_truediv_int (MonsterAI.current_health a)
             (MonsterStats.max_health st)) ;;
  if fleb health_percentage (MonsterStats.rage_threshold st)
     && negb (MonsterAI.is_enraged a)
  then MonsterAI._become_enraged else ret tt.

(** What [update] does once the status pass and the rage test are done. *)
Definition behave (delta_time current_time : float)
    (nearby_players : list Player.t) : M (St MonsterAI.t) Action :=
  nearest_player <- MonsterAI._find_nearest_player nearby_players ;;
  match nearest_player with
  | Some player =>
      modify (MonsterAI.set_target_player (Some player)) ;;
      a <- get_self ;;
      player_distance <-
        liftP (Position.distance_to (MonsterAI.position a)
                 (Player.position player)) ;;
      if fleb player_distance f2_0
         && negb (MonsterAI.is_stunned a) && negb (MonsterAI.is_sleeping a)
      then MonsterAI._perform_attack player current_time
      else if fleb player_distance f15_0
              && negb (MonsterAI.is_stunned a)
              && negb (MonsterAI.is_sleeping a)
      then MonsterAI._chase_player player delta_time
      else MonsterAI._idle_behavior delta_time
  | None => MonsterAI._idle_behavior delta_time
  end.

(** The clock read once more. *)
Definition tick_env (e : Env) : Env :=
  mkEnv (heap e) (clock e) (S (ticks e)) (random_float e) (random_nat e)
        (draws e) (libm_pow e).

(** The C library is the one it was. *)
Definition pow_same {Self} (s s' : St Self) : Prop :=
  libm_pow (env s') = libm_pow (env s).

(** The environment is left as it was: no clock reading, no random draw, no
    write to a template. *)
Definition env_same {Self} (s s' : St Self) : Prop := env s' = env s.

(** The agent [a'] is the agent [a] but for its health, its status
    instances and its [state]. *)
Definition hurt_only (a a' : MonsterAI.t) : Prop :=
  a' = MonsterAI.set_state (MonsterAI.state a')
         (MonsterAI.set_status_effects (MonsterAI.status_effects a')
            (MonsterAI.set_current_health (MonsterAI.current_health a') a)).

(** The instances a hit adds: one, of intensity 1.0 and started [now], when a
    status comes with a duration that is positive after the species'
    resistance has halved it; none otherwise. *)
Definition applied_status (st : MonsterStats.t)
    (status_effect : option StatusEffect.t) (status_duration now : float)
  : list StatusEffectInstance.t :=
  match status_effect with
  | Some e =>
      let d := if py_in e (MonsterStats.status_resistance st)
               then fmul status_duration f0_5 else status_duration in
      if fltb fzero d then [StatusEffectInstance.mk e d f1_0 now] else []
  | None => []
  end.

(** [health < max_health * 0.2], the test before the flight draw. *)
Definition weakened (st : MonsterStats.t) (health : num) : bool :=
  match int_mul_float (MonsterStats.max_health st) f0_2 with
  | Ok threshold => num_lt_float health threshold
  | Raise _ => false
  end.

(** A double that is a number: neither NaN nor an infinity. *)
Definition is_finite (x : float) : bool := negb (is_nan x) && negb (is_inf x).

(** A position whose three coordinates are numbers. *)
Definition in_the_world (p : Position.t) : bool :=
  is_finite (Position.x p) && is_finite (Position.y p)
  && is_finite (Position.z p).

(** The exceptions of float arithmetic: a result out of range, or no
    result. *)
Definition arithmetic (x : exn) : Prop := x = OverflowError \/ x = ValueError.

(** What a returning [m] returns and the state it leaves satisfy [Q]. *)
Definition ensures {S A} (Q : A -> S -> Prop) (m : M S A) : Prop :=
  forall s a s', m s = (Ok a, s') -> Q a s'.

(** The value under ["position"] of a report of [update]. *)
Definition reported_position (act : Action) : option Position.t :=
  match act with
  | Cooldown p | Attack _ _ p _ _ _ | Miss p | Stunned p | Chase p _ _
  | Sleep p | Patrol p | Idle p => Some p
  | _ => None
  end.

(** The report carries the position the agent is at. *)
Definition at_position (act : Action) (s : St MonsterAI.t) : Prop :=
  reported_position act = Some (MonsterAI.position (self s)).

(** The agent with its [state] and the three traits drawn at construction
    replaced. *)
Definition with_temper (state : string)
    (aggression_level intelligence patience : float) (a : MonsterAI.t)
  : MonsterAI.t :=
  MonsterAI.mk (MonsterAI.stats a) (MonsterAI.position a)
    (MonsterAI.target_position a) (MonsterAI.current_health a)
    (MonsterAI.is_enraged a) (MonsterAI.is_stunned a)
    (MonsterAI.is_sleeping a) (MonsterAI.is_trapped a)
    (MonsterAI.is_mounted a) (MonsterAI.status_effects a)
    (MonsterAI.last_attack_time a) (MonsterAI.attack_cooldown a) state
    (MonsterAI.target_player a) (MonsterAI.rage_timer a)
    (MonsterAI.last_movement a) aggression_level intelligence patience
    (MonsterAI.attack_patterns a) (MonsterAI.current_pattern_index a).

(** The health a report of [take_damage] speaks of is the health [health]:
    the ["health"] entry of a Flee or Damaged report, and one that is
    [<= 0] for Defeated, whose entry is the literal [0]. *)
Definition report_agrees (act : Action) (health : num) : Prop :=
  match act with
  | Defeated _ => num_le0 health = true
  | Flee _ reported | Damaged _ reported => reported = health
  | _ => False
  end.

(** An agent as the constructor leaves it: at [p], with the health of its
    template [st], no flag, no status, no target, the pattern table of its
    species, and [last_movement] the time [now] of its construction; the
    three traits are random draws. *)
Definition newborn (stats : loc) (p : Position.t) (st : MonsterStats.t)
    (now : float) (a : MonsterAI.t) : Prop :=
  a = MonsterAI.mk stats p p (PInt (MonsterStats.health st)) false false false
        false false [] fzero f2_0 "idle" None fzero now
        (MonsterAI.aggression_level a) (MonsterAI.intelligence a)
        (MonsterAI.patience a)
        (MonsterAI.table_get (MonsterStats.monster_type st)
           MonsterAI.base_patterns MonsterAI.default_patterns)
        0%nat.

(** The ids of the population, in the dictionary's order. *)
Definition population (s : St MonsterSpawner.t) : list string :=
  dict_keys (MonsterSpawner.active_monsters (self s)).

(** The ids before are the ids after, but for at most one appended. *)
Definition one_more_at_most (before after : list string) : Prop :=
  exists extra, after = before ++ extra /\ (length extra <= 1)%nat.

(** The id of an entry is none of [ids]. *)
Definition spared (ids : list string) (entry : string * MonsterAI.t) : bool :=
  forallb (fun i => negb (String.eqb i (fst entry))) ids.

(** The health after the poison of one status pass: every poison instance
    still running takes [intensity * delta_time], one after the other, with
    no floor. *)
Fixpoint poisoned (now delta_time : float)
    (effects : list StatusEffectInstance.t) (health : num) : outcome num :=
  match effects with
  | [] => Ok health
  | i :: rest =>
      if active_at now i
         && bool_decide (StatusEffectInstance.effect i = StatusEffect.POISON)
      then obind (num_sub_float health
                    (fmul (StatusEffectInstance.intensity i) delta_time))
                 (poisoned now delta_time rest)
      else poisoned now delta_time rest health
  end.

(** No poison instance of [effects] is running at [now]. *)
Definition poison_free (now : float) (effects : list StatusEffectInstance.t)
  : bool :=
  forallb (fun i => negb (active_at now i
                          && bool_decide (StatusEffectInstance.effect i
                                          = StatusEffect.POISON)))
          effects.

(** A Great Jaggi brought to a quarter of its health, and one poisoned for
    100 s (50 s after its resistance). *)
Definition weakened_jaggi : St MonsterSpawner.t :=
  after (hit 600 AttackType.PHYSICAL None fzero) (one_jaggi ticking).

Definition poisoned_jaggi : St MonsterSpawner.t :=
  after (hit 1 AttackType.PHYSICAL (Some StatusEffect.POISON) (Z2F 100))
    (one_jaggi ticking).

(** What a call returned, or [d] when it raised. *)
Definition returned {A} (d : A) (o : outcome A) : A :=
  match o with Ok a => a | Raise _ => d end.

(** The attack timer and the place in the pattern cycle. *)
Definition attack_memory (a : MonsterAI.t) :=
  (MonsterAI.last_attack_time a, MonsterAI.current_pattern_index a).

(** Sleep, Patrol or Idle: the reports of [_idle_behavior]. *)
Definition at_rest (act : Action) : Prop :=
  action act = "sleep" \/ action act = "patrol" \/ action act = "idle".

(** * The number model against Python *)

(** [0.7] is the double [0x1.6666666666666p-1]. *)
Example lit_0_7 : lit 7 10 = S754_finite false 6305039478318694 (-53).
Proof. vm_compute. reflexivity. Qed.

(** [int(90 * 0.7)] is 62, not 63: the product is rounded to binary64
    before it is truncated. *)
Example int_90_times_0_7 :
  obind (int_mul_float 90 (lit 7 10)) int_of_float = Ok 62.
Proof. vm_compute. reflexivity. Qed.

(** [round(37.5)] is 38 and [round(22.5)] is 22. *)
Example round_half_even :
  py_round (lit 75 2) = Ok 38 /\ py_round (lit 45 2) = Ok 22.
Proof. vm_compute. split; reflexivity. Qed.

(** [3.0 * 0.3] is [0.8999999999999999]. *)
Example patrol_speed :
  fmul (Z2F 3) (lit 3 10) = S754_finite false 8106479329266892 (-53).
Proof. vm_compute. reflexivity. Qed.

(** [**] follows the C library.  With glibc's values the first player is at
    [2.0] and the second at [2.0000000000000004], and the first is the
    nearest; with the rounded products it is the other way round. *)
Example distance_follows_pow :
  let here := Position.mk fzero fzero fzero in
  let far := S754_finite false 4503599627370497 (-51) in
  Position.distance_to here (Player.position player_low) glibc_pow
  = Ok (Z2F 2) /\
  Position.distance_to here (Player.position player_high) glibc_pow
  = Ok far /\
  MonsterAI.nearest_loop here [player_low; player_high] None finf glibc_pow
  = Ok (Some player_low) /\
  Position.distance_to here (Player.position player_low) exact_pow
  = Ok far /\
  Position.distance_to here (Player.position player_high) exact_pow
  = Ok (Z2F 2) /\
  MonsterAI.nearest_loop here [player_low; player_high] None finf exact_pow
  = Ok (Some player_high).
Proof. vm_compute. repeat split. Qed.

(** Eleven spawns leave ten agents. *)
Example eleven_spawns_ten_agents :
  length (MonsterSpawner.active_monsters
            (self (run_calls eleven_spawns (start ticking)))) = 10%nat.
Proof. vm_compute. reflexivity. Qed.

(** * Lemmas on the monad *)

(** Numbers stay folded under [cbn]. *)
#[local] Arguments int_mul_float : simpl never.
#[local] Arguments int_of_float : simpl never.
#[local] Arguments num_sub_int : simpl never.
#[local] Arguments max0 : simpl never.
#[local] Arguments num_le0 : simpl never.
#[local] Arguments num_lt_float : simpl never.
#[local] Arguments py_in : simpl never.
#[local] Arguments fmul : simpl never.
#[local] Arguments fsub : simpl never.
#[local] Arguments fltb : simpl never.
#[local] Arguments fleb : simpl never.
#[local] Arguments lit : simpl never.
#[local] Arguments Z2F : simpl never.
#[local] Arguments fadd : simpl never.
#[local] Arguments fdiv : simpl never.
#[local] Arguments fsqrt : simpl never.
#[local] Arguments feqb : simpl never.
#[local] Arguments float_of_int : simpl never.
#[local] Arguments Position.distance_to : simpl never.
#[local] Arguments Position.move_towards : simpl never.

Lemma bind_run {S A B} (m : M S A) (k : A -> M S B) (s : S) :
  bind m k s =
  match m s with
  | (Ok a, s') => k a s'
  | (Raise e, s') => (Raise e, s')
  end.
Proof. reflexivity. Qed.

Section Returns.
Context {S A : Type} (Q : A -> Prop).

Lemma returns_ret (a : A) : Q a -> returns (S := S) Q (ret a).
Proof. intros H s b E. injection E as <-. exact H. Qed.

Lemma returns_raise (e : exn) : returns (S := S) Q (raise e).
Proof. intros s b E. discriminate E. Qed.

Lemma returns_bind {B} (m : M S B) (k : B -> M S A) :
  (forall x, returns Q (k x)) -> returns Q (bind m k).
Proof.
  intros H s a. rewrite bind_run.
  destruct (m s) as [[x | e] s']; cbn.
  - apply H.
  - discriminate.
Qed.
End Returns.

Ltac returns_tac :=
  repeat first
    [ progress cbv zeta
    | match goal with
      | |- returns _ (bind _ _) => apply returns_bind; intros ?
      | |- returns _ (raise _) => apply returns_raise
      | |- returns _ (ret _) => apply returns_ret
      | |- returns _ (if ?c then _ else _) => destruct c
      | |- returns _ (match ?x with _ => _ end) => destruct x
      end ].

Lemma bind_Ok_inv {S A B} (m : M S A) (k : A -> M S B) s b s' :
  bind m k s = (Ok b, s') ->
  exists a s1, m s = (Ok a, s1) /\ k a s1 = (Ok b, s').
Proof.
  rewrite bind_run. destruct (m s) as [[a | e] s1]; [ eauto | discriminate ].
Qed.

Lemma lift_inv {Self A} (m : M Env A) (s : St Self) r s' :
  lift m s = (r, s') -> self s' = self s.
Proof.
  unfold lift. destruct (m (env s)) as [r' e']. intros [= _ <-]. reflexivity.
Qed.

Section Stable.
Context {S : Type} (R : S -> S -> Prop).
Hypothesis R_refl : forall s, R s s.
Hypothesis R_trans : forall s1 s2 s3, R s1 s2 -> R s2 s3 -> R s1 s3.

Lemma stable_ret {A} (a : A) : stable R (ret a).
Proof. intros s. apply R_refl. Qed.

Lemma stable_raise {A} (e : exn) : stable R (raise (A := A) e).
Proof. intros s. apply R_refl. Qed.

Lemma stable_liftO {A} (o : outcome A) : stable R (liftO o).
Proof. intros s. apply R_refl. Qed.

Lemma stable_bind {A B} (m : M S A) (k : A -> M S B) :
  stable R m -> (forall a, stable R (k a)) -> stable R (bind m k).
Proof.
  intros Hm Hk s. rewrite bind_run.
  specialize (Hm s). destruct (m s) as [[a | e] s']; cbn in *.
  - eapply R_trans; [exact Hm | apply Hk].
  - exact Hm.
Qed.

(** The same at one state, for a step whose effect depends on it. *)
Lemma stable_bind_at {A B} (m : M S A) (k : A -> M S B) (s : S) :
  R s (snd (m s)) -> (forall a, stable R (k a)) -> R s (snd (bind m k s)).
Proof.
  intros Hm Hk. rewrite bind_run.
  destruct (m s) as [[a | e] s']; cbn in *.
  - eapply R_trans; [exact Hm | apply Hk].
  - exact Hm.
Qed.
End Stable.

Section StableSt.
Context {Self : Type} (R : St Self -> St Self -> Prop).
Hypothesis R_refl : forall s, R s s.

Lemma stable_get_self : stable R get_self.
Proof. intros s. apply R_refl. Qed.

Lemma stable_liftP {A} (f : libm -> outcome A) : stable R (liftP f).
Proof. intros s. apply R_refl. Qed.

Lemma stable_modify (f : Self -> Self) :
  (forall s, R s (mkSt (f (self s)) (env s))) -> stable R (modify f).
Proof. intros H s. apply H. Qed.

Lemma stable_lift {A} (m : M Env A) :
  (forall s, R s (mkSt (self s) (snd (m (env s))))) -> stable R (lift m).
Proof.
  intros H s. specialize (H s). unfold lift.
  destruct (m (env s)) as [r e]. exact H.
Qed.
End StableSt.

Lemma stable_run {S A} (R : S -> S -> Prop) (m : M S A) s r s' :
  stable R m -> m s = (r, s') -> R s s'.
Proof. intros H E. specialize (H s). rewrite E in H. exact H. Qed.

(** Decompose a computation along its binds and branches; what is left are
    the steps that touch the state. *)
Create HintDb stable_db.

Ltac stable_tac Hrefl Htrans :=
  repeat first
    [ solve [ auto 1 with stable_db nocore ]
    | progress cbv zeta
    | match goal with
      | |- stable _ (bind _ _) => apply (stable_bind _ Htrans); [ | intros ? ]
      | |- stable _ (ret _) => apply (stable_ret _ Hrefl)
      | |- stable _ (raise _) => apply (stable_raise _ Hrefl)
      | |- stable _ (liftO _) => apply (stable_liftO _ Hrefl)
      | |- stable _ (liftP _) => apply (stable_liftP _ Hrefl)
      | |- stable _ get_self => apply (stable_get_self _ Hrefl)
      | |- stable _ (modify _) => apply stable_modify; intros ?
      | |- stable _ (lift _) => apply stable_lift; intros ?
      | |- stable _ (if ?c then _ else _) => destruct c
      | |- stable _ (match ?x with _ => _ end) => destruct x
      end ].

Section Raises.
Context {S : Type} (Q : exn -> Prop).

Lemma raises_ret {A} (a : A) : raises (S := S) Q (ret a).
Proof. intros s x E. discriminate E. Qed.

Lemma raises_raise {A} (e : exn) : Q e -> raises (S := S) (A := A) Q (raise e).
Proof. intros H s x E. injection E as <-. exact H. Qed.

Lemma raises_liftO {A} (o : outcome A) :
  oraises Q o -> raises (S := S) Q (liftO o).
Proof. intros H s x E. apply H, E. Qed.

Lemma raises_bind {A B} (m : M S A) (k : A -> M S B) :
  raises Q m -> (forall a, raises Q (k a)) -> raises Q (bind m k).
Proof.
  intros Hm Hk s x. rewrite bind_run.
  specialize (Hm s). destruct (m s) as [[a | e] s']; cbn in *.
  - apply Hk.
  - intros E. injection E as <-. apply Hm. reflexivity.
Qed.

Lemma oraises_ok {A} (a : A) : oraises Q (Ok a).
Proof. intros x E. discriminate E. Qed.

Lemma oraises_obind {A B} (o : outcome A) (k : A -> outcome B) :
  oraises Q o -> (forall a, oraises Q (k a)) -> oraises Q (obind o k).
Proof.
  intros Ho Hk x. destruct o as [a | e]; cbn.
  - apply Hk.
  - intros [= <-]. apply Ho. reflexivity.
Qed.
End Raises.

Section RaisesSt.
Context {Self : Type} (Q : exn -> Prop).

Lemma raises_liftP {A} (f : libm -> outcome A) :
  (forall pow, oraises Q (f pow)) -> raises Q (liftP (S := Self) f).
Proof. intros H s x E. apply (H _ _ E). Qed.

Lemma raises_get_self : raises Q (get_self (S := Self)).
Proof. intros s x E. discriminate E. Qed.

Lemma raises_modify (f : Self -> Self) : raises Q (modify f).
Proof. intros s x E. discriminate E. Qed.

Lemma raises_lift {A} (m : M Env A) :
  raises Q m -> raises Q (lift (S := Self) m).
Proof.
  intros H s x. unfold lift. specialize (H (env s)).
  destruct (m (env s)) as [r e]. exact (H x).
Qed.
End RaisesSt.

Section Commutes.
Context {Self : Type} (g : Self -> Self).

Lemma commutes_ret {A} (a : A) : commutes g (ret a).
Proof. intros s. reflexivity. Qed.

Lemma commutes_raise {A} (e : exn) : commutes g (raise (A := A) e).
Proof. intros s. reflexivity. Qed.

Lemma commutes_liftO {A} (o : outcome A) : commutes g (liftO o).
Proof. intros s. reflexivity. Qed.

Lemma commutes_liftP {A} (f : libm -> outcome A) : commutes g (liftP f).
Proof. intros s. reflexivity. Qed.

Lemma commutes_lift {A} (m : M Env A) : commutes g (lift m).
Proof. intros s. unfold lift. cbn. destruct (m (env s)). reflexivity. Qed.

Lemma commutes_modify (f : Self -> Self) :
  (forall a, g (f a) = f (g a)) -> commutes g (modify f).
Proof. intros H s. unfold modify. cbn. rewrite H. reflexivity. Qed.

Lemma commutes_bind {A B} (m : M (St Self) A) (k : A -> M (St Self) B) :
  commutes g m -> (forall a, commutes g (k a)) -> commutes g (bind m k).
Proof.
  intros Hm Hk s. rewrite !bind_run, Hm.
  destruct (m s) as [[a | e] s1]; cbn; [ apply Hk | reflexivity ].
Qed.
End Commutes.

Ltac commutes_tac :=
  repeat first
    [ progress cbv zeta
    | match goal with
      | |- commutes _ (bind _ _) => apply commutes_bind; [ | intros ? ]
      | |- commutes _ (ret _) => apply commutes_ret
      | |- commutes _ (raise _) => apply commutes_raise
      | |- commutes _ (liftO _) => apply commutes_liftO
      | |- commutes _ (liftP _) => apply commutes_liftP
      | |- commutes _ (lift _) => apply commutes_lift
      | |- commutes _ (modify _) =>
          apply commutes_modify; intros ?; reflexivity
      | |- commutes _ (if ?c then _ else _) => destruct c
      | |- commutes _ (match ?x with _ => _ end) => destruct x
      end ].

(** ** One step at a state *)

Lemma lift_time_run {Self} (s : St Self) :
  lift time s
  = (Ok (clock (env s) (ticks (env s))), mkSt (self s) (tick_env (env s))).
Proof. reflexivity. Qed.

Lemma get_self_run {Self} (s : St Self) : get_self s = (Ok (self s), s).
Proof. reflexivity. Qed.

Lemma liftO_run {S A} (o : outcome A) (s : S) : liftO o s = (o, s).
Proof. reflexivity. Qed.

Lemma liftP_run {Self A} (f : libm -> outcome A) (s : St Self) :
  liftP f s = (f (libm_pow (env s)), s).
Proof. reflexivity. Qed.

Lemma ret_run {S A} (a : A) (s : S) : ret a s = (Ok a, s).
Proof. reflexivity. Qed.

Lemma modify_run {Self} (f : Self -> Self) (s : St Self) :
  modify f s = (Ok tt, mkSt (f (self s)) (env s)).
Proof. reflexivity. Qed.

Lemma lift_deref_run {Self} (l : loc) (s : St Self) :
  lift (deref l) s
  = (match heap (env s) !! l with
     | Some v => Ok v
     | None => Raise DanglingRef
     end, s).
Proof.
  unfold lift, deref. destruct s as [a e]. cbn.
  destruct (heap e !! l); reflexivity.
Qed.

(** ** What a method does not read *)

Lemma commutes_get_self_bind {Self B} (g : Self -> Self)
    (k : Self -> M (St Self) B) :
  (forall a s, k (g a) s = k a s) -> (forall a, commutes g (k a)) ->
  commutes g (bind get_self k).
Proof.
  intros Hext Hk s. rewrite !bind_run, !get_self_run. cbv iota. cbn [self].
  rewrite Hext. apply Hk.
Qed.

Ltac blind_tac :=
  repeat first
    [ progress cbv zeta
    | match goal with
      | |- commutes _ (bind get_self _) =>
          apply commutes_get_self_bind; [ intros ? ?; reflexivity | intros ? ]
      | |- commutes _ (bind _ _) => apply commutes_bind; [ | intros ? ]
      | |- commutes _ (ret _) => apply commutes_ret
      | |- commutes _ (raise _) => apply commutes_raise
      | |- commutes _ (liftO _) => apply commutes_liftO
      | |- commutes _ (liftP _) => apply commutes_liftP
      | |- commutes _ (lift _) => apply commutes_lift
      | |- commutes _ (modify _) =>
          apply commutes_modify; intros ?; reflexivity
      | |- commutes _ (if ?c then _ else _) => destruct c
      | |- commutes _ (match ?x with _ => _ end) => destruct x
      | H : _ |- _ => solve [ apply H ]
      end ].

(** * Death is never reported by [update] *)

Lemma update_never_defeated delta_time nearby_players :
  returns not_defeated (MonsterAI.update delta_time nearby_players).
Proof.
  unfold MonsterAI.update, MonsterAI._perform_attack, MonsterAI._chase_player,
    MonsterAI._idle_behavior.
  returns_tac; unfold not_defeated; cbn; discriminate.
Qed.

Lemma sweep_shape delta_time nearby_players monsters e :
  let '(monsters', updates, monsters_to_remove, _) :=
    MonsterSpawner.sweep delta_time nearby_players monsters e in
  dict_keys monsters' = dict_keys monsters /\
  monsters_to_remove ⊆ dict_keys monsters /\
  (length updates + length monsters_to_remove = length monsters)%nat.
Proof.
  unfold dict_keys.
  revert e. induction monsters as [|[monster_id monster] rest IH]; intros e.
  - cbn. repeat split. reflexivity.
  - cbn [MonsterSpawner.sweep].
    destruct (MonsterAI.update delta_time nearby_players (mkSt monster e))
      as [r s] eqn:E.
    specialize (IH (env s)).
    destruct (MonsterSpawner.sweep delta_time nearby_players rest (env s))
      as [[[rest' updates] to_remove] e'].
    destruct IH as (IH1 & IH2 & IH3).
    destruct r as [upd | x].
    + assert (N : not_defeated upd).
      { apply (update_never_defeated delta_time nearby_players
                 (mkSt monster e)). rewrite E. reflexivity. }
      apply String.eqb_neq in N. rewrite N.
      cbn [map fst length]. rewrite IH1. repeat split.
      * apply list_subseteq_cons, IH2.
      * lia.
    + cbn [map fst length]. rewrite IH1. repeat split.
      * apply list_subseteq_skip, IH2.
      * lia.
Qed.

(** C1 (the code departs from the claim).  The claim: a per-tick update on
    an agent whose health is 0 reports Defeated, once, and the sweep that
    reports it removes the agent.  The code, on a Great Jaggi (800 health,
    weak to fire) hit for 600 fire damage: [take_damage] reports Defeated
    and leaves health 0; the next sweep reports ["idle"] for it and keeps it
    in the population; a second hit reports Defeated again; and the sweep
    after that still reports ["idle"]. *)
Theorem C1_dead_agent_stays_and_is_never_reported :
  let s1 := one_jaggi quiet in
  let blow := hit 600 AttackType.FIRE None fzero in
  let s2 := after blow s1 in
  let s3 := after (tick 1 []) s2 in
  let s4 := after blow s3 in
  fst (blow s1) = Ok (Some (Defeated 900)) /\
  MonsterAI.current_health <$> jaggi s2 = Some (PInt 0) /\
  actions (fst (tick 1 [] s2)) = ["idle"] /\
  dict_keys (MonsterSpawner.active_monsters (self s3)) = [jaggi_id] /\
  fst (blow s3) = Ok (Some (Defeated 900)) /\
  actions (fst (tick 1 [] s4)) = ["idle"].
Proof. vm_compute. repeat split. Qed.

(** * Health under damage and poison *)

Lemma max0_not_negative (h : num) : num_lt0 (max0 h) = false.
Proof.
  unfold max0. destruct (num_gt0 h) eqn:E; [ | reflexivity ].
  destruct h as [n | x]; unfold num_gt0, num_lt0, fltb, SFltb in *.
  - lia.
  - destruct x as [s | s | | s m e]; try destruct s; cbn in *;
      congruence.
Qed.

Lemma take_damage_keeps_health_nonneg damage attack_type status_effect
    status_duration :
  stable keeps_health_nonneg
    (MonsterAI.take_damage damage attack_type status_effect status_duration).
Proof.
  assert (Hrefl : forall s, keeps_health_nonneg s s) by (intros s H; exact H).
  assert (Htrans : forall s1 s2 s3, keeps_health_nonneg s1 s2 ->
            keeps_health_nonneg s2 s3 -> keeps_health_nonneg s1 s3)
    by (unfold keeps_health_nonneg; auto).
  unfold MonsterAI.take_damage.
  stable_tac Hrefl Htrans; intros H; cbn; auto using max0_not_negative.
Qed.

(** C2 (the code departs from the claim).  The claim: health stays within
    [0, max_health] at every observable point, and poison never drives it
    below 0.  The code, on a Great Jaggi hit for 799 physical damage with a
    10 s poison: health is 1 after the hit; the next update with
    [delta_time = 2.0] subtracts [1.0 * 2.0] without a clamp and leaves
    health at [-1.0]. *)
Theorem C2_poison_tick_leaves_health_negative :
  let s1 := one_jaggi quiet in
  let s2 := after (hit 799 AttackType.PHYSICAL (Some StatusEffect.POISON)
                     (Z2F 10)) s1 in
  let s3 := after (tick 2 []) s2 in
  MonsterAI.current_health <$> jaggi s2 = Some (PInt 1) /\
  MonsterAI.current_health <$> jaggi s3 = Some (PFloat (Z2F (-1))) /\
  num_lt0 <$> (MonsterAI.current_health <$> jaggi s3) = Some true.
Proof. vm_compute. repeat split. Qed.

(** * What a method of an agent may change *)

Lemma frame_refl s : frame s s.
Proof. repeat split; auto. Qed.

Lemma frame_trans s1 s2 s3 : frame s1 s2 -> frame s2 s3 -> frame s1 s3.
Proof.
  intros (A1 & B1 & C1 & D1) (A2 & B2 & C2 & D2).
  repeat split.
  - congruence.
  - congruence.
  - intros H. rewrite B1 in C2. auto.
  - destruct (D1 l) as [E1 _], (D2 l) as [E2 _]. congruence.
  - intros N. destruct (D1 l) as [_ E1], (D2 l) as [_ E2].
    rewrite E2 by congruence. auto.
Qed.

Lemma frame_make s a' e' :
  MonsterAI.stats a' = MonsterAI.stats (self s) ->
  MonsterAI.attack_patterns a' = MonsterAI.attack_patterns (self s) ->
  MonsterAI.current_pattern_index a'
  = MonsterAI.current_pattern_index (self s) ->
  heap e' = heap (env s) ->
  frame s (mkSt a' e').
Proof.
  intros A B C H. repeat split; cbn; auto; congruence.
Qed.

Lemma frame_self s a' :
  MonsterAI.stats a' = MonsterAI.stats (self s) ->
  MonsterAI.attack_patterns a' = MonsterAI.attack_patterns (self s) ->
  MonsterAI.current_pattern_index a'
  = MonsterAI.current_pattern_index (self s) ->
  frame s (mkSt a' (env s)).
Proof. intros. apply frame_make; auto. Qed.

Lemma frame_env s e' : heap e' = heap (env s) -> frame s (mkSt (self s) e').
Proof. intros. apply frame_make; auto. Qed.

Lemma deref_env l e : snd (deref l e) = e.
Proof. unfold deref. destruct (heap e !! l); reflexivity. Qed.

Lemma heap_same_refl {Self} (s : St Self) : heap_same s s.
Proof. reflexivity. Qed.

Lemma heap_same_trans {Self} (s1 s2 s3 : St Self) :
  heap_same s1 s2 -> heap_same s2 s3 -> heap_same s1 s3.
Proof. unfold heap_same. congruence. Qed.

(** The steps [stable_tac] leaves, for [frame] and for [heap_same]. *)
Ltac frame_step :=
  first
    [ apply frame_self; reflexivity
    | apply frame_env; first [ reflexivity | rewrite deref_env; reflexivity ]
    | unfold heap_same; cbn; first [ reflexivity
                                   | rewrite deref_env; reflexivity ] ].

Lemma set_attack_heap (h : list MonsterStats.t) l st v x :
  h !! l = Some st ->
  MonsterStats.set_attack 0 <$> <[l := MonsterStats.set_attack v st]> h !! x
  = MonsterStats.set_attack 0 <$> h !! x.
Proof.
  intros L. destruct (decide (l = x)) as [<- | N].
  - rewrite list_lookup_insert_eq by (eapply lookup_lt_Some; exact L).
    rewrite L. reflexivity.
  - rewrite list_lookup_insert_ne by exact N. reflexivity.
Qed.

Lemma become_enraged_frame : stable frame MonsterAI._become_enraged.
Proof.
  intros s.
  unfold MonsterAI._become_enraged, bind, modify, lift, time, get_self,
    liftO, deref, store.
  cbn.
  destruct (heap (env s) !! MonsterAI.stats (self s)) as [st|] eqn:L; cbn;
    [ | apply frame_make; reflexivity ].
  destruct (int_mul_float _ _) as [raised|]; cbn;
    [ | apply frame_make; reflexivity ].
  destruct (int_of_float raised) as [v|]; cbn;
    [ | apply frame_make; reflexivity ].
  repeat split; cbn; auto.
  - apply set_attack_heap, L.
  - intros N. apply list_lookup_insert_ne. congruence.
Qed.

Ltac frame_tac :=
  stable_tac frame_refl frame_trans; try frame_step.

Lemma perform_attack_frame player current_time :
  stable frame (MonsterAI._perform_attack player current_time).
Proof.
  intros s. unfold MonsterAI._perform_attack.
  rewrite bind_run. change (get_self s) with (Ok (self s), s). cbv iota.
  destruct (fltb _ _); [ apply frame_refl | ].
  destruct (MonsterAI.attack_patterns (self s) !! _) as [pat|];
    [ | apply frame_refl ].
  apply (stable_bind_at _ frame_trans).
  - destruct (length (MonsterAI.attack_patterns (self s))) as [|n] eqn:Len;
      [ apply frame_refl | ].
    repeat split; cbn -[Nat.modulo]; auto.
    intros _. rewrite Len. apply Nat.mod_upper_bound. lia.
  - intros _. frame_tac.
Qed.

#[local] Hint Resolve become_enraged_frame perform_attack_frame : stable_db.

Lemma chase_player_frame player delta_time :
  stable frame (MonsterAI._chase_player player delta_time).
Proof. unfold MonsterAI._chase_player. frame_tac. Qed.

Lemma idle_behavior_frame delta_time :
  stable frame (MonsterAI._idle_behavior delta_time).
Proof. unfold MonsterAI._idle_behavior. frame_tac. Qed.

Lemma status_loop_frame current_time delta_time effects :
  stable frame (MonsterAI.status_loop current_time delta_time effects).
Proof.
  induction effects as [|effect rest IH]; cbn [MonsterAI.status_loop];
    frame_tac.
Qed.

#[local] Hint Resolve chase_player_frame idle_behavior_frame
  status_loop_frame : stable_db.

Lemma update_status_effects_frame delta_time :
  stable frame (MonsterAI._update_status_effects delta_time).
Proof. unfold MonsterAI._update_status_effects. frame_tac. Qed.

Lemma find_nearest_player_frame players :
  stable frame (MonsterAI._find_nearest_player players).
Proof. unfold MonsterAI._find_nearest_player. frame_tac. Qed.

#[local] Hint Resolve update_status_effects_frame
  find_nearest_player_frame : stable_db.

Lemma update_frame delta_time nearby_players :
  stable frame (MonsterAI.update delta_time nearby_players).
Proof. unfold MonsterAI.update. frame_tac. Qed.

Lemma take_damage_frame damage attack_type status_effect status_duration :
  stable frame
    (MonsterAI.take_damage damage attack_type status_effect status_duration).
Proof. unfold MonsterAI.take_damage. frame_tac. Qed.

Lemma take_damage_heap_same damage attack_type status_effect status_duration :
  stable heap_same
    (MonsterAI.take_damage damage attack_type status_effect status_duration).
Proof.
  unfold MonsterAI.take_damage.
  stable_tac (@heap_same_refl MonsterAI.t) (@heap_same_trans MonsterAI.t);
    frame_step.
Qed.

(** * Dictionaries *)

Section DictFacts.
Context {V : Type}.
Implicit Types (d : list (string * V)) (k : string) (v : V).

Lemma dict_set_length d k v : (length (dict_set k v d) <= S (length d))%nat.
Proof.
  induction d as [|[k' v'] d IH]; cbn; [ lia | ].
  destruct (String.eqb k k'); cbn; lia.
Qed.

Lemma dict_set_length_present d k v v0 :
  dict_get k d = Some v0 -> length (dict_set k v d) = length d.
Proof.
  induction d as [|[k' v'] d IH]; cbn; [ discriminate | ].
  destruct (String.eqb k k'); cbn; auto.
Qed.

Lemma dict_get_set d k v : dict_get k (dict_set k v d) = Some v.
Proof.
  induction d as [|[k' v'] d IH]; cbn.
  - rewrite String.eqb_refl. reflexivity.
  - destruct (String.eqb k k') eqn:E; cbn; rewrite E; auto.
Qed.

Lemma dict_del_length d k : (length (dict_del k d) <= length d)%nat.
Proof. unfold dict_del. apply List.filter_length_le. Qed.
End DictFacts.

Lemma remove_all_length ids d :
  (length (MonsterSpawner.remove_all ids d) <= length d)%nat.
Proof.
  unfold MonsterSpawner.remove_all. revert d.
  induction ids as [|i ids IH]; intros d; cbn; [ lia | ].
  etransitivity; [ apply IH | apply dict_del_length ].
Qed.

Lemma sweep_length delta_time nearby_players monsters e :
  length (MonsterSpawner.sweep delta_time nearby_players monsters e).1.1.1
  = length monsters.
Proof.
  pose proof (sweep_shape delta_time nearby_players monsters e) as H.
  destruct (MonsterSpawner.sweep _ _ _ _) as [[[ms ups] rm] e'].
  destruct H as [H _]. unfold dict_keys in H.
  apply (f_equal length) in H. rewrite !length_map in H. exact H.
Qed.

(** * What a method of the spawner may change *)

Lemma sp_frame_refl s : sp_frame s s.
Proof. repeat split; auto. Qed.

Lemma sp_frame_trans s1 s2 s3 :
  sp_frame s1 s2 -> sp_frame s2 s3 -> sp_frame s1 s3.
Proof.
  intros (A1 & B1 & C1) (A2 & B2 & C2). repeat split; try congruence.
  intros H. rewrite B1 in C2. auto.
Qed.

Lemma sp_frame_make s sp' e' :
  MonsterSpawner.monster_templates sp'
  = MonsterSpawner.monster_templates (self s) ->
  MonsterSpawner.max_monsters sp' = MonsterSpawner.max_monsters (self s) ->
  (Z.of_nat (length (MonsterSpawner.active_monsters (self s)))
   <= MonsterSpawner.max_monsters (self s) ->
   Z.of_nat (length (MonsterSpawner.active_monsters sp'))
   <= MonsterSpawner.max_monsters (self s)) ->
  sp_frame s (mkSt sp' e').
Proof. intros A B C. repeat split; assumption. Qed.

Ltac sp_frame_tac :=
  stable_tac sp_frame_refl sp_frame_trans;
  try (apply sp_frame_make; cbn; solve [ reflexivity | auto ]).

Lemma add_spawn_point_sp_frame position :
  stable sp_frame (MonsterSpawner.add_spawn_point position).
Proof. unfold MonsterSpawner.add_spawn_point. sp_frame_tac. Qed.

Lemma spawn_monster_sp_frame monster_type position :
  stable sp_frame (MonsterSpawner.spawn_monster monster_type position).
Proof.
  intros s. unfold MonsterSpawner.spawn_monster.
  rewrite bind_run. change (get_self s) with (Ok (self s), s). cbv iota.
  destruct (_ >=? _) eqn:G; [ apply sp_frame_refl | ].
  destruct (dict_get _ _) as [l|]; [ | apply sp_frame_refl ].
  unfold bind, lift, liftO, modify, ret, time, randint, random_below.
  cbn -[MonsterAI.__init__ pretty String.append Z.of_nat Z.to_nat Nat.modulo].
  destruct (int_of_float _) as [seconds|];
    [ | apply sp_frame_make; cbn; auto ].
  destruct (MonsterAI.__init__ _ _ _) as [[monster_ai|x] e'];
    cbn -[pretty String.append Z.of_nat Z.to_nat Nat.modulo];
    apply sp_frame_make; cbn -[pretty String.append Z.of_nat Z.to_nat
                               Nat.modulo]; auto.
  intros _.
  match goal with
  | |- context [dict_set ?k ?v ?d] => pose proof (dict_set_length d k v)
  end.
  rewrite Z.geb_leb in G. apply Z.leb_gt in G. lia.
Qed.

#[local] Hint Resolve spawn_monster_sp_frame : stable_db.

Lemma spawn_random_monster_sp_frame :
  stable sp_frame MonsterSpawner._spawn_random_monster.
Proof. unfold MonsterSpawner._spawn_random_monster. sp_frame_tac. Qed.

#[local] Hint Resolve spawn_random_monster_sp_frame : stable_db.

Lemma update_monsters_sp_frame delta_time nearby_players :
  stable sp_frame (MonsterSpawner.update_monsters delta_time nearby_players).
Proof.
  intros s. unfold MonsterSpawner.update_monsters.
  pose proof (sweep_length delta_time nearby_players
                (MonsterSpawner.active_monsters (self s)) (env s)) as L.
  destruct (MonsterSpawner.sweep _ _ _ _) as [[[monsters updates] rm] e].
  cbn in L.
  apply (sp_frame_trans _ (mkSt (self s) e));
    [ apply sp_frame_make; auto | ].
  apply (stable_bind_at _ sp_frame_trans).
  - apply sp_frame_make; cbn; auto.
    intros H. pose proof (remove_all_length rm monsters). lia.
  - intros _. sp_frame_tac.
Qed.

Lemma damage_monster_sp_frame monster_id damage attack_type status_effect
    status_duration :
  stable sp_frame
    (MonsterSpawner.damage_monster monster_id damage attack_type
       status_effect status_duration).
Proof.
  intros s. unfold MonsterSpawner.damage_monster.
  rewrite bind_run. change (get_self s) with (Ok (self s), s). cbv iota.
  destruct (dict_get _ _) as [monster|] eqn:L; [ | apply sp_frame_refl ].
  apply (stable_bind_at _ sp_frame_trans).
  - unfold MonsterSpawner.on_monster.
    destruct (MonsterAI.take_damage _ _ _ _ _) as [r s'].
    apply sp_frame_make; cbn; auto.
    rewrite (dict_set_length_present _ _ _ _ L). auto.
  - intros r. sp_frame_tac.
Qed.

Lemma run_call_sp_frame c : stable sp_frame (run_call c).
Proof.
  pose proof add_spawn_point_sp_frame.
  pose proof update_monsters_sp_frame.
  pose proof damage_monster_sp_frame.
  destruct c; cbn [run_call]; sp_frame_tac.
Qed.

Lemma run_calls_sp_frame cs s : sp_frame s (run_calls cs s).
Proof.
  revert s. induction cs as [|c cs IH]; intros s; cbn.
  - apply sp_frame_refl.
  - eapply sp_frame_trans; [ apply run_call_sp_frame | apply IH ].
Qed.

(** * The population cap *)

(** C9.  Through every sequence of calls of the spawner's interface (spawn,
    sweep, damage, new spawn point), raising or not, a population within the
    cap stays within the cap, and the cap itself (10 from the constructor)
    does not move; [spawn_monster] returns [None] and changes nothing when
    the population is at the cap or the species is unknown; and a sweep that
    ends at the cap spawns nothing. *)
Theorem C9_population_within_cap :
  (forall cs s,
     within_cap s ->
     within_cap (run_calls cs s) /\
     MonsterSpawner.max_monsters (self (run_calls cs s))
     = MonsterSpawner.max_monsters (self s)) /\
  (forall e,
     within_cap (start e) /\ MonsterSpawner.max_monsters (self (start e)) = 10) /\
  (forall monster_type position s,
     MonsterSpawner.max_monsters (self s)
     <= Z.of_nat (length (MonsterSpawner.active_monsters (self s))) ->
     MonsterSpawner.spawn_monster monster_type position s = (Ok None, s)) /\
  (forall monster_type position s,
     dict_get monster_type (MonsterSpawner.monster_templates (self s)) = None ->
     MonsterSpawner.spawn_monster monster_type position s = (Ok None, s)) /\
  (forall delta_time nearby_players s,
     let '(monsters, _, monsters_to_remove, _) :=
       MonsterSpawner.sweep delta_time nearby_players
         (MonsterSpawner.active_monsters (self s)) (env s) in
     let survivors := MonsterSpawner.remove_all monsters_to_remove monsters in
     MonsterSpawner.max_monsters (self s) <= Z.of_nat (length survivors) ->
     MonsterSpawner.active_monsters
       (self (snd (MonsterSpawner.update_monsters delta_time nearby_players s)))
     = survivors).
Proof.
  split; [ | split; [ | split; [ | split ] ] ].
  - intros cs s H. destruct (run_calls_sp_frame cs s) as (_ & B & C).
    split; [ | exact B ]. unfold within_cap in *. rewrite B. auto.
  - intros e. unfold within_cap. cbn. split; [ lia | reflexivity ].
  - intros monster_type position s H.
    unfold MonsterSpawner.spawn_monster. rewrite bind_run.
    change (get_self s) with (Ok (self s), s). cbv iota.
    apply Z.leb_le in H. rewrite Z.geb_leb, H. reflexivity.
  - intros monster_type position s H.
    unfold MonsterSpawner.spawn_monster. rewrite bind_run.
    change (get_self s) with (Ok (self s), s). cbv iota.
    rewrite H. destruct (_ >=? _); reflexivity.
  - intros delta_time nearby_players s.
    unfold MonsterSpawner.update_monsters.
    destruct (MonsterSpawner.sweep _ _ _ _) as [[[monsters updates] rm] e].
    intros H. unfold bind, modify, get_self, ret. cbn.
    apply Z.leb_le in H. rewrite Z.ltb_antisym, H, andb_false_r.
    reflexivity.
Qed.

Lemma C9_population_within_cap_witness :
  within_cap (start ticking) /\
  within_cap (run_calls eleven_spawns (start ticking)).
Proof.
  split.
  - vm_compute. discriminate.
  - apply (proj1 C9_population_within_cap eleven_spawns (start ticking)).
    vm_compute. discriminate.
Defined.

(** * Construction of an agent *)

Lemma patterns_nonempty ty :
  MonsterAI.table_get ty MonsterAI.base_patterns MonsterAI.default_patterns
  <> [].
Proof. destruct ty; vm_compute; discriminate. Qed.

Lemma init_spec l p e a :
  fst (MonsterAI.__init__ l p e) = Ok a ->
  MonsterAI.stats a = l /\
  MonsterAI.current_pattern_index a = 0%nat /\
  exists st,
    heap e !! l = Some st /\
    MonsterAI.attack_patterns a
    = MonsterAI.table_get (MonsterStats.monster_type st)
        MonsterAI.base_patterns MonsterAI.default_patterns.
Proof.
  unfold MonsterAI.__init__, MonsterAI._generate_attack_patterns, call, bind,
    deref, time, uniform, random, ret, lift, get_self, bind, deref.
  cbn -[MonsterAI.table_get MonsterAI.base_patterns
        MonsterAI.default_patterns].
  destruct (heap e !! l) as [st|] eqn:L;
    cbn -[MonsterAI.table_get MonsterAI.base_patterns
          MonsterAI.default_patterns];
    [ | discriminate ].
  rewrite L.
  cbn -[MonsterAI.table_get MonsterAI.base_patterns
        MonsterAI.default_patterns].
  intros H. injection H as <-. cbn. repeat split. exists st. split; reflexivity.
Qed.

(** * Species templates *)

(** Agents hold their template by reference, the same object for every
    agent spawned from one species id: [spawn_monster] hands the new agent
    the address stored in [monster_templates], which no call of the spawner
    rebinds, and neither [update] nor [take_damage] rebinds an agent's
    [stats].  [take_damage] writes nothing on the heap.  [update] writes
    nothing on the heap but the field [attack] of the agent's own template,
    and that on enrage, which stores [int(attack * enrage_multiplier)]. *)
Lemma templates_shared_only_attack_written :
  (forall delta_time nearby_players s l,
     let s' := snd (MonsterAI.update delta_time nearby_players s) in
     MonsterAI.stats (self s') = MonsterAI.stats (self s) /\
     MonsterStats.set_attack 0 <$> heap (env s') !! l
     = MonsterStats.set_attack 0 <$> heap (env s) !! l /\
     (l <> MonsterAI.stats (self s) ->
      heap (env s') !! l = heap (env s) !! l)) /\
  (forall damage attack_type status_effect status_duration s,
     let s' := snd (MonsterAI.take_damage damage attack_type status_effect
                      status_duration s) in
     MonsterAI.stats (self s') = MonsterAI.stats (self s) /\
     heap (env s') = heap (env s)) /\
  (forall s st raised v,
     heap (env s) !! MonsterAI.stats (self s) = Some st ->
     int_mul_float (MonsterStats.attack st) (MonsterStats.enrage_multiplier st)
     = Ok raised ->
     int_of_float raised = Ok v ->
     heap (env (snd (MonsterAI._become_enraged s)))
     = <[MonsterAI.stats (self s) := MonsterStats.set_attack v st]>
         (heap (env s))) /\
  (forall c s,
     MonsterSpawner.monster_templates (self (snd (run_call c s)))
     = MonsterSpawner.monster_templates (self s)) /\
  (forall monster_type position s monster_id,
     fst (MonsterSpawner.spawn_monster monster_type position s)
     = Ok (Some monster_id) ->
     exists monster,
       dict_get monster_id
         (MonsterSpawner.active_monsters
            (self (snd (MonsterSpawner.spawn_monster monster_type position s))))
       = Some monster /\
       dict_get monster_type (MonsterSpawner.monster_templates (self s))
       = Some (MonsterAI.stats monster)).
Proof.
  split; [ | split; [ | split; [ | split ] ] ].
  - intros delta_time nearby_players s l s'.
    destruct (update_frame delta_time nearby_players s) as (A & _ & _ & D).
    destruct (D l) as [D1 D2]. auto.
  - intros damage attack_type status_effect status_duration s s'.
    split.
    + apply (take_damage_frame damage attack_type status_effect
               status_duration s).
    + apply (take_damage_heap_same damage attack_type status_effect
               status_duration s).
  - intros s st raised v L E1 E2.
    unfold MonsterAI._become_enraged, bind, modify, lift, time, get_self,
      liftO, deref, store.
    cbn. rewrite L. cbn. rewrite E1. cbn. rewrite E2. reflexivity.
  - intros c s. apply (run_call_sp_frame c s).
  - intros monster_type position s monster_id.
    unfold MonsterSpawner.spawn_monster. rewrite bind_run.
    change (get_self s) with (Ok (self s), s). cbv iota.
    destruct (_ >=? _); [ discriminate | ].
    destruct (dict_get _ _) as [l|]; [ | discriminate ].
    unfold bind, lift, liftO, modify, ret, time, randint, random_below.
    cbn -[MonsterAI.__init__ pretty String.append Z.of_nat Z.to_nat
          Nat.modulo].
    destruct (int_of_float _) as [seconds|]; [ | discriminate ].
    destruct (MonsterAI.__init__ _ _ _) as [[monster_ai|x] e'] eqn:I;
      cbn -[pretty String.append Z.of_nat Z.to_nat Nat.modulo];
      [ | discriminate ].
    match goal with
    | |- context [dict_set ?k _ _] => generalize k
    end.
    intros k [= <-].
    exists monster_ai. split.
    + apply dict_get_set.
    + f_equal. symmetry.
      refine (proj1 (init_spec _ _ _ _ _)). rewrite I. reflexivity.
Qed.

(** C3 (the code departs from the claim).  The claim: no agent operation,
    enrage in particular, writes to the species template, so that the
    agents of one species always read the same, unchanged stats.  The code,
    on two Great Jaggis that hold the one template at address 0 (attack 45)
    and are both at a quarter of their health: in one sweep each of them
    enrages, and each writes [int(attack * 1.5)] into the shared template,
    whose attack goes from 45 to 67 to 100; the boost every agent takes
    once on its own [attack_cooldown] (2.0 to 1.4) compounds on the
    template, and a Great Jaggi spawned afterwards starts from attack
    100. *)
Theorem C3_enrage_compounds_on_the_shared_template :
  let s := two_weak_jaggis in
  let s' := after (tick 1 []) s in
  let s'' :=
    after (MonsterSpawner.spawn_monster "great_jaggi" (at_ 9 0 9)) s' in
  MonsterAI.stats <$> agent jaggi_id s = Some 0%nat /\
  MonsterAI.stats <$> agent second_jaggi_id s = Some 0%nat /\
  MonsterAI.is_enraged <$> agent jaggi_id s = Some false /\
  MonsterAI.is_enraged <$> agent second_jaggi_id s = Some false /\
  template_attack s 0%nat = Some 45 /\
  MonsterAI.is_enraged <$> agent jaggi_id s' = Some true /\
  MonsterAI.is_enraged <$> agent second_jaggi_id s' = Some true /\
  MonsterAI.attack_cooldown <$> agent jaggi_id s' = Some (fmul f2_0 f0_7) /\
  MonsterAI.attack_cooldown <$> agent second_jaggi_id s'
  = Some (fmul f2_0 f0_7) /\
  obind (int_mul_float 45 f1_5) int_of_float = Ok 67 /\
  obind (int_mul_float 67 f1_5) int_of_float = Ok 100 /\
  template_attack s' 0%nat = Some 100 /\
  length (MonsterSpawner.active_monsters (self s'')) = 3%nat /\
  Forall (fun entry => MonsterAI.stats (snd entry) = 0%nat)
    (MonsterSpawner.active_monsters (self s'')) /\
  template_attack s'' 0%nat = Some 100.
Proof.
  vm_compute. repeat split. repeat constructor.
Qed.

(** * Pattern selection *)

Lemma float_of_int_safe n : oraises selection_safe (float_of_int n).
Proof.
  unfold float_of_int. intros x. destruct (is_inf _); intros [= <-].
  split; discriminate.
Qed.

Lemma int_of_float_safe y : oraises selection_safe (int_of_float y).
Proof. intros x. destruct y; intros [= <-]; split; discriminate. Qed.

Lemma int_mul_float_safe n y : oraises selection_safe (int_mul_float n y).
Proof.
  apply oraises_obind; [ apply float_of_int_safe | intros; apply oraises_ok ].
Qed.

Lemma float_pow2_safe pow y : oraises selection_safe (float_pow2 pow y).
Proof.
  unfold float_pow2. intros x. destruct y as [s | s | | s m e];
    try discriminate.
  destruct (feqb _ _); [ discriminate | ].
  destruct (pow _) as [ix errno].
  repeat match goal with
         | |- context [if ?c then _ else _] => destruct c
         end;
    intros [= <-]; split; discriminate.
Qed.

Lemma math_sqrt_safe y : oraises selection_safe (math_sqrt y).
Proof.
  intros x. destruct y as [s | s | | s m e]; try destruct s; intros [= <-];
    split; discriminate.
Qed.

Lemma distance_to_safe p q pow :
  oraises selection_safe (Position.distance_to p q pow).
Proof.
  unfold Position.distance_to.
  repeat (apply oraises_obind; [ apply float_pow2_safe | intros ? ]).
  apply math_sqrt_safe.
Qed.

Lemma deref_safe l : raises selection_safe (deref l).
Proof.
  intros e x. unfold deref. destruct (heap e !! l); intros [= <-].
  split; discriminate.
Qed.

(** C10.  The constructor gives every agent a non-empty pattern list (the
    table of its species, or the one-element fallback for the species that
    have no table) and index 0; [update] and
    [take_damage] keep the index within the list, which they never rebind;
    and with the index within the list the selection in [_perform_attack]
    finds a pattern, takes the remainder by a non-zero length, and raises
    neither IndexError nor ZeroDivisionError. *)
Theorem C10_pattern_selection_total :
  (forall monster_stats initial_position e a,
     fst (MonsterAI.__init__ monster_stats initial_position e) = Ok a ->
     MonsterAI.attack_patterns a <> [] /\ wf_patterns a /\
     exists st,
       heap e !! monster_stats = Some st /\
       MonsterAI.attack_patterns a
       = MonsterAI.table_get (MonsterStats.monster_type st)
           MonsterAI.base_patterns MonsterAI.default_patterns) /\
  (forall ty,
     ty ∉ [MonsterType.GREAT_JAGGI; MonsterType.RATHIAN; MonsterType.TIGREX] ->
     MonsterAI.table_get ty MonsterAI.base_patterns MonsterAI.default_patterns
     = MonsterAI.default_patterns) /\
  length MonsterAI.default_patterns = 1%nat /\
  (forall delta_time nearby_players s,
     wf_patterns (self s) ->
     wf_patterns (self (snd (MonsterAI.update delta_time nearby_players s)))) /\
  (forall damage attack_type status_effect status_duration s,
     wf_patterns (self s) ->
     wf_patterns (self (snd (MonsterAI.take_damage damage attack_type
                               status_effect status_duration s)))) /\
  (forall player current_time s,
     wf_patterns (self s) ->
     is_Some (MonsterAI.attack_patterns (self s)
                !! MonsterAI.current_pattern_index (self s)) /\
     length (MonsterAI.attack_patterns (self s)) <> 0%nat /\
     forall x,
       fst (MonsterAI._perform_attack player current_time s) = Raise x ->
       selection_safe x).
Proof.
  split; [ | split; [ | split; [ | split; [ | split ] ] ] ].
  - intros l p e a H.
    destruct (init_spec l p e a H) as (_ & I & st & L & P).
    assert (N : MonsterAI.attack_patterns a <> [])
      by (rewrite P; apply patterns_nonempty).
    split; [ exact N | ]. split; [ | eauto ].
    unfold wf_patterns. rewrite I.
    destruct (MonsterAI.attack_patterns a); [ congruence | cbn; lia ].
  - intros ty N. destruct ty; try reflexivity; exfalso; apply N;
      repeat first [ apply list_elem_of_here | apply list_elem_of_further ].
  - reflexivity.
  - intros delta_time nearby_players s W.
    destruct (update_frame delta_time nearby_players s) as (_ & B & C & _).
    unfold wf_patterns in *. rewrite B. auto.
  - intros damage attack_type status_effect status_duration s W.
    destruct (take_damage_frame damage attack_type status_effect
                status_duration s) as (_ & B & C & _).
    unfold wf_patterns in *. rewrite B. auto.
  - intros player current_time s W. unfold wf_patterns in W.
    split; [ apply lookup_lt_is_Some, W | ].
    split; [ lia | ].
    unfold MonsterAI._perform_attack.
    intros x. rewrite bind_run.
    change (get_self s) with (Ok (self s), s). cbv iota.
    remember (self s) as a eqn:Ea. clear Ea.
    destruct (fltb _ _); [ discriminate | ].
    destruct (MonsterAI.attack_patterns a !! _) as [pat|] eqn:L;
      [ | apply lookup_ge_None in L; lia ].
    destruct (length (MonsterAI.attack_patterns a)) as [|n]; [ lia | ].
    revert x. revert s.
    match goal with
    | |- forall s0 x0, fst (?m s0) = Raise x0 -> _ =>
        change (raises selection_safe m)
    end.
    repeat first
      [ progress cbv zeta
      | match goal with
        | |- raises _ (bind _ _) => apply raises_bind; [ | intros ? ]
        | |- raises _ (modify _) => apply raises_modify
        | |- raises _ (ret _) => apply raises_ret
        | |- raises _ (lift (deref _)) => apply raises_lift, deref_safe
        | |- raises _ (liftO (int_mul_float _ _)) =>
            apply raises_liftO, int_mul_float_safe
        | |- raises _ (liftO (int_of_float _)) =>
            apply raises_liftO, int_of_float_safe
        | |- raises _ (liftP (Position.distance_to _ _)) =>
            apply raises_liftP; intros ?; apply distance_to_safe
        | |- raises _ (raise _) => apply raises_raise; split; discriminate
        | |- raises _ (if ?c then _ else _) => destruct c
        | |- raises _ (match ?x with _ => _ end) => destruct x
        end ].
Qed.

Lemma C10_pattern_selection_total_witness :
  wf_patterns (self (agent_of (one_jaggi quiet))) /\
  wf_patterns
    (self (snd (MonsterAI.update (Z2F 1) [hunter]
                  (agent_of (one_jaggi quiet))))).
Proof.
  split.
  - vm_compute. lia.
  - apply (proj1 (proj2 (proj2 (proj2 C10_pattern_selection_total)))).
    vm_compute. lia.
Defined.

(** * Damage taken *)

(** C4, counterexample.  The claim: [final_damage = round(amount *
    multiplier)].  A Great Jaggi (800 health, resists water) takes 4 water
    damage: [4 * 0.7] is 2.8 and rounds to 3, but the code reports 2 and
    leaves health at 798. *)
Lemma C4_counterexample :
  let s := agent_of (one_jaggi quiet) in
  let r := MonsterAI.take_damage 4 AttackType.WATER None fzero s in
  obind (int_mul_float 4 f0_7) py_round = Ok 3 /\
  fst r = Ok (Damaged 2 (PInt 798)) /\
  MonsterAI.current_health (self (snd r)) = PInt 798.
Proof. vm_compute. repeat split. Qed.

(** C4, amended.  [take_damage] multiplies the amount by 1.5 on a weakness,
    0.7 on a resistance and 1.0 otherwise, in binary64; [final_damage] is
    [int] of that product, its truncation toward zero; the new health is
    [max(0, health - final_damage)]; and the report carries
    [final_damage]. *)
Theorem C4_damage_truncated_then_clamped :
  forall damage attack_type status_effect status_duration s st scaled
         final_damage h threshold,
    heap (env s) !! MonsterAI.stats (self s) = Some st ->
    int_mul_float damage (damage_multiplier st attack_type) = Ok scaled ->
    int_of_float scaled = Ok final_damage ->
    num_sub_int (MonsterAI.current_health (self s)) final_damage = Ok h ->
    int_mul_float (MonsterStats.max_health st) f0_2 = Ok threshold ->
    let r := MonsterAI.take_damage damage attack_type status_effect
               status_duration s in
    MonsterAI.current_health (self (snd r)) = max0 h /\
    exists act, fst r = Ok act /\ reported_damage act = Some final_damage.
Proof.
  intros damage attack_type status_effect status_duration s st scaled
    final_damage h threshold L E1 E2 E3 E4.
  unfold MonsterAI.take_damage, bind, get_self, lift, liftO, deref, modify,
    ret, time, random.
  unfold damage_multiplier in E1.
  cbn. rewrite L. cbn.
  rewrite E1. cbn. rewrite E2. cbn. rewrite E3. cbn.
  destruct status_effect as [effect|]; cbn;
    [ destruct (fltb fzero _); cbn | ];
    (destruct (num_le0 (max0 h)); cbn; [ eauto | ];
     rewrite E4; cbn;
     destruct (num_lt_float (max0 h) threshold); cbn; [ | eauto ];
     destruct (fltb _ f0_3); cbn; eauto).
Qed.

Lemma C4_damage_truncated_then_clamped_witness :
  let s := agent_of (one_jaggi quiet) in
  heap (env s) !! MonsterAI.stats (self s) = Some MonsterSpawner.great_jaggi /\
  let r := MonsterAI.take_damage 90 AttackType.WATER None fzero s in
  MonsterAI.current_health (self (snd r)) = max0 (PInt 738) /\
  exists act, fst r = Ok act /\ reported_damage act = Some 62.
Proof.
  split.
  - vm_compute. reflexivity.
  - apply (C4_damage_truncated_then_clamped 90 AttackType.WATER None fzero
             (agent_of (one_jaggi quiet)) MonsterSpawner.great_jaggi
             (fmul (Z2F 90) f0_7) 62 (PInt 738) (Z2F 160));
      vm_compute; reflexivity.
Defined.

(** * Damage dealt *)




(** * The attack gate *)

Lemma SFcompare_antisym (x y : float) :
  SFcompare y x = CompOpp <$> SFcompare x y.
Proof.
  destruct x as [sx | sx | | sx mx ex], y as [sy | sy | | sy my ey];
    try destruct sx; try destruct sy; cbn; try reflexivity;
    rewrite (Z.compare_antisym ex ey);
    destruct (ex ?= ey); cbn; try reflexivity;
    change (Pos.compare_cont Eq my mx) with (Pos.compare my mx);
    change (Pos.compare_cont Eq mx my) with (Pos.compare mx my);
    rewrite (Pos.compare_antisym mx my);
    destruct (mx ?= my)%positive; reflexivity.
Qed.

Lemma SFcompare_nan (x y : float) :
  is_nan x = false -> is_nan y = false -> is_Some (SFcompare x y).
Proof.
  destruct x as [sx | sx | | sx mx ex], y as [sy | sy | | sy my ey];
    cbn; intros; try discriminate; eauto.
Qed.

(** Away from NaN, [x < y] is the negation of [x >= y]. *)
Lemma fltb_fgeb (x y : float) :
  is_nan x = false -> is_nan y = false -> fltb x y = negb (fgeb x y).
Proof.
  intros Hx Hy. unfold fltb, fgeb, fleb, SFltb, SFleb.
  rewrite (SFcompare_antisym x y).
  destruct (SFcompare_nan x y Hx Hy) as [c ->].
  destruct c; reflexivity.
Qed.

Lemma keeps_refl {X} (f : MonsterAI.t -> X) s : keeps f s s.
Proof. reflexivity. Qed.

Lemma keeps_trans {X} (f : MonsterAI.t -> X) s1 s2 s3 :
  keeps f s1 s2 -> keeps f s2 s3 -> keeps f s1 s3.
Proof. unfold keeps. congruence. Qed.

Ltac keeps_tac f :=
  stable_tac (keeps_refl f) (keeps_trans f); try reflexivity.

Lemma status_loop_keeps_sensed current_time delta_time effects :
  stable (keeps sensed)
    (MonsterAI.status_loop current_time delta_time effects).
Proof.
  induction effects as [|effect rest IH]; cbn [MonsterAI.status_loop];
    keeps_tac sensed.
Qed.

#[local] Hint Resolve status_loop_keeps_sensed : stable_db.

Lemma update_status_effects_keeps_sensed delta_time :
  stable (keeps sensed) (MonsterAI._update_status_effects delta_time).
Proof. unfold MonsterAI._update_status_effects. keeps_tac sensed. Qed.

Lemma become_enraged_keeps_sensed :
  stable (keeps sensed) MonsterAI._become_enraged.
Proof. unfold MonsterAI._become_enraged. keeps_tac sensed. Qed.

Lemma perform_attack_keeps_gate player current_time :
  stable (keeps gate) (MonsterAI._perform_attack player current_time).
Proof. unfold MonsterAI._perform_attack. keeps_tac gate. Qed.

Lemma chase_player_keeps_gate player delta_time :
  stable (keeps gate) (MonsterAI._chase_player player delta_time).
Proof. unfold MonsterAI._chase_player. keeps_tac gate. Qed.

Lemma idle_behavior_keeps_gate delta_time :
  stable (keeps gate) (MonsterAI._idle_behavior delta_time).
Proof. unfold MonsterAI._idle_behavior. keeps_tac gate. Qed.

Lemma perform_attack_on_cooldown player current_time s :
  fltb (fsub current_time (MonsterAI.last_attack_time (self s)))
       (MonsterAI.attack_cooldown (self s)) = true ->
  MonsterAI._perform_attack player current_time s
  = (Ok (Cooldown (MonsterAI.position (self s))), s).
Proof.
  intros C. unfold MonsterAI._perform_attack. rewrite bind_run.
  change (get_self s) with (Ok (self s), s). cbv iota. rewrite C.
  reflexivity.
Qed.

Lemma perform_attack_off_cooldown player current_time s :
  fltb (fsub current_time (MonsterAI.last_attack_time (self s)))
       (MonsterAI.attack_cooldown (self s)) = false ->
  wf_patterns (self s) ->
  let r := MonsterAI._perform_attack player current_time s in
  MonsterAI.current_pattern_index (self (snd r)) = next_index (self s) /\
  forall act, fst r = Ok act -> attempt act.
Proof.
  intros C W. unfold wf_patterns in W. unfold next_index.
  unfold MonsterAI._perform_attack. rewrite bind_run.
  change (get_self s) with (Ok (self s), s). cbv iota. rewrite C.
  remember (self s) as a eqn:Ea.
  destruct (MonsterAI.attack_patterns a !! _) as [pat|] eqn:L;
    [ | apply lookup_ge_None in L; lia ].
  destruct (length (MonsterAI.attack_patterns a)) as [|n]; [ lia | ].
  split; rewrite bind_run; unfold modify at 1; cbv iota beta;
    match goal with
    | |- context [bind ?m ?k ?s1] => set (tail := bind m k); set (s' := s1)
    end.
  - assert (K : stable (keeps MonsterAI.current_pattern_index) tail)
      by (subst tail; keeps_tac MonsterAI.current_pattern_index).
    rewrite (K s'). reflexivity.
  - assert (R : returns attempt tail).
    { subst tail. unfold attempt. returns_tac; cbn; auto. }
    apply R.
Qed.

(** * The per-pattern cooldown *)

Lemma perform_attack_recool f player current_time a e :
  MonsterAI._perform_attack player current_time (mkSt (recool f a) e)
  = let r := MonsterAI._perform_attack player current_time (mkSt a e) in
    (fst r, mkSt (recool f (self (snd r))) (env (snd r))).
Proof.
  unfold MonsterAI._perform_attack. rewrite !bind_run.
  change (get_self (mkSt (recool f a) e))
    with (Ok (recool f a), mkSt (recool f a) e).
  change (get_self (mkSt a e)) with (Ok a, mkSt a e).
  cbv iota. cbn [recool MonsterAI.last_attack_time MonsterAI.attack_cooldown
                 MonsterAI.set_attack_patterns MonsterAI.attack_patterns
                 MonsterAI.current_pattern_index MonsterAI.position
                 MonsterAI.is_enraged MonsterAI.stats].
  rewrite list_lookup_fmap, length_fmap.
  destruct (fltb _ _); [ reflexivity | ].
  destruct (MonsterAI.attack_patterns a !! _) as [pat|]; [ | reflexivity ].
  cbn [fmap option_fmap option_map AttackPattern.damage AttackPattern.range
       AttackPattern.name AttackPattern.type AttackPattern.status
       AttackPattern.set_cooldown].
  destruct (length (MonsterAI.attack_patterns a)) as [|n]; [ reflexivity | ].
  match goal with
  | |- ?m _ = _ =>
      assert (C : commutes (recool f) m) by commutes_tac;
      apply (C (mkSt a e))
  end.
Qed.

(** * The gate inside [update] *)

Lemma pow_same_refl {Self} (s : St Self) : pow_same s s.
Proof. reflexivity. Qed.

Lemma pow_same_trans {Self} (s1 s2 s3 : St Self) :
  pow_same s1 s2 -> pow_same s2 s3 -> pow_same s1 s3.
Proof. unfold pow_same. congruence. Qed.

Ltac pow_tac :=
  stable_tac (@pow_same_refl MonsterAI.t) (@pow_same_trans MonsterAI.t);
  try first [ reflexivity
            | unfold pow_same; cbn; rewrite deref_env; reflexivity ].

Lemma status_loop_pow_same current_time delta_time effects :
  stable pow_same (MonsterAI.status_loop current_time delta_time effects).
Proof.
  induction effects as [|effect rest IH]; cbn [MonsterAI.status_loop];
    pow_tac.
Qed.

Lemma sense_pow_same delta_time : stable pow_same (sense delta_time).
Proof.
  pose proof status_loop_pow_same.
  unfold sense, MonsterAI._update_status_effects, MonsterAI._become_enraged.
  pow_tac.
Qed.

Lemma sense_keeps_sensed delta_time : stable (keeps sensed) (sense delta_time).
Proof.
  pose proof update_status_effects_keeps_sensed.
  pose proof become_enraged_keeps_sensed.
  unfold sense. keeps_tac sensed.
Qed.

(** [update] is: read the clock, sense, behave. *)
Lemma update_sense_behave delta_time nearby_players s :
  MonsterAI.update delta_time nearby_players s
  = (current_time <- lift time ;;
     sense delta_time ;;
     behave delta_time current_time nearby_players) s.
Proof.
  unfold MonsterAI.update, sense, bind.
  destruct (lift time s) as [[now|x] s1]; [ | reflexivity ].
  destruct (MonsterAI._update_status_effects delta_time s1)
    as [[[]|x] s2]; [ | reflexivity ].
  change (get_self s2) with (Ok (self s2), s2). cbv iota beta.
  destruct (lift (deref (MonsterAI.stats (self s2))) s2)
    as [[st|x] s3]; [ | reflexivity ].
  unfold liftO at 1 2.
  destruct (num_truediv_int _ _) as [hp|x]; [ | reflexivity ].
  cbv iota beta.
  match goal with
  | |- context [(if ?c then MonsterAI._become_enraged else ret tt) s3] =>
      destruct ((if c then MonsterAI._become_enraged else ret tt) s3)
        as [[[]|x] s4]
  end; reflexivity.
Qed.

(** With a player in reach and the agent able, [behave] is
    [_perform_attack], after the target has been noted. *)
Lemma behave_in_reach delta_time current_time nearby_players s player d :
  MonsterAI.nearest_loop (MonsterAI.position (self s)) nearby_players None
    finf (libm_pow (env s)) = Ok (Some player) ->
  Position.distance_to (MonsterAI.position (self s)) (Player.position player)
    (libm_pow (env s)) = Ok d ->
  fleb d f2_0 = true ->
  MonsterAI.is_stunned (self s) = false ->
  MonsterAI.is_sleeping (self s) = false ->
  behave delta_time current_time nearby_players s
  = MonsterAI._perform_attack player current_time
      (mkSt (MonsterAI.set_target_player (Some player) (self s)) (env s)).
Proof.
  intros Hn Hd H2 Hst Hsl. unfold behave, MonsterAI._find_nearest_player.
  destruct nearby_players as [|p ps]; [ discriminate Hn | ].
  rewrite bind_run, bind_run, get_self_run. cbv iota.
  rewrite liftP_run, Hn. cbv iota.
  rewrite bind_run, modify_run. cbv iota.
  rewrite bind_run, get_self_run. cbv iota. cbn [self].
  rewrite bind_run, liftP_run. cbn [env].
  change (MonsterAI.position (MonsterAI.set_target_player _ (self s)))
    with (MonsterAI.position (self s)).
  change (MonsterAI.is_stunned (MonsterAI.set_target_player _ (self s)))
    with (MonsterAI.is_stunned (self s)).
  change (MonsterAI.is_sleeping (MonsterAI.set_target_player _ (self s)))
    with (MonsterAI.is_sleeping (self s)).
  rewrite Hd. cbv iota. rewrite H2, Hst, Hsl. reflexivity.
Qed.

Lemma perform_attack_commutes_recool f player current_time :
  commutes (recool f) (MonsterAI._perform_attack player current_time).
Proof. intros [a e]. apply perform_attack_recool. Qed.

Lemma status_loop_commutes_recool f current_time delta_time effects :
  commutes (recool f)
    (MonsterAI.status_loop current_time delta_time effects).
Proof.
  induction effects as [|effect rest IH]; cbn [MonsterAI.status_loop];
    blind_tac.
Qed.

(** [update] on an agent whose patterns have another [cooldown]. *)
Lemma update_commutes_recool f delta_time nearby_players :
  commutes (recool f) (MonsterAI.update delta_time nearby_players).
Proof.
  pose proof (perform_attack_commutes_recool f) as P.
  pose proof (status_loop_commutes_recool f) as L.
  unfold MonsterAI.update, MonsterAI._update_status_effects,
    MonsterAI._become_enraged, MonsterAI._find_nearest_player,
    MonsterAI._chase_player, MonsterAI._idle_behavior.
  blind_tac.
Qed.

(** C8.  [update] reads the clock, senses (the status pass and the rage
    test) and behaves; sensing, whatever its outcome, leaves the position,
    [last_attack_time], the pattern list and its index, and the C library
    as they were.  When the behaviour is chosen with the nearest player
    within 2.0, by the distance the code computes, and the agent neither
    stunned nor asleep, then no attack is attempted exactly when
    [now - last_attack_time >= attack_cooldown] fails: the report is
    Cooldown and the index and [last_attack_time] are untouched; and when
    it holds the index is one slot further around the list, whether the
    attack hits, misses or raises, and a report that is returned is Attack
    or Miss; [now] is the clock reading [update] starts with and
    [attack_cooldown] the agent-wide timer.  The same holds of
    [_perform_attack] on its own.  The [cooldown] field of the patterns is
    never read: replacing it in every pattern changes neither what
    [update] or [_perform_attack] returns or raises nor the state it
    leaves. *)
Theorem C8_attack_gated_by_agent_cooldown :
  (forall delta_time nearby_players s,
     MonsterAI.update delta_time nearby_players s
     = (current_time <- lift time ;;
        sense delta_time ;;
        behave delta_time current_time nearby_players) s) /\
  (forall delta_time s,
     let s' := snd (sense delta_time s) in
     sensed (self s') = sensed (self s) /\
     libm_pow (env s') = libm_pow (env s)) /\
  (forall delta_time current_time nearby_players s player d,
     let r := behave delta_time current_time nearby_players s in
     let elapsed := fsub current_time (MonsterAI.last_attack_time (self s)) in
     let cd := MonsterAI.attack_cooldown (self s) in
     MonsterAI.nearest_loop (MonsterAI.position (self s)) nearby_players None
       finf (libm_pow (env s)) = Ok (Some player) ->
     Position.distance_to (MonsterAI.position (self s))
       (Player.position player) (libm_pow (env s)) = Ok d ->
     fleb d f2_0 = true ->
     MonsterAI.is_stunned (self s) = false ->
     MonsterAI.is_sleeping (self s) = false ->
     is_nan elapsed = false ->
     is_nan cd = false ->
     (fgeb elapsed cd = false ->
      fst r = Ok (Cooldown (MonsterAI.position (self s))) /\
      MonsterAI.current_pattern_index (self (snd r))
      = MonsterAI.current_pattern_index (self s) /\
      MonsterAI.last_attack_time (self (snd r))
      = MonsterAI.last_attack_time (self s)) /\
     (fgeb elapsed cd = true ->
      wf_patterns (self s) ->
      MonsterAI.current_pattern_index (self (snd r)) = next_index (self s) /\
      forall act, fst r = Ok act -> attempt act)) /\
  (forall player current_time s,
     let elapsed := fsub current_time (MonsterAI.last_attack_time (self s)) in
     let cd := MonsterAI.attack_cooldown (self s) in
     let r := MonsterAI._perform_attack player current_time s in
     is_nan elapsed = false ->
     is_nan cd = false ->
     (fgeb elapsed cd = false ->
      r = (Ok (Cooldown (MonsterAI.position (self s))), s)) /\
     (fgeb elapsed cd = true ->
      wf_patterns (self s) ->
      MonsterAI.current_pattern_index (self (snd r)) = next_index (self s) /\
      forall act, fst r = Ok act -> attempt act)) /\
  (forall f delta_time nearby_players a e,
     MonsterAI.update delta_time nearby_players (mkSt (recool f a) e)
     = let r := MonsterAI.update delta_time nearby_players (mkSt a e) in
       (fst r, mkSt (recool f (self (snd r))) (env (snd r)))) /\
  (forall f player current_time a e,
     MonsterAI._perform_attack player current_time (mkSt (recool f a) e)
     = let r := MonsterAI._perform_attack player current_time (mkSt a e) in
       (fst r, mkSt (recool f (self (snd r))) (env (snd r)))).
Proof.
  split; [ | split; [ | split; [ | split; [ | split ] ] ] ].
  - apply update_sense_behave.
  - intros delta_time s s'. split.
    + apply (sense_keeps_sensed delta_time s).
    + apply (sense_pow_same delta_time s).
  - intros delta_time current_time nearby_players s player d r elapsed cd
      Hn Hd H2 Hst Hsl Ne Nc.
    pose proof (fltb_fgeb elapsed cd Ne Nc) as F.
    subst r.
    rewrite (behave_in_reach delta_time current_time nearby_players s player
               d Hn Hd H2 Hst Hsl).
    set (s1 := mkSt (MonsterAI.set_target_player (Some player) (self s))
                 (env s)).
    split.
    + intros G. rewrite G in F.
      rewrite (perform_attack_on_cooldown player current_time s1 F).
      repeat split.
    + intros G W. rewrite G in F.
      apply (perform_attack_off_cooldown player current_time s1 F W).
  - intros player current_time s elapsed cd r Ne Nc.
    pose proof (fltb_fgeb elapsed cd Ne Nc) as F. split.
    + intros G. rewrite G in F.
      apply (perform_attack_on_cooldown player current_time s F).
    + intros G W. rewrite G in F.
      apply (perform_attack_off_cooldown player current_time s F W).
  - intros f delta_time nearby_players a e.
    apply (update_commutes_recool f delta_time nearby_players (mkSt a e)).
  - apply perform_attack_recool.
Qed.

(** A fresh Great Jaggi with the hunter one unit away: an attack is
    attempted, 1000 s after time 0 against a cooldown of 2 s. *)
Lemma C8_attack_gated_by_agent_cooldown_witness :
  let s := agent_of (one_jaggi ticking) in
  let now := Z2F 1000 in
  let r := behave (Z2F 1) now [hunter] s in
  let elapsed := fsub now (MonsterAI.last_attack_time (self s)) in
  let cd := MonsterAI.attack_cooldown (self s) in
  MonsterAI.nearest_loop (MonsterAI.position (self s)) [hunter] None finf
    (libm_pow (env s)) = Ok (Some hunter) /\
  Position.distance_to (MonsterAI.position (self s)) (Player.position hunter)
    (libm_pow (env s)) = Ok (Z2F 1) /\
  fleb (Z2F 1) f2_0 = true /\
  MonsterAI.is_stunned (self s) = false /\
  MonsterAI.is_sleeping (self s) = false /\
  is_nan elapsed = false /\
  is_nan cd = false /\
  fgeb elapsed cd = true /\
  wf_patterns (self s) /\
  MonsterAI.current_pattern_index (self (snd r)) = next_index (self s) /\
  forall act, fst r = Ok act -> attempt act.
Proof.
  do 8 (split; [ vm_compute; reflexivity | ]).
  split; [ vm_compute; lia | ].
  apply (proj1 (proj2 (proj2 C8_attack_gated_by_agent_cooldown)) (Z2F 1)
           (Z2F 1000) [hunter] (agent_of (one_jaggi ticking)) hunter
           (Z2F 1));
    vm_compute; first [ reflexivity | lia ].
Defined.

(** * Stun and sleep *)

(** A sleeping agent does report Sleep and stays where it is. *)
Lemma idle_behavior_asleep delta_time s :
  MonsterAI.is_sleeping (self s) = true ->
  MonsterAI._idle_behavior delta_time s
  = (Ok (Sleep (MonsterAI.position (self s))), s).
Proof.
  intros H. unfold MonsterAI._idle_behavior. rewrite bind_run.
  change (get_self s) with (Ok (self s), s). cbv iota. rewrite H.
  reflexivity.
Qed.

(** C6 (the code departs from the claim).  The claim: a stunned agent
    reports Stunned and neither moves nor attacks, at every distance.  The
    code, on a Great Jaggi paralysed for 100 s with the hunter one unit
    away: [update] sends the stunned agent to [_idle_behavior], which tests
    [is_sleeping] only; the agent picks a patrol target, walks towards it
    and reports ["patrol"], with [is_stunned] set. *)
Theorem C6_stunned_agent_patrols :
  let s := paralysed_jaggi in
  let s' := after (tick 1 [hunter]) s in
  actions (fst (tick 1 [hunter] s)) = ["patrol"] /\
  MonsterAI.is_stunned <$> jaggi s' = Some true /\
  MonsterAI.is_sleeping <$> jaggi s' = Some false /\
  MonsterAI.position <$> jaggi s = Some (at_ 5 0 5) /\
  MonsterAI.position <$> jaggi s' <> Some (at_ 5 0 5).
Proof. vm_compute. repeat split. discriminate. Qed.

(** * Stacked status effects *)

(** C7 (the code departs from the claim).  The claim: after each tick a
    flag is set exactly when an instance of its kind is still active, and
    the expiry of one instance never clears the flag under another.  The
    code, on a Great Jaggi with a 1000 s paralysis and a later 5 s
    paralysis, at the tick after the short one has run out: the loop sets
    [is_stunned] for the long instance and then clears it for the expired
    one, which comes later in the list.  The long instance stays in
    [status_effects], 40 s into its 1000 s at the end of the sweep, with
    [is_stunned] false, and the agent attacks. *)
Theorem C7_expired_instance_clears_flag_of_active_one :
  let s := twice_paralysed_jaggi in
  let s' := after (tick 1 [hunter]) s in
  let long :=
    StatusEffectInstance.mk StatusEffect.PARALYSIS (Z2F 1000) f1_0
      (Z2F 1020) in
  MonsterAI.status_effects <$> jaggi s' = Some [long] /\
  fltb (fsub (clock (env s') (ticks (env s')))
             (StatusEffectInstance.start_time long))
       (StatusEffectInstance.duration long) = true /\
  MonsterAI.is_stunned <$> jaggi s' = Some false /\
  actions (fst (tick 1 [hunter] s)) = ["attack"].
Proof. vm_compute. repeat split. Qed.

(** * The status pass *)

Lemma status_loop_ok current_time delta_time effects s active s' :
  MonsterAI.status_loop current_time delta_time effects s = (Ok active, s') ->
  active = List.filter (active_at current_time) effects /\
  flags (self s')
  = (settle StatusEffect.PARALYSIS current_time effects
       (MonsterAI.is_stunned (self s)),
     settle StatusEffect.SLEEP current_time effects
       (MonsterAI.is_sleeping (self s)),
     settle StatusEffect.TRAP current_time effects
       (MonsterAI.is_trapped (self s)),
     settle StatusEffect.MOUNT current_time effects
       (MonsterAI.is_mounted (self s))).
Proof.
  revert s active s'.
  induction effects as [|i rest IH]; intros s active s' E.
  - cbn in E. injection E as <- <-. split; reflexivity.
  - cbn [MonsterAI.status_loop] in E. cbn [List.filter settle].
    fold (active_at current_time i) in E.
    destruct (active_at current_time i) eqn:A.
    + apply bind_Ok_inv in E as (u & s1 & E1 & E).
      apply bind_Ok_inv in E as (l & s2 & E2 & E).
      injection E as <- <-.
      apply IH in E2 as [-> F]. split; [ reflexivity | ].
      rewrite F. clear F IH.
      destruct (StatusEffectInstance.effect i) eqn:K; cbn in E1.
      * destruct (num_sub_float _ _) as [h|]; [ | discriminate ].
        injection E1 as _ <-. reflexivity.
      * injection E1 as _ <-. reflexivity.
      * injection E1 as _ <-. reflexivity.
      * injection E1 as _ <-. reflexivity.
      * injection E1 as _ <-. reflexivity.
      * injection E1 as _ <-. reflexivity.
    + apply bind_Ok_inv in E as (u & s1 & E1 & E).
      apply IH in E as [-> F]. split; [ reflexivity | ].
      rewrite F. clear F IH.
      destruct (StatusEffectInstance.effect i) eqn:K; cbn in E1;
        injection E1 as _ <-; reflexivity.
Qed.

Lemma settle_decided kind now effects flag :
  settle kind now effects flag = decided kind now effects flag.
Proof.
  revert flag. unfold decided, last_of.
  induction effects as [|i rest IH]; intros flag; [ reflexivity | ].
  cbn [settle List.filter]. rewrite IH.
  destruct (bool_decide (StatusEffectInstance.effect i = kind)).
  - rewrite last_cons. destruct (last _); reflexivity.
  - reflexivity.
Qed.

(** X1.  The status pass keeps the running instances and nothing else: when
    [_update_status_effects] returns, [status_effects] is the old list
    filtered by [now - start_time < duration], [now] being the clock reading
    of the pass; the order is kept and nothing is added. *)
Theorem X1_status_pass_keeps_running_instances :
  forall delta_time s,
    let r := MonsterAI._update_status_effects delta_time s in
    let now := clock (env s) (ticks (env s)) in
    fst r = Ok tt ->
    MonsterAI.status_effects (self (snd r))
    = List.filter (active_at now) (MonsterAI.status_effects (self s)).
Proof.
  intros delta_time s r now. subst r now.
  destruct (MonsterAI._update_status_effects delta_time s) as [o s'] eqn:E.
  cbn [fst snd]. intros ->.
  unfold MonsterAI._update_status_effects in E.
  apply bind_Ok_inv in E as (ct & s1 & E1 & E).
  unfold lift, time in E1. cbn in E1. injection E1 as <- <-.
  apply bind_Ok_inv in E as (a & s2 & E2 & E). injection E2 as <- <-.
  apply bind_Ok_inv in E as (active & s3 & E3 & E).
  apply status_loop_ok in E3 as [-> _].
  injection E as <-. reflexivity.
Qed.

Lemma X1_status_pass_keeps_running_instances_witness :
  let s := agent_of twice_paralysed_jaggi in
  let r := MonsterAI._update_status_effects (Z2F 1) s in
  fst r = Ok tt /\
  MonsterAI.status_effects (self (snd r))
  = List.filter (active_at (clock (env s) (ticks (env s))))
      (MonsterAI.status_effects (self s)).
Proof.
  split; [ vm_compute; reflexivity | ].
  apply (X1_status_pass_keeps_running_instances (Z2F 1)
           (agent_of twice_paralysed_jaggi)).
  vm_compute. reflexivity.
Defined.

(** X2.  After a status pass that returns, each of the four flags
    ([is_stunned] for PARALYSIS, [is_sleeping] for SLEEP, [is_trapped] for
    TRAP, [is_mounted] for MOUNT) says whether the last instance of its kind
    in the list was still running; with no instance of the kind the flag is
    left as it was. *)
Theorem X2_status_pass_last_instance_decides :
  forall delta_time s,
    let r := MonsterAI._update_status_effects delta_time s in
    let now := clock (env s) (ticks (env s)) in
    let effects := MonsterAI.status_effects (self s) in
    fst r = Ok tt ->
    MonsterAI.is_stunned (self (snd r))
    = decided StatusEffect.PARALYSIS now effects
        (MonsterAI.is_stunned (self s)) /\
    MonsterAI.is_sleeping (self (snd r))
    = decided StatusEffect.SLEEP now effects
        (MonsterAI.is_sleeping (self s)) /\
    MonsterAI.is_trapped (self (snd r))
    = decided StatusEffect.TRAP now effects
        (MonsterAI.is_trapped (self s)) /\
    MonsterAI.is_mounted (self (snd r))
    = decided StatusEffect.MOUNT now effects
        (MonsterAI.is_mounted (self s)).
Proof.
  intros delta_time s r now effects. subst r now effects.
  destruct (MonsterAI._update_status_effects delta_time s) as [o s'] eqn:E.
  cbn [fst snd]. intros ->.
  unfold MonsterAI._update_status_effects in E.
  apply bind_Ok_inv in E as (ct & s1 & E1 & E).
  unfold lift, time in E1. cbn in E1. injection E1 as <- <-.
  apply bind_Ok_inv in E as (a & s2 & E2 & E). injection E2 as <- <-.
  apply bind_Ok_inv in E as (active & s3 & E3 & E).
  apply status_loop_ok in E3 as [_ F].
  injection E as <-. cbn [self] in *.
  unfold flags in F. cbn [self env] in F. injection F as F1 F2 F3 F4.
  rewrite <- !settle_decided. cbn. auto.
Qed.

Lemma X2_status_pass_last_instance_decides_witness :
  let s := agent_of twice_paralysed_jaggi in
  let r := MonsterAI._update_status_effects (Z2F 1) s in
  fst r = Ok tt /\
  MonsterAI.is_stunned (self (snd r))
  = decided StatusEffect.PARALYSIS (clock (env s) (ticks (env s)))
      (MonsterAI.status_effects (self s)) (MonsterAI.is_stunned (self s)).
Proof.
  split; [ vm_compute; reflexivity | ].
  apply (X2_status_pass_last_instance_decides (Z2F 1)
           (agent_of twice_paralysed_jaggi)).
  vm_compute. reflexivity.
Defined.

(** * Health and rage *)

Lemma perform_attack_keeps_vitals player current_time :
  stable (keeps vitals) (MonsterAI._perform_attack player current_time).
Proof. unfold MonsterAI._perform_attack. keeps_tac vitals. Qed.

Lemma chase_player_keeps_vitals player delta_time :
  stable (keeps vitals) (MonsterAI._chase_player player delta_time).
Proof. unfold MonsterAI._chase_player. keeps_tac vitals. Qed.

Lemma idle_behavior_keeps_vitals delta_time :
  stable (keeps vitals) (MonsterAI._idle_behavior delta_time).
Proof. unfold MonsterAI._idle_behavior. keeps_tac vitals. Qed.

Lemma find_nearest_player_keeps {X} (f : MonsterAI.t -> X) players :
  stable (keeps f) (MonsterAI._find_nearest_player players).
Proof. unfold MonsterAI._find_nearest_player. keeps_tac f. Qed.

Lemma become_enraged_keeps_health :
  stable (keeps MonsterAI.current_health) MonsterAI._become_enraged.
Proof. unfold MonsterAI._become_enraged. keeps_tac MonsterAI.current_health. Qed.

Lemma behave_keeps_vitals delta_time current_time nearby_players :
  stable (keeps vitals) (behave delta_time current_time nearby_players).
Proof.
  pose proof perform_attack_keeps_vitals.
  pose proof chase_player_keeps_vitals.
  pose proof idle_behavior_keeps_vitals.
  pose proof (find_nearest_player_keeps vitals).
  unfold behave. keeps_tac vitals.
Qed.

Lemma status_loop_keeps_health current_time delta_time effects :
  (forall i, i ∈ effects ->
     StatusEffectInstance.effect i = StatusEffect.POISON ->
     active_at current_time i = false) ->
  stable (keeps MonsterAI.current_health)
    (MonsterAI.status_loop current_time delta_time effects).
Proof.
  induction effects as [|i rest IH]; intros H; cbn [MonsterAI.status_loop].
  - keeps_tac MonsterAI.current_health.
  - assert (IH' := IH (fun j Hj => H j (list_elem_of_further _ _ _ Hj))).
    specialize (H i (list_elem_of_here _ _)).
    fold (active_at current_time i).
    destruct (active_at current_time i).
    + destruct (StatusEffectInstance.effect i);
        [ specialize (H eq_refl); discriminate | .. ];
        keeps_tac MonsterAI.current_health.
    + keeps_tac MonsterAI.current_health.
Qed.

Lemma keeps_map {X Y} (p : X -> Y) (f : MonsterAI.t -> X) {A}
    (m : M (St MonsterAI.t) A) :
  stable (keeps f) m -> stable (keeps (fun a => p (f a))) m.
Proof. intros H s. apply (f_equal p (H s)). Qed.

(** X3.  [update] moves [current_health] through poison only: when no
    poison instance is running at the clock reading of the status pass (the
    second reading of the call), the health after [update], returned or
    raised, is the health before. *)
Theorem X3_health_moves_only_by_poison :
  forall delta_time nearby_players s,
    poison_free (clock (env s) (S (ticks (env s))))
      (MonsterAI.status_effects (self s)) = true ->
    MonsterAI.current_health
      (self (snd (MonsterAI.update delta_time nearby_players s)))
    = MonsterAI.current_health (self s).
Proof.
  intros delta_time nearby_players s H0.
  assert (H : forall i, i ∈ MonsterAI.status_effects (self s) ->
                StatusEffectInstance.effect i = StatusEffect.POISON ->
                active_at (clock (env s) (S (ticks (env s)))) i = false).
  { intros i Hi Hp. unfold poison_free in H0.
    rewrite forallb_forall in H0. apply list_elem_of_In in Hi.
    specialize (H0 i Hi). rewrite Hp, bool_decide_eq_true_2 in H0 by reflexivity.
    destruct (active_at _ i); [ discriminate | reflexivity ]. }
  clear H0.
  assert (Q1 : forall p t, stable (keeps MonsterAI.current_health)
                             (MonsterAI._perform_attack p t))
    by (intros; exact (keeps_map (fun v => fst (fst (fst v))) vitals _ (perform_attack_keeps_vitals _ _))).
  assert (Q2 : forall p t, stable (keeps MonsterAI.current_health)
                             (MonsterAI._chase_player p t))
    by (intros; exact (keeps_map (fun v => fst (fst (fst v))) vitals _ (chase_player_keeps_vitals _ _))).
  assert (Q3 : forall t, stable (keeps MonsterAI.current_health)
                           (MonsterAI._idle_behavior t))
    by (intros; exact (keeps_map (fun v => fst (fst (fst v))) vitals _ (idle_behavior_keeps_vitals _))).
  pose proof (find_nearest_player_keeps MonsterAI.current_health) as Q4.
  pose proof become_enraged_keeps_health as Q5.
  unfold MonsterAI.update. rewrite bind_run, lift_time_run. cbv iota.
  match goal with
  | |- context [bind ?m ?k ?s1] =>
      change (keeps MonsterAI.current_health s1 (snd (bind m k s1)))
  end.
  apply (stable_bind_at _ (keeps_trans _)).
  - unfold MonsterAI._update_status_effects.
    rewrite bind_run, lift_time_run. cbv iota.
    rewrite bind_run.
    match goal with
    | |- context [get_self ?s1] =>
        change (get_self s1) with (Ok (self s1), s1)
    end.
    cbv iota. cbn [self env ticks clock].
    match goal with
    | |- context [bind ?m ?k ?s1] =>
        change (keeps MonsterAI.current_health s1 (snd (bind m k s1)))
    end.
    apply (stable_bind_at _ (keeps_trans _)).
    + apply status_loop_keeps_health, H.
    + intros active. keeps_tac MonsterAI.current_health.
  - intros u. keeps_tac MonsterAI.current_health.
Qed.

Lemma X3_health_moves_only_by_poison_witness :
  let s := agent_of paralysed_jaggi in
  poison_free (clock (env s) (S (ticks (env s))))
    (MonsterAI.status_effects (self s)) = true /\
  MonsterAI.current_health
    (self (snd (MonsterAI.update (Z2F 1) [hunter] s)))
  = MonsterAI.current_health (self s).
Proof.
  split; [ vm_compute; reflexivity | ].
  apply (X3_health_moves_only_by_poison (Z2F 1) [hunter]
           (agent_of paralysed_jaggi)).
  vm_compute. reflexivity.
Defined.
Ltac heap_tac :=
  stable_tac (@heap_same_refl MonsterAI.t) (@heap_same_trans MonsterAI.t);
  try frame_step.

Lemma status_loop_heap_same current_time delta_time effects :
  stable heap_same (MonsterAI.status_loop current_time delta_time effects).
Proof.
  induction effects as [|effect rest IH]; cbn [MonsterAI.status_loop];
    heap_tac.
Qed.

Lemma update_status_effects_heap_same delta_time :
  stable heap_same (MonsterAI._update_status_effects delta_time).
Proof.
  pose proof status_loop_heap_same.
  unfold MonsterAI._update_status_effects. heap_tac.
Qed.

Lemma behave_heap_same delta_time current_time nearby_players :
  stable heap_same (behave delta_time current_time nearby_players).
Proof.
  unfold behave, MonsterAI._find_nearest_player, MonsterAI._perform_attack,
    MonsterAI._chase_player, MonsterAI._idle_behavior.
  heap_tac.
Qed.

Lemma status_loop_keeps_rage current_time delta_time effects :
  stable (keeps (fun a => (MonsterAI.is_enraged a, MonsterAI.attack_cooldown a,
                           MonsterAI.rage_timer a)))
    (MonsterAI.status_loop current_time delta_time effects).
Proof.
  induction effects as [|effect rest IH]; cbn [MonsterAI.status_loop];
    keeps_tac (fun a => (MonsterAI.is_enraged a, MonsterAI.attack_cooldown a,
                         MonsterAI.rage_timer a)).
Qed.

Lemma update_status_effects_keeps_rage delta_time :
  stable (keeps (fun a => (MonsterAI.is_enraged a, MonsterAI.attack_cooldown a,
                           MonsterAI.rage_timer a)))
    (MonsterAI._update_status_effects delta_time).
Proof.
  pose proof status_loop_keeps_rage.
  unfold MonsterAI._update_status_effects.
  keeps_tac (fun a => (MonsterAI.is_enraged a, MonsterAI.attack_cooldown a,
                       MonsterAI.rage_timer a)).
Qed.

(** [update] split at the end of the rage test. *)
Lemma update_phases delta_time nearby_players s :
  MonsterAI.update delta_time nearby_players s
  = (current_time <- lift time ;;
     MonsterAI._update_status_effects delta_time ;;
     a <- get_self ;;
     st <- lift (deref (MonsterAI.stats a)) ;;
     health_percentage <-
       liftO (num_truediv_int (MonsterAI.current_health a)
                (MonsterStats.max_health st)) ;;
     (if fleb health_percentage (MonsterStats.rage_threshold st)
         && negb (MonsterAI.is_enraged a)
      then MonsterAI._become_enraged else ret tt) ;;
     behave delta_time current_time nearby_players) s.
Proof. reflexivity. Qed.

(** X4.  An enraged agent is not enraged again: whatever [update] does on
    it, returning or raising, [is_enraged], [attack_cooldown], [rage_timer]
    and every template on the heap are left as they were. *)
Theorem X4_enraged_agent_is_not_enraged_again :
  forall delta_time nearby_players s,
    MonsterAI.is_enraged (self s) = true ->
    let s' := snd (MonsterAI.update delta_time nearby_players s) in
    MonsterAI.is_enraged (self s') = true /\
    MonsterAI.attack_cooldown (self s') = MonsterAI.attack_cooldown (self s) /\
    MonsterAI.rage_timer (self s') = MonsterAI.rage_timer (self s) /\
    heap (env s') = heap (env s).
Proof.
  intros delta_time nearby_players s H.
  set (rage := fun a => (MonsterAI.is_enraged a, MonsterAI.attack_cooldown a,
                         MonsterAI.rage_timer a)).
  enough (G : rage (self (snd (MonsterAI.update delta_time nearby_players s)))
              = rage (self s) /\
              heap (env (snd (MonsterAI.update delta_time nearby_players s)))
              = heap (env s)).
  { cbv zeta. destruct G as [G1 G2]. unfold rage in G1.
    injection G1 as -> -> ->. auto. }
  rewrite update_phases, bind_run, lift_time_run. cbv iota.
  set (s1 := mkSt (self s) (tick_env (env s))).
  rewrite bind_run.
  pose proof (update_status_effects_keeps_rage delta_time s1) as K2.
  pose proof (update_status_effects_heap_same delta_time s1) as F2.
  destruct (MonsterAI._update_status_effects delta_time s1) as [[[]|x] s2];
    cbv iota; unfold keeps, heap_same in K2, F2; cbn [fst snd] in *;
    [ | split; assumption ].
  fold rage in K2.
  assert (E : MonsterAI.is_enraged (self s2) = true).
  { apply (f_equal (fun v => fst (fst v))) in K2. unfold s1 in K2.
    cbn in K2. congruence. }
  rewrite bind_run, get_self_run. cbv iota.
  rewrite bind_run, lift_deref_run.
  destruct (heap (env s2) !! MonsterAI.stats (self s2)) as [st|]; cbv iota;
    [ | split; assumption ].
  rewrite bind_run, liftO_run.
  destruct (num_truediv_int _ _) as [hp|]; cbv iota; [ | split; assumption ].
  rewrite E, andb_false_r, bind_run, ret_run. cbv iota.
  pose proof (behave_keeps_vitals delta_time
                (clock (env s) (ticks (env s))) nearby_players s2) as K3.
  pose proof (behave_heap_same delta_time
                (clock (env s) (ticks (env s))) nearby_players s2) as F3.
  unfold keeps, heap_same, vitals in K3, F3.
  unfold s1 in K2, F2. cbn [self env tick_env heap] in K2, F2.
  unfold rage in *. split; congruence.
Qed.

Lemma X4_enraged_agent_is_not_enraged_again_witness :
  let s := agent_of enraged_jaggi in
  let s' := snd (MonsterAI.update (Z2F 1) [hunter] s) in
  MonsterAI.is_enraged (self s) = true /\
  MonsterAI.is_enraged (self s') = true /\
  MonsterAI.attack_cooldown (self s') = MonsterAI.attack_cooldown (self s) /\
  MonsterAI.rage_timer (self s') = MonsterAI.rage_timer (self s) /\
  heap (env s') = heap (env s).
Proof.
  split; [ vm_compute; reflexivity | ].
  apply (X4_enraged_agent_is_not_enraged_again (Z2F 1) [hunter]
           (agent_of enraged_jaggi)).
  vm_compute. reflexivity.
Defined.
Lemma env_same_refl {Self} (s : St Self) : env_same s s.
Proof. reflexivity. Qed.

Lemma env_same_trans {Self} (s1 s2 s3 : St Self) :
  env_same s1 s2 -> env_same s2 s3 -> env_same s1 s3.
Proof. unfold env_same. congruence. Qed.

Ltac env_tac :=
  stable_tac (@env_same_refl MonsterAI.t) (@env_same_trans MonsterAI.t);
  try first [ reflexivity
            | unfold env_same; cbn; rewrite deref_env; reflexivity ].

Lemma status_loop_env_same current_time delta_time effects :
  stable env_same (MonsterAI.status_loop current_time delta_time effects).
Proof.
  induction effects as [|effect rest IH]; cbn [MonsterAI.status_loop];
    env_tac.
Qed.

(** The status pass reads the clock once and touches nothing else of the
    environment. *)
Lemma update_status_effects_env delta_time s :
  env (snd (MonsterAI._update_status_effects delta_time s))
  = tick_env (env s).
Proof.
  unfold MonsterAI._update_status_effects.
  rewrite bind_run, lift_time_run. cbv iota.
  rewrite bind_run, get_self_run. cbv iota. cbn [self].
  rewrite bind_run.
  pose proof (status_loop_env_same (clock (env s) (ticks (env s))) delta_time
                (MonsterAI.status_effects (self s))
                (mkSt (self s) (tick_env (env s)))) as K.
  destruct (MonsterAI.status_loop _ _ _ _) as [[active|x] s1];
    cbv iota; unfold env_same in K; cbn in K; [ | exact K ].
  rewrite modify_run. exact K.
Qed.

Lemma become_enraged_run s :
  MonsterAI._become_enraged s
  = let a := MonsterAI.set_attack_cooldown
               (fmul (MonsterAI.attack_cooldown (self s)) f0_7)
               (MonsterAI.set_rage_timer (clock (env s) (ticks (env s)))
                  (MonsterAI.set_is_enraged true (self s))) in
    match heap (env s) !! MonsterAI.stats (self s) with
    | None => (Raise DanglingRef, mkSt a (tick_env (env s)))
    | Some st =>
        match int_mul_float (MonsterStats.attack st)
                (MonsterStats.enrage_multiplier st) with
        | Raise x => (Raise x, mkSt a (tick_env (env s)))
        | Ok raised =>
            match int_of_float raised with
            | Raise x => (Raise x, mkSt a (tick_env (env s)))
            | Ok v =>
                (Ok tt,
                 mkSt a (set_heap
                           (<[MonsterAI.stats (self s)
                              := MonsterStats.set_attack v st]>
                              (heap (env s)))
                           (tick_env (env s))))
            end
        end
    end.
Proof.
  unfold MonsterAI._become_enraged, bind, modify, lift, time, get_self,
    liftO, deref, store.
  cbn.
  destruct (heap (env s) !! MonsterAI.stats (self s)) as [st|]; cbn;
    [ | reflexivity ].
  destruct (int_mul_float _ _) as [raised|]; cbn; [ | reflexivity ].
  destruct (int_of_float raised) as [v|]; reflexivity.
Qed.

(** X5.  Rage is decided on the health the status pass leaves.  When
    [update] returns on an agent that was not enraged, with
    [health_percentage] the quotient of the health after the call by the
    template's [max_health]: if [health_percentage <= rage_threshold] the
    agent is enraged, its [attack_cooldown] is the old one times 0.7, its
    [rage_timer] the third clock reading of the call, and the template's
    [attack] has become [int(attack * enrage_multiplier)], the heap being
    otherwise unchanged; if not, none of the four has changed. *)
Theorem X5_rage_decided_after_the_status_pass :
  forall delta_time nearby_players s act,
    let s' := snd (MonsterAI.update delta_time nearby_players s) in
    fst (MonsterAI.update delta_time nearby_players s) = Ok act ->
    MonsterAI.is_enraged (self s) = false ->
    exists st health_percentage,
      heap (env s) !! MonsterAI.stats (self s) = Some st /\
      num_truediv_int (MonsterAI.current_health (self s'))
        (MonsterStats.max_health st) = Ok health_percentage /\
      if fleb health_percentage (MonsterStats.rage_threshold st)
      then
        MonsterAI.is_enraged (self s') = true /\
        MonsterAI.attack_cooldown (self s')
        = fmul (MonsterAI.attack_cooldown (self s)) f0_7 /\
        MonsterAI.rage_timer (self s')
        = clock (env s) (S (S (ticks (env s)))) /\
        exists raised v,
          int_mul_float (MonsterStats.attack st)
            (MonsterStats.enrage_multiplier st) = Ok raised /\
          int_of_float raised = Ok v /\
          heap (env s')
          = <[MonsterAI.stats (self s) := MonsterStats.set_attack v st]>
              (heap (env s))
      else
        MonsterAI.is_enraged (self s') = false /\
        MonsterAI.attack_cooldown (self s')
        = MonsterAI.attack_cooldown (self s) /\
        MonsterAI.rage_timer (self s') = MonsterAI.rage_timer (self s) /\
        heap (env s') = heap (env s).
Proof.
  intros delta_time nearby_players s act. cbv zeta.
  set (rage := fun a => (MonsterAI.is_enraged a, MonsterAI.attack_cooldown a,
                         MonsterAI.rage_timer a)).
  rewrite update_phases, bind_run, lift_time_run. cbv iota.
  set (s1 := mkSt (self s) (tick_env (env s))).
  rewrite bind_run.
  pose proof (update_status_effects_keeps_rage delta_time s1) as K2.
  pose proof (update_status_effects_frame delta_time s1) as (F2 & _).
  pose proof (update_status_effects_env delta_time s1) as E2.
  destruct (MonsterAI._update_status_effects delta_time s1) as [[[]|x] s2];
    cbv iota; [ | discriminate ].
  unfold keeps, s1 in K2, F2, E2. cbn [fst snd self env] in K2, F2, E2.
  rewrite bind_run, get_self_run. cbv iota.
  rewrite bind_run, lift_deref_run.
  destruct (heap (env s2) !! MonsterAI.stats (self s2)) as [st|] eqn:L;
    cbv iota; [ | discriminate ].
  rewrite bind_run, liftO_run.
  destruct (num_truediv_int _ _) as [hp|] eqn:D; cbv iota; [ | discriminate ].
  intros R H.
  assert (H2 : MonsterAI.is_enraged (self s2) = false) by congruence.
  rewrite F2, E2 in L. cbn [tick_env heap] in L.
  exists st, hp. split; [ exact L | ].
  rewrite H2, andb_true_r in R |- *.
  rewrite bind_run in R |- *.
  destruct (fleb hp (MonsterStats.rage_threshold st)).
  - rewrite become_enraged_run in R |- *. cbv zeta in R |- *.
    rewrite F2, E2 in R. rewrite F2, E2.
    cbn [tick_env heap clock ticks] in R |- *.
    rewrite L in R. rewrite L.
    destruct (int_mul_float _ _) as [raised|] eqn:E5; [ | discriminate ].
    destruct (int_of_float raised) as [v|] eqn:E6; [ | discriminate ].
    cbv iota in R |- *.
    match goal with
    | |- context [behave ?a ?b ?c ?s3] =>
        pose proof (behave_keeps_vitals a b c s3) as K3;
        pose proof (behave_heap_same a b c s3) as F3;
        destruct (behave a b c s3) as [r3 s4]
    end.
    unfold keeps, heap_same, vitals in K3, F3. cbn in K3, F3 |- *.
    injection K3 as K31 K32 K33 K34.
    rewrite K31 at 1. split; [ exact D | ].
    rewrite K32, K33, K34, F3. repeat split; try congruence.
    exists raised, v. auto.
  - rewrite ret_run in R |- *. cbv iota in R |- *.
    match goal with
    | |- context [behave ?a ?b ?c ?s3] =>
        pose proof (behave_keeps_vitals a b c s3) as K3;
        pose proof (behave_heap_same a b c s3) as F3;
        destruct (behave a b c s3) as [r3 s4]
    end.
    unfold keeps, heap_same, vitals in K3, F3. cbn in K3, F3 |- *.
    injection K3 as K31 K32 K33 K34.
    rewrite K31. split; [ exact D | ].
    rewrite K32, K33, K34, F3, E2. cbn. repeat split; congruence.
Qed.

Lemma X5_rage_decided_after_the_status_pass_witness :
  let s := agent_of weakened_jaggi in
  let r := MonsterAI.update (Z2F 1) [hunter] s in
  let s' := snd r in
  fst r = Ok (Attack "Tail Swipe" 22 (at_ 5 0 5) "player1"
                AttackType.PHYSICAL None) /\
  MonsterAI.is_enraged (self s) = false /\
  exists st health_percentage,
    heap (env s) !! MonsterAI.stats (self s) = Some st /\
    num_truediv_int (MonsterAI.current_health (self s'))
      (MonsterStats.max_health st) = Ok health_percentage /\
    if fleb health_percentage (MonsterStats.rage_threshold st)
    then
      MonsterAI.is_enraged (self s') = true /\
      MonsterAI.attack_cooldown (self s')
      = fmul (MonsterAI.attack_cooldown (self s)) f0_7 /\
      MonsterAI.rage_timer (self s') = clock (env s) (S (S (ticks (env s)))) /\
      exists raised v,
        int_mul_float (MonsterStats.attack st)
          (MonsterStats.enrage_multiplier st) = Ok raised /\
        int_of_float raised = Ok v /\
        heap (env s')
        = <[MonsterAI.stats (self s) := MonsterStats.set_attack v st]>
            (heap (env s))
    else
      MonsterAI.is_enraged (self s') = false /\
      MonsterAI.attack_cooldown (self s') = MonsterAI.attack_cooldown (self s) /\
      MonsterAI.rage_timer (self s') = MonsterAI.rage_timer (self s) /\
      heap (env s') = heap (env s).
Proof.
  split; [ vm_compute; reflexivity | ].
  split; [ vm_compute; reflexivity | ].
  apply (X5_rage_decided_after_the_status_pass (Z2F 1) [hunter]
           (agent_of weakened_jaggi)
           (Attack "Tail Swipe" 22 (at_ 5 0 5) "player1"
              AttackType.PHYSICAL None));
    vm_compute; reflexivity.
Defined.

(** * What a hit changes *)

Lemma hurt_only_refl a : hurt_only a a.
Proof. destruct a. reflexivity. Qed.

Lemma hurt_only_trans a1 a2 a3 :
  hurt_only a1 a2 -> hurt_only a2 a3 -> hurt_only a1 a3.
Proof.
  unfold hurt_only. intros H1 H2. rewrite H2 at 1. rewrite H1 at 1.
  reflexivity.
Qed.

(** X6.  [take_damage], returning or raising, writes no attribute of the
    agent but [current_health], [status_effects] and [state], and nothing on
    the heap: position, flags, rage, timers, target and patterns are as
    before; a status only shows in the flags at the next status pass. *)
Theorem X6_take_damage_writes_health_effects_state_only :
  forall damage attack_type status_effect status_duration s,
    let s' := snd (MonsterAI.take_damage damage attack_type status_effect
                     status_duration s) in
    hurt_only (self s) (self s') /\ heap (env s') = heap (env s).
Proof.
  intros damage attack_type status_effect status_duration s. cbv zeta.
  split; [ | apply take_damage_heap_same ].
  change ((fun s s' => hurt_only (self s) (self s')) s
            (snd (MonsterAI.take_damage damage attack_type status_effect
                    status_duration s))).
  revert s.
  change (stable (fun s s' => hurt_only (self s) (self s'))
            (MonsterAI.take_damage damage attack_type status_effect
               status_duration)).
  unfold MonsterAI.take_damage.
  stable_tac (fun s : St MonsterAI.t => hurt_only_refl (self s))
             (fun s1 s2 s3 : St MonsterAI.t =>
                hurt_only_trans (self s1) (self s2) (self s3));
    cbn [self]; try apply hurt_only_refl;
    match goal with
    | |- hurt_only (self ?s) _ => destruct (self s); reflexivity
    end.
Qed.

(** X7.  When [take_damage] returns, the status list is the old one with
    the hit's status appended at its end: one instance of the given kind,
    intensity 1.0, started at the clock reading of the call, its duration
    halved when the species resists the kind, and only when that duration is
    positive; otherwise nothing is appended. *)
Theorem X7_take_damage_records_the_status :
  forall damage attack_type status_effect status_duration s act,
    let r := MonsterAI.take_damage damage attack_type status_effect
               status_duration s in
    fst r = Ok act ->
    exists st,
      heap (env s) !! MonsterAI.stats (self s) = Some st /\
      MonsterAI.status_effects (self (snd r))
      = MonsterAI.status_effects (self s)
        ++ applied_status st status_effect status_duration
             (clock (env s) (ticks (env s))).
Proof.
  intros damage attack_type status_effect status_duration s act. cbv zeta.
  unfold MonsterAI.take_damage, bind, get_self, lift, liftO, deref, modify,
    ret, time, random, applied_status.
  cbn.
  destruct (heap (env s) !! MonsterAI.stats (self s)) as [st|];
    [ | discriminate ].
  cbn.
  destruct (int_mul_float damage _) as [scaled|]; [ | discriminate ]. cbn.
  destruct (int_of_float scaled) as [final_damage|]; [ | discriminate ]. cbn.
  destruct (num_sub_int _ _) as [h|]; [ | discriminate ]. cbn.
  intros R. exists st. split; [ reflexivity | ].
  revert R.
  destruct status_effect as [effect|]; cbn;
    [ destruct (fltb fzero _); cbn | ];
    (destruct (num_le0 (max0 h)); cbn;
     [ intros _; rewrite ?app_nil_r; reflexivity | ];
     destruct (int_mul_float _ f0_2) as [threshold|]; cbn;
     [ | discriminate ];
     destruct (num_lt_float (max0 h) threshold); cbn;
     [ | intros _; rewrite ?app_nil_r; reflexivity ];
     destruct (fltb _ f0_3); cbn; intros _; rewrite ?app_nil_r; reflexivity).
Qed.

Lemma X7_take_damage_records_the_status_witness :
  let s := agent_of (one_jaggi ticking) in
  let r := MonsterAI.take_damage 10 AttackType.PHYSICAL
             (Some StatusEffect.POISON) (Z2F 10) s in
  fst r = Ok (Damaged 10 (PInt 790)) /\
  exists st,
    heap (env s) !! MonsterAI.stats (self s) = Some st /\
    MonsterAI.status_effects (self (snd r))
    = MonsterAI.status_effects (self s)
      ++ applied_status st (Some StatusEffect.POISON) (Z2F 10)
           (clock (env s) (ticks (env s))).
Proof.
  split; [ vm_compute; reflexivity | ].
  apply (X7_take_damage_records_the_status 10 AttackType.PHYSICAL
           (Some StatusEffect.POISON) (Z2F 10) (agent_of (one_jaggi ticking))
           (Damaged 10 (PInt 790))).
  vm_compute. reflexivity.
Defined.

(** X8.  The report of [take_damage] follows the health it leaves: Defeated
    exactly when that health is [<= 0]; Flee, with the health in the report
    and [state] set to ["fleeing"], when the health is positive, below
    [max_health * 0.2] and the random draw is below 0.3; Damaged, with the
    health in the report and [state] untouched, in the remaining case.  No
    other report is returned. *)
Theorem X8_take_damage_report_follows_health :
  forall damage attack_type status_effect status_duration s act,
    let r := MonsterAI.take_damage damage attack_type status_effect
               status_duration s in
    let health := MonsterAI.current_health (self (snd r)) in
    let draw := random_float (env s) (draws (env s)) in
    fst r = Ok act ->
    exists st,
      heap (env s) !! MonsterAI.stats (self s) = Some st /\
      match act with
      | Defeated _ =>
          num_le0 health = true /\
          MonsterAI.state (self (snd r)) = MonsterAI.state (self s)
      | Flee _ reported =>
          num_le0 health = false /\ reported = health /\
          MonsterAI.state (self (snd r)) = "fleeing" /\
          weakened st health = true /\ fltb draw f0_3 = true
      | Damaged _ reported =>
          num_le0 health = false /\ reported = health /\
          MonsterAI.state (self (snd r)) = MonsterAI.state (self s) /\
          weakened st health && fltb draw f0_3 = false
      | _ => False
      end.
Proof.
  intros damage attack_type status_effect status_duration s act. cbv zeta.
  unfold MonsterAI.take_damage, bind, get_self, lift, liftO, deref, modify,
    ret, time, random.
  cbn.
  destruct (heap (env s) !! MonsterAI.stats (self s)) as [st|];
    [ | discriminate ].
  cbn.
  destruct (int_mul_float damage _) as [scaled|]; [ | discriminate ]. cbn.
  destruct (int_of_float scaled) as [final_damage|]; [ | discriminate ]. cbn.
  destruct (num_sub_int _ _) as [h|]; [ | discriminate ]. cbn.
  intros R. exists st. split; [ reflexivity | ]. revert R.
  destruct status_effect as [effect|]; cbn;
    [ destruct (fltb fzero _); cbn | ];
    (destruct (num_le0 (max0 h)) eqn:Z; cbn;
     [ intros [= <-]; auto | ];
     unfold weakened;
     destruct (int_mul_float _ f0_2) as [threshold|]; cbn;
     [ | discriminate ];
     destruct (num_lt_float (max0 h) threshold) eqn:W; cbn;
     [ | intros [= <-]; cbn; rewrite W; auto ];
     destruct (fltb _ f0_3) eqn:D; cbn; intros [= <-]; cbn; rewrite W; auto).
Qed.

Lemma X8_take_damage_report_follows_health_witness :
  let s := agent_of (one_jaggi ticking) in
  let r := MonsterAI.take_damage 700 AttackType.PHYSICAL None fzero s in
  let health := MonsterAI.current_health (self (snd r)) in
  let draw := random_float (env s) (draws (env s)) in
  fst r = Ok (Damaged 700 (PInt 100)) /\
  exists st,
    heap (env s) !! MonsterAI.stats (self s) = Some st /\
    num_le0 health = false /\ PInt 100 = health /\
    MonsterAI.state (self (snd r)) = MonsterAI.state (self s) /\
    weakened st health && fltb draw f0_3 = false.
Proof.
  split; [ vm_compute; reflexivity | ].
  apply (X8_take_damage_report_follows_health 700 AttackType.PHYSICAL None
           fzero (agent_of (one_jaggi ticking)) (Damaged 700 (PInt 100))).
  vm_compute. reflexivity.
Defined.

(** * The order of the doubles *)

Ltac float_order :=
  unfold fltb, SFltb, SFcompare;
  intros;
  repeat match goal with
         | x : float |- _ => destruct x as [[]|[]| |[] ? ?]
         end;
  try discriminate; try reflexivity;
  repeat match goal with
         | H : context [Z.compare ?a ?b] |- _ =>
             destruct (Z.compare_spec a b); try discriminate
         | |- context [Z.compare ?a ?b] =>
             destruct (Z.compare_spec a b); try reflexivity
         end;
  try lia;
  subst;
  repeat match goal with
         | H : context [Pos.compare_cont Eq ?a ?b] |- _ =>
             change (Pos.compare_cont Eq a b) with (Pos.compare a b) in H;
             destruct (Pos.compare_spec a b); try discriminate
         | |- context [Pos.compare_cont Eq ?a ?b] =>
             change (Pos.compare_cont Eq a b) with (Pos.compare a b);
             destruct (Pos.compare_spec a b); try reflexivity
         end;
  cbn in *; try discriminate; try reflexivity; try lia.

Lemma fltb_irrefl (x : float) : fltb x x = false.
Proof. revert x. float_order. Qed.

Lemma fltb_asym (x y : float) : fltb x y = true -> fltb y x = false.
Proof. revert x y. float_order. Qed.

Lemma fltb_trans (x y z : float) :
  fltb x y = true -> fltb y z = true -> fltb x z = true.
Proof. revert x y z. float_order. Qed.

Lemma fltb_below (x y z : float) :
  fltb x z = false -> fltb y z = true -> fltb x y = false.
Proof. revert x y z. float_order. Qed.

(** * The nearest player *)

Lemma nearest_loop_spec pow here players :
  forall nearest m r,
    MonsterAI.nearest_loop here players nearest m pow = Ok r ->
    exists m',
      (fltb m' m = true \/ m' = m) /\
      (forall q d, q ∈ players ->
         Position.distance_to here (Player.position q) pow = Ok d ->
         fltb d m' = false) /\
      ((r = nearest /\ m' = m) \/
       (exists p, r = Some p /\ p ∈ players /\
          Position.distance_to here (Player.position p) pow = Ok m' /\
          fltb m' m = true)).
Proof.
  induction players as [|player rest IH]; intros nearest m r;
    cbn [MonsterAI.nearest_loop].
  - intros [= <-]. exists m. split; [ auto | ]. split; [ | auto ].
    intros q d Hq. inversion Hq.
  - destruct (Position.distance_to here (Player.position player) pow)
      as [d0|] eqn:D; cbn [obind]; [ | discriminate ].
    destruct (fltb d0 m) eqn:C; intros R; apply IH in R;
      destruct R as (m' & Hm & Hall & Hr); exists m'.
    + assert (Hm' : fltb m' m = true).
      { destruct Hm as [Hm | ->]; [ eapply fltb_trans; eassumption | exact C ]. }
      split; [ auto | ]. split.
      * intros q d Hq Hd. apply elem_of_cons in Hq as [-> | Hq].
        -- rewrite D in Hd. injection Hd as <-.
           destruct Hm as [Hm | ->];
             [ apply fltb_asym, Hm | apply fltb_irrefl ].
        -- eapply Hall; eassumption.
      * right. destruct Hr as [(-> & ->) | (p & -> & Hp & Hd & _)].
        -- exists player. repeat split; auto. apply list_elem_of_here.
        -- exists p. repeat split; auto. apply list_elem_of_further, Hp.
    + split; [ exact Hm | ]. split.
      * intros q d Hq Hd. apply elem_of_cons in Hq as [-> | Hq].
        -- rewrite D in Hd. injection Hd as <-.
           destruct Hm as [Hm | ->];
             [ eapply fltb_below; eassumption | exact C ].
        -- eapply Hall; eassumption.
      * destruct Hr as [Hr | (p & -> & Hp & Hd & Hlt)]; [ auto | ].
        right. exists p. repeat split; auto.
        apply list_elem_of_further, Hp.
Qed.

(** X9.  [_find_nearest_player] leaves the state alone; on an empty list it
    returns [None]; and a player it returns is one of the list, at a distance
    that is a number below infinity, with no player of the list strictly
    nearer.  The distances are the ones the code computes: [**] is the C
    library's [pow] of the platform, whatever it returns. *)
Theorem X9_nearest_player_is_nearest :
  forall players s,
    let r := MonsterAI._find_nearest_player players s in
    let here := MonsterAI.position (self s) in
    let pow := libm_pow (env s) in
    snd r = s /\
    (players = [] -> fst r = Ok None) /\
    forall player,
      fst r = Ok (Some player) ->
      player ∈ players /\
      exists d,
        Position.distance_to here (Player.position player) pow = Ok d /\
        fltb d finf = true /\
        forall other d',
          other ∈ players ->
          Position.distance_to here (Player.position other) pow = Ok d' ->
          fltb d' d = false.
Proof.
  intros players s. cbv zeta. unfold MonsterAI._find_nearest_player.
  destruct players as [|p0 rest]; [ repeat split; discriminate | ].
  rewrite bind_run, get_self_run. cbv iota. rewrite liftP_run.
  cbn [fst snd]. split; [ reflexivity | ]. split; [ discriminate | ].
  intros player R. apply nearest_loop_spec in R.
  destruct R as (m' & _ & Hall & [(N & _) | (p & [= <-] & Hp & Hd & Hlt)]);
    [ discriminate | ].
  split; [ exact Hp | ]. exists m'. auto.
Qed.

(** * Standing on the target *)

Lemma fsub_diag (x : float) : is_finite x = true -> fsub x x = fzero.
Proof.
  destruct x as [s|s| |s m e]; try discriminate; intros _.
  - destruct s; reflexivity.
  - unfold fsub, SFsub. cbv zeta. rewrite Z.sub_diag. reflexivity.
Qed.

Lemma distance_to_self (p : Position.t) (pow : libm) :
  in_the_world p = true -> Position.distance_to p p pow = Ok fzero.
Proof.
  unfold in_the_world. intros H.
  apply andb_prop in H as [H Hz]. apply andb_prop in H as [Hx Hy].
  unfold Position.distance_to.
  rewrite (fsub_diag _ Hx), (fsub_diag _ Hy), (fsub_diag _ Hz).
  reflexivity.
Qed.

(** X10.  [move_towards] from a position to itself returns the position,
    at every speed and with every C library: the distance is 0 ([0.0 ** 2]
    is answered without [pow]) and the division by it is not reached.  The
    coordinates are numbers (neither NaN nor infinite). *)
Theorem X10_agent_on_its_target_stays :
  forall p speed pow,
    in_the_world p = true -> Position.move_towards p p speed pow = Ok p.
Proof.
  intros p speed pow H. unfold Position.move_towards.
  rewrite (distance_to_self p pow H). reflexivity.
Qed.

Lemma X10_agent_on_its_target_stays_witness :
  in_the_world (at_ 5 0 5) = true /\
  Position.move_towards (at_ 5 0 5) (at_ 5 0 5) (Z2F 3) exact_pow
  = Ok (at_ 5 0 5).
Proof.
  split; [ vm_compute; reflexivity | ].
  apply (X10_agent_on_its_target_stays (at_ 5 0 5) (Z2F 3) exact_pow).
  vm_compute. reflexivity.
Defined.

(** * What the arithmetic can raise *)

Lemma float_of_int_arithmetic n : oraises arithmetic (float_of_int n).
Proof.
  unfold float_of_int. intros x. destruct (is_inf _); intros [= <-].
  left. reflexivity.
Qed.

Lemma int_of_float_arithmetic y : oraises arithmetic (int_of_float y).
Proof.
  intros x. destruct y; intros [= <-]; [ left | right ]; reflexivity.
Qed.

Lemma int_mul_float_arithmetic n y : oraises arithmetic (int_mul_float n y).
Proof.
  apply oraises_obind;
    [ apply float_of_int_arithmetic | intros; apply oraises_ok ].
Qed.

Lemma float_pow2_arithmetic pow y : oraises arithmetic (float_pow2 pow y).
Proof.
  unfold float_pow2. intros x. destruct y as [s | s | | s m e];
    try discriminate.
  destruct (feqb _ _); [ discriminate | ].
  destruct (pow _) as [ix errno].
  repeat match goal with
         | |- context [if ?c then _ else _] => destruct c
         end;
    intros [= <-]; first [ left; reflexivity | right; reflexivity ].
Qed.

Lemma math_sqrt_arithmetic y : oraises arithmetic (math_sqrt y).
Proof.
  intros x. destruct y as [s | s | | s m e]; try destruct s; intros [= <-];
    right; reflexivity.
Qed.

Lemma distance_to_arithmetic p q pow :
  oraises arithmetic (Position.distance_to p q pow).
Proof.
  unfold Position.distance_to.
  repeat (apply oraises_obind; [ apply float_pow2_arithmetic | intros ? ]).
  apply math_sqrt_arithmetic.
Qed.

(** * The attack timer *)

Ltac arithmetic_case E lem :=
  apply lem in E; destruct E as [-> | ->]; reflexivity.

(** X11.  [_perform_attack] restarts the attack timer on a hit only.  After
    a report Attack, [last_attack_time] is [current_time], the report names
    the player's id and the player record has a ["name"]; after Cooldown or
    Miss, and after every exception but one, the timer is as before; the one
    is the KeyError for ["name"], raised for a player record without a name
    after the timer has been restarted.  Players are records with an ["id"]
    and a ["position"]. *)
Theorem X11_attack_timer_restarts_on_a_hit_only :
  forall player current_time s,
    let r := MonsterAI._perform_attack player current_time s in
    let last := MonsterAI.last_attack_time (self (snd r)) in
    match fst r with
    | Ok (Attack _ _ _ target _ _) =>
        last = current_time /\ target = Player.id player /\
        Player.name player <> None
    | Raise (KeyError key) =>
        last = current_time /\ key = "name" /\ Player.name player = None
    | _ => last = MonsterAI.last_attack_time (self s)
    end.
Proof.
  intros player current_time s. cbv zeta.
  unfold MonsterAI._perform_attack.
  rewrite bind_run, get_self_run. cbv iota.
  destruct (fltb _ _); [ reflexivity | ].
  destruct (MonsterAI.attack_patterns (self s) !! _) as [pat|];
    [ | reflexivity ].
  destruct (length (MonsterAI.attack_patterns (self s))) as [|n];
    [ reflexivity | ].
  rewrite bind_run, modify_run. cbv iota.
  rewrite bind_run.
  destruct (MonsterAI.is_enraged (self s)).
  - rewrite bind_run, lift_deref_run. cbn [env heap].
    destruct (heap (env s) !! MonsterAI.stats (self s)) as [st|];
      [ | reflexivity ].
    cbv iota. rewrite bind_run, liftO_run.
    destruct (int_mul_float _ _) as [raised|] eqn:E1;
      [ | arithmetic_case E1 int_mul_float_arithmetic ].
    cbv iota. rewrite liftO_run.
    destruct (int_of_float raised) as [v|] eqn:E2;
      [ | arithmetic_case E2 int_of_float_arithmetic ].
    cbv iota. rewrite bind_run, liftP_run.
    destruct (Position.distance_to _ _ _) as [d|] eqn:E3;
      [ | arithmetic_case E3 distance_to_arithmetic ].
    cbv iota. destruct (fleb d _); [ | reflexivity ].
    rewrite bind_run, modify_run. cbv iota.
    destruct (Player.name player); cbn; repeat split; congruence.
  - rewrite ret_run. cbv iota. rewrite bind_run, liftP_run.
    destruct (Position.distance_to _ _ _) as [d|] eqn:E3;
      [ | arithmetic_case E3 distance_to_arithmetic ].
    cbv iota. destruct (fleb d _); [ | reflexivity ].
    rewrite bind_run, modify_run. cbv iota.
    destruct (Player.name player); cbn; repeat split; congruence.
Qed.

(** * The reported position *)

Lemma ensures_bind {S A B} (Q : B -> S -> Prop) (m : M S A) (k : A -> M S B) :
  (forall a, ensures Q (k a)) -> ensures Q (bind m k).
Proof.
  intros Hk s b s' E. apply bind_Ok_inv in E as (a & s1 & _ & E).
  eapply Hk, E.
Qed.

Lemma perform_attack_at_position player current_time :
  ensures at_position (MonsterAI._perform_attack player current_time).
Proof.
  intros s act s'.
  unfold MonsterAI._perform_attack, bind, get_self, lift, liftO, deref,
    modify, ret, raise, at_position.
  cbn.
  destruct (fltb _ _); [ intros [= <- <-]; reflexivity | ].
  destruct (MonsterAI.attack_patterns (self s) !! _) as [pat|];
    [ | discriminate ].
  destruct (length (MonsterAI.attack_patterns (self s))) as [|n];
    [ discriminate | ].
  cbn.
  destruct (MonsterAI.is_enraged (self s)); cbn.
  - destruct (heap (env s) !! MonsterAI.stats (self s)) as [st|]; cbn;
      [ | discriminate ].
    destruct (int_mul_float _ _) as [raised|]; cbn; [ | discriminate ].
    destruct (int_of_float raised) as [v|]; cbn; [ | discriminate ].
    destruct (Position.distance_to _ _) as [d|]; cbn; [ | discriminate ].
    destruct (fleb d _); cbn; [ | intros [= <- <-]; reflexivity ].
    destruct (Player.name player); cbn; [ | discriminate ].
    intros [= <- <-]. reflexivity.
  - destruct (Position.distance_to _ _) as [d|]; cbn; [ | discriminate ].
    destruct (fleb d _); cbn; [ | intros [= <- <-]; reflexivity ].
    destruct (Player.name player); cbn; [ | discriminate ].
    intros [= <- <-]. reflexivity.
Qed.

Lemma chase_player_at_position player delta_time :
  ensures at_position (MonsterAI._chase_player player delta_time).
Proof.
  intros s act s'.
  unfold MonsterAI._chase_player, bind, get_self, lift, liftO, deref,
    modify, ret, raise, at_position.
  cbn.
  destruct (_ || _); [ intros [= <- <-]; reflexivity | ].
  destruct (heap (env s) !! MonsterAI.stats (self s)) as [st|]; cbn;
    [ | discriminate ].
  destruct (Position.move_towards _ _ _) as [p|]; cbn; [ | discriminate ].
  intros [= <- <-]. reflexivity.
Qed.

Lemma idle_behavior_at_position delta_time :
  ensures at_position (MonsterAI._idle_behavior delta_time).
Proof.
  intros s act s'.
  unfold MonsterAI._idle_behavior, bind, get_self, lift, liftO, deref,
    modify, ret, raise, at_position, uniform, random, time, bind, ret.
  cbn.
  destruct (MonsterAI.is_sleeping (self s)); [ intros [= <- <-]; reflexivity | ].
  cbn.
  destruct (fltb _ (fsub _ _)); cbn;
    (destruct (Position.distance_to _ _) as [d|]; cbn; [ | discriminate ];
     destruct (fltb f0_5 d); cbn; [ | intros [= <- <-]; reflexivity ];
     destruct (heap (env s) !! MonsterAI.stats (self s)) as [st|]; cbn;
     [ | discriminate ];
     destruct (Position.move_towards _ _ _) as [p|]; cbn; [ | discriminate ];
     intros [= <- <-]; reflexivity).
Qed.

(** X12.  Every report [update] returns carries a position, and it is the
    position of the agent after the call: the place reached when the agent
    moved, the place it stood on otherwise. *)
Theorem X12_update_reports_the_position_reached :
  forall delta_time nearby_players s act,
    let r := MonsterAI.update delta_time nearby_players s in
    fst r = Ok act ->
    reported_position act = Some (MonsterAI.position (self (snd r))).
Proof.
  intros delta_time nearby_players s act. cbv zeta. intros R.
  assert (E : ensures at_position
                (MonsterAI.update delta_time nearby_players)).
  { unfold MonsterAI.update.
    repeat (apply ensures_bind; intros ?).
    repeat match goal with
           | |- ensures _ (match ?x with _ => _ end) => destruct x
           | |- ensures _ (bind _ _) => apply ensures_bind; intros ?
           end;
      first [ apply perform_attack_at_position
            | apply chase_player_at_position
            | apply idle_behavior_at_position ]. }
  apply (E s act (snd (MonsterAI.update delta_time nearby_players s))).
  destruct (MonsterAI.update delta_time nearby_players s) as [r s'].
  cbn in R |- *. congruence.
Qed.

Lemma X12_update_reports_the_position_reached_witness :
  let s := agent_of (one_jaggi ticking) in
  let r := MonsterAI.update (Z2F 1) [] s in
  let act := Patrol (MonsterAI.position (self (snd r))) in
  fst r = Ok act /\
  reported_position act = Some (MonsterAI.position (self (snd r))).
Proof.
  split; [ vm_compute; reflexivity | ].
  apply (X12_update_reports_the_position_reached (Z2F 1) []
           (agent_of (one_jaggi ticking))).
  vm_compute. reflexivity.
Defined.

(** * What [update] never reads *)

(** X13.  [update] neither reads nor writes [state], [aggression_level],
    [intelligence] and [patience]: run on an agent with the four replaced,
    it returns the same report, or raises the same exception, and leaves the
    same agent with the four replaced, in the same environment.  A fleeing
    agent behaves as any other. *)
Theorem X13_update_ignores_state_and_temper :
  forall state aggression_level intelligence patience delta_time
         nearby_players s,
    let g := with_temper state aggression_level intelligence patience in
    let r := MonsterAI.update delta_time nearby_players s in
    MonsterAI.update delta_time nearby_players (mkSt (g (self s)) (env s))
    = (fst r, mkSt (g (self (snd r))) (env (snd r))).
Proof.
  intros state aggression_level intelligence patience delta_time
    nearby_players s.
  cbv zeta.
  set (g := with_temper state aggression_level intelligence patience).
  assert (L : forall current_time effects,
             commutes g
               (MonsterAI.status_loop current_time delta_time effects)).
  { intros current_time effects.
    induction effects as [|effect rest IH]; cbn [MonsterAI.status_loop];
      blind_tac. }
  revert s.
  change (commutes g (MonsterAI.update delta_time nearby_players)).
  unfold MonsterAI.update, MonsterAI._update_status_effects,
    MonsterAI._become_enraged, MonsterAI._find_nearest_player,
    MonsterAI._perform_attack, MonsterAI._chase_player,
    MonsterAI._idle_behavior.
  blind_tac.
Qed.

(** * A hit and the query after it *)

Lemma take_damage_report damage attack_type status_effect status_duration :
  ensures
    (fun act s' => report_agrees act (MonsterAI.current_health (self s')))
    (MonsterAI.take_damage damage attack_type status_effect status_duration).
Proof.
  intros s act s'.
  unfold MonsterAI.take_damage, bind, get_self, lift, liftO, deref, modify,
    ret, time, random.
  cbn.
  destruct (heap (env s) !! MonsterAI.stats (self s)) as [st|];
    [ | discriminate ].
  cbn.
  destruct (int_mul_float damage _) as [scaled|]; [ | discriminate ]. cbn.
  destruct (int_of_float scaled) as [final_damage|]; [ | discriminate ]. cbn.
  destruct (num_sub_int _ _) as [h|]; [ | discriminate ]. cbn.
  destruct status_effect as [effect|]; cbn;
    [ destruct (fltb fzero _); cbn | ];
    (destruct (num_le0 (max0 h)) eqn:Z; cbn;
     [ intros [= <- <-]; exact Z | ];
     destruct (int_mul_float _ f0_2) as [threshold|]; cbn;
     [ | discriminate ];
     destruct (num_lt_float (max0 h) threshold); cbn;
     [ | intros [= <- <-]; reflexivity ];
     destruct (fltb _ f0_3); cbn; intros [= <- <-]; reflexivity).
Qed.

Lemma take_damage_reads_template damage attack_type status_effect
    status_duration s act s' :
  MonsterAI.take_damage damage attack_type status_effect status_duration s
  = (Ok act, s') ->
  exists st, heap (env s) !! MonsterAI.stats (self s) = Some st.
Proof.
  unfold MonsterAI.take_damage. rewrite bind_run, get_self_run. cbv iota.
  rewrite bind_run, lift_deref_run.
  destruct (heap (env s) !! MonsterAI.stats (self s)) as [st|];
    [ eauto | discriminate ].
Qed.

(** X14.  A hit and the query after it agree: when [damage_monster] returns
    a report for an id, [get_monster_state] for that id then returns a state
    and changes nothing; the health in that state is the health of the
    report (a health [<= 0] for Defeated), and its [state] is ["fleeing"]
    after a Flee report. *)
Theorem X14_damage_report_and_state_query_agree :
  forall monster_id damage attack_type status_effect status_duration s act,
    let r := MonsterSpawner.damage_monster monster_id damage attack_type
               status_effect status_duration s in
    fst r = Ok (Some act) ->
    exists view,
      MonsterSpawner.get_monster_state monster_id (snd r)
      = (Ok (Some view), snd r) /\
      report_agrees act (MonsterState.health view) /\
      (action act = "flee" -> MonsterState.state view = "fleeing").
Proof.
  intros monster_id damage attack_type status_effect status_duration s act.
  cbv zeta. unfold MonsterSpawner.damage_monster.
  rewrite bind_run, get_self_run. cbv iota.
  destruct (dict_get monster_id (MonsterSpawner.active_monsters (self s)))
    as [monster|]; [ | discriminate ].
  rewrite bind_run. unfold MonsterSpawner.on_monster.
  destruct (MonsterAI.take_damage damage attack_type status_effect
              status_duration (mkSt monster (env s))) as [r1 s1] eqn:T.
  destruct r1 as [act1|x]; cbv iota; [ | discriminate ].
  rewrite ret_run. cbn [fst snd]. intros [= ->].
  pose proof (take_damage_report _ _ _ _ _ _ _ T) as A.
  pose proof (stable_run _ _ _ _ _ (take_damage_frame _ _ _ _) T) as (F & _).
  pose proof (stable_run _ _ _ _ _ (take_damage_heap_same _ _ _ _) T) as Hh.
  destruct (take_damage_reads_template _ _ _ _ _ _ _ T) as (st & L).
  unfold heap_same in Hh. cbn [self env] in A, F, Hh, L.
  unfold MonsterSpawner.get_monster_state.
  rewrite bind_run, get_self_run. cbv iota.
  cbn [self MonsterSpawner.set_active_monsters
       MonsterSpawner.active_monsters].
  rewrite dict_get_set.
  rewrite bind_run. unfold lift, call, MonsterAI.get_state.
  cbn [env].
  rewrite bind_run, get_self_run. cbv iota. cbn [self].
  rewrite bind_run, lift_deref_run. cbn [env].
  rewrite Hh, F, L. cbv iota. rewrite !ret_run. cbn [fst snd self env].
  eexists. split; [ reflexivity | ].
  cbn [MonsterState.health MonsterState.state]. split; [ exact A | ].
  revert T. clear. intros T E.
  revert T.
  unfold MonsterAI.take_damage, bind, get_self, lift, liftO, deref, modify,
    ret, time, random.
  cbn.
  destruct (heap (env s) !! MonsterAI.stats monster) as [st|];
    [ | discriminate ].
  cbn.
  destruct (int_mul_float damage _) as [scaled|]; [ | discriminate ]. cbn.
  destruct (int_of_float scaled) as [final_damage|]; [ | discriminate ]. cbn.
  destruct (num_sub_int _ _) as [h|]; [ | discriminate ]. cbn.
  destruct status_effect as [effect|]; cbn;
    [ destruct (fltb fzero _); cbn | ];
    (destruct (num_le0 (max0 h)); cbn;
     [ intros [= <- <-]; discriminate | ];
     destruct (int_mul_float _ f0_2) as [threshold|]; cbn;
     [ | discriminate ];
     destruct (num_lt_float (max0 h) threshold); cbn;
     [ | intros [= <- <-]; discriminate ];
     destruct (fltb _ f0_3); cbn; intros [= <- <-];
     [ reflexivity | discriminate ]).
Qed.

Lemma X14_damage_report_and_state_query_agree_witness :
  let r := MonsterSpawner.damage_monster jaggi_id 700 AttackType.PHYSICAL
             None fzero (one_jaggi quiet) in
  let act := Damaged 700 (PInt 100) in
  fst r = Ok (Some act) /\
  exists view,
    MonsterSpawner.get_monster_state jaggi_id (snd r)
    = (Ok (Some view), snd r) /\
    report_agrees act (MonsterState.health view) /\
    (action act = "flee" -> MonsterState.state view = "fleeing").
Proof.
  split; [ vm_compute; reflexivity | ].
  apply (X14_damage_report_and_state_query_agree jaggi_id 700
           AttackType.PHYSICAL None fzero (one_jaggi quiet)).
  vm_compute. reflexivity.
Defined.

(** * Spawning *)

Lemma dict_get_set_ne {V} (k k' : string) (v : V) d :
  k' <> k -> dict_get k' (dict_set k v d) = dict_get k' d.
Proof.
  intros N. induction d as [|[k0 v0] d IH]; cbn.
  - destruct (String.eqb_spec k' k); [ contradiction | reflexivity ].
  - destruct (String.eqb_spec k k0) as [-> | N0]; cbn.
    + destruct (String.eqb_spec k' k0); [ contradiction | reflexivity ].
    + rewrite IH. reflexivity.
Qed.

Lemma init_newborn l p e a :
  fst (MonsterAI.__init__ l p e) = Ok a ->
  heap (snd (MonsterAI.__init__ l p e)) = heap e /\
  exists st, heap e !! l = Some st /\ newborn l p st (clock e (ticks e)) a.
Proof.
  unfold MonsterAI.__init__, MonsterAI._generate_attack_patterns, call, bind,
    deref, time, uniform, random, ret, lift, get_self, bind, deref, newborn.
  cbn -[MonsterAI.table_get MonsterAI.base_patterns
        MonsterAI.default_patterns].
  destruct (heap e !! l) as [st|] eqn:L;
    cbn -[MonsterAI.table_get MonsterAI.base_patterns
          MonsterAI.default_patterns];
    [ | discriminate ].
  rewrite L.
  cbn -[MonsterAI.table_get MonsterAI.base_patterns
        MonsterAI.default_patterns].
  intros H. injection H as <-. split; [ reflexivity | ].
  exists st. split; reflexivity.
Qed.

(** X15.  When [spawn_monster] returns an id, the id maps to an agent as the
    constructor leaves it, built on the template its species id names in the
    catalog, at the given position, with the template's [health], no flag,
    no status, no target, and [last_movement] the second clock reading of
    the call; the agents under all other ids are the ones that were there;
    and no template is written. *)
Theorem X15_spawned_agent_starts_fresh :
  forall monster_type position s monster_id,
    let r := MonsterSpawner.spawn_monster monster_type position s in
    fst r = Ok (Some monster_id) ->
    exists monster_stats st monster_ai,
      dict_get monster_type (MonsterSpawner.monster_templates (self s))
      = Some monster_stats /\
      heap (env s) !! monster_stats = Some st /\
      dict_get monster_id (MonsterSpawner.active_monsters (self (snd r)))
      = Some monster_ai /\
      newborn monster_stats position st
        (clock (env s) (S (ticks (env s)))) monster_ai /\
      (forall other,
         other <> monster_id ->
         dict_get other (MonsterSpawner.active_monsters (self (snd r)))
         = dict_get other (MonsterSpawner.active_monsters (self s))) /\
      heap (env (snd r)) = heap (env s).
Proof.
  intros monster_type position s monster_id. cbv zeta.
  unfold MonsterSpawner.spawn_monster.
  rewrite bind_run, get_self_run. cbv iota.
  destruct (_ >=? _); [ discriminate | ].
  destruct (dict_get _ _) as [l|]; [ | discriminate ].
  unfold bind, lift, liftO, modify, ret, time, randint, random_below.
  cbn -[MonsterAI.__init__ pretty String.append Z.of_nat Z.to_nat Nat.modulo].
  destruct (int_of_float _) as [seconds|]; [ | discriminate ].
  match goal with
  | |- context [MonsterAI.__init__ ?a ?b ?c] =>
      pose proof (init_newborn a b c) as I;
      destruct (MonsterAI.__init__ a b c) as [[monster_ai|x] e']
  end;
    cbn -[pretty String.append Z.of_nat Z.to_nat Nat.modulo] in I |- *;
    [ | discriminate ].
  destruct (I monster_ai eq_refl) as (Hh & st & L & N).
  match goal with
  | |- context [dict_set ?k _ _] => generalize k
  end.
  intros k [= <-].
  exists l, st, monster_ai. split; [ reflexivity | ].
  split; [ exact L | ]. split; [ apply dict_get_set | ].
  split; [ exact N | ]. split; [ | exact Hh ].
  intros other O. apply dict_get_set_ne, O.
Qed.

Lemma X15_spawned_agent_starts_fresh_witness :
  let s := start quiet in
  let r := MonsterSpawner.spawn_monster "great_jaggi" (at_ 5 0 5) s in
  fst r = Ok (Some jaggi_id) /\
  exists monster_stats st monster_ai,
    dict_get "great_jaggi" (MonsterSpawner.monster_templates (self s))
    = Some monster_stats /\
    heap (env s) !! monster_stats = Some st /\
    dict_get jaggi_id (MonsterSpawner.active_monsters (self (snd r)))
    = Some monster_ai /\
    newborn monster_stats (at_ 5 0 5) st
      (clock (env s) (S (ticks (env s)))) monster_ai /\
    (forall other,
       other <> jaggi_id ->
       dict_get other (MonsterSpawner.active_monsters (self (snd r)))
       = dict_get other (MonsterSpawner.active_monsters (self s))) /\
    heap (env (snd r)) = heap (env s).
Proof.
  split; [ vm_compute; reflexivity | ].
  apply (X15_spawned_agent_starts_fresh "great_jaggi" (at_ 5 0 5)
           (start quiet) jaggi_id).
  vm_compute. reflexivity.
Defined.

Lemma dict_set_keys_present {V} (k : string) (v v0 : V) d :
  dict_get k d = Some v0 -> dict_keys (dict_set k v d) = dict_keys d.
Proof.
  unfold dict_keys.
  induction d as [|[k1 v1] d IH]; cbn; [ discriminate | ].
  destruct (String.eqb k k1); [ reflexivity | ].
  intros L. cbn. rewrite IH by exact L. reflexivity.
Qed.



(** X17.  [damage_monster], returning or raising, keeps the ids of the
    population and their order, leaves the agents under all other ids, the
    spawner's other attributes and the heap as they were; for an id that is
    not in the population it returns [None] and changes nothing. *)
Theorem X17_damage_reaches_one_agent :
  forall monster_id damage attack_type status_effect status_duration s,
    let r := MonsterSpawner.damage_monster monster_id damage attack_type
               status_effect status_duration s in
    let before := MonsterSpawner.active_monsters (self s) in
    let after := MonsterSpawner.active_monsters (self (snd r)) in
    dict_keys after = dict_keys before /\
    (forall other,
       other <> monster_id -> dict_get other after = dict_get other before) /\
    MonsterSpawner.set_active_monsters before (self (snd r)) = self s /\
    heap (env (snd r)) = heap (env s) /\
    (dict_get monster_id before = None -> r = (Ok None, s)).
Proof.
  intros monster_id damage attack_type status_effect status_duration s.
  cbv zeta. unfold MonsterSpawner.damage_monster.
  rewrite bind_run, get_self_run. cbv iota.
  destruct (dict_get monster_id (MonsterSpawner.active_monsters (self s)))
    as [monster|] eqn:L.
  - rewrite bind_run. unfold MonsterSpawner.on_monster.
    pose proof (take_damage_heap_same damage attack_type status_effect
                  status_duration (mkSt monster (env s))) as Hh.
    destruct (MonsterAI.take_damage _ _ _ _ _) as [[act|x] s1]; cbv iota;
      unfold heap_same in Hh; cbn [fst snd self env] in Hh |- *;
      (split; [ eapply dict_set_keys_present, L | ];
       split; [ intros other O; apply dict_get_set_ne, O | ];
       split; [ destruct (self s); reflexivity | ];
       split; [ exact Hh | discriminate ]).
  - rewrite ret_run. cbn [fst snd]. repeat split.
    destruct (self s). reflexivity.
Qed.

(** * The sweep *)

Lemma dict_set_keys {V} (k : string) (v : V) d :
  one_more_at_most (dict_keys d) (dict_keys (dict_set k v d)).
Proof.
  destruct (dict_get k d) as [v0|] eqn:L.
  - exists []. rewrite (dict_set_keys_present k v v0 d L), app_nil_r.
    split; [ reflexivity | cbn; lia ].
  - exists [k]. split; [ | cbn; lia ].
    unfold dict_keys. induction d as [|[k1 v1] d IH]; cbn in *;
      [ reflexivity | ].
    destruct (String.eqb k k1); [ discriminate | ].
    cbn. rewrite IH by exact L. reflexivity.
Qed.

Lemma one_more_at_most_refl l : one_more_at_most l l.
Proof. exists []. rewrite app_nil_r. split; [ reflexivity | cbn; lia ]. Qed.

Lemma spawn_monster_keys monster_type position s :
  one_more_at_most (population s)
    (population (snd (MonsterSpawner.spawn_monster monster_type position s))).
Proof.
  unfold MonsterSpawner.spawn_monster, population.
  rewrite bind_run, get_self_run. cbv iota.
  destruct (_ >=? _); [ apply one_more_at_most_refl | ].
  destruct (dict_get monster_type _) as [l|];
    [ | apply one_more_at_most_refl ].
  unfold bind, lift, liftO, modify, ret, time, randint, random_below.
  cbn -[MonsterAI.__init__ pretty String.append Z.of_nat Z.to_nat Nat.modulo].
  destruct (int_of_float _) as [seconds|];
    [ | apply one_more_at_most_refl ].
  destruct (MonsterAI.__init__ _ _ _) as [[monster_ai|x] e'];
    cbn -[pretty String.append Z.of_nat Z.to_nat Nat.modulo];
    [ | apply one_more_at_most_refl ].
  apply dict_set_keys.
Qed.

Lemma spawn_random_monster_keys s :
  one_more_at_most (population s)
    (population (snd (MonsterSpawner._spawn_random_monster s))).
Proof.
  unfold MonsterSpawner._spawn_random_monster.
  rewrite bind_run, get_self_run. cbv iota.
  destruct (MonsterSpawner.spawn_points (self s)) as [|p0 ps];
    [ apply one_more_at_most_refl | ].
  rewrite bind_run.
  destruct (lift (choice (p0 :: ps)) s) as [[spawn_point|x] s1] eqn:E1;
    apply lift_inv in E1; cbv iota;
    [ | unfold population; cbn [snd]; rewrite E1;
        apply one_more_at_most_refl ].
  rewrite bind_run.
  destruct (lift (choice _) s1) as [[monster_type|x] s2] eqn:E2;
    apply lift_inv in E2; cbv iota;
    [ | unfold population; cbn [snd]; rewrite E2, E1;
        apply one_more_at_most_refl ].
  rewrite bind_run.
  pose proof (spawn_monster_keys monster_type spawn_point s2) as K.
  unfold population in K |- *. rewrite E2, E1 in K.
  destruct (MonsterSpawner.spawn_monster _ _ _) as [[r|x] s3];
    cbv iota; exact K.
Qed.
Lemma filter_twice {A} (f g : A -> bool) (l : list A) :
  List.filter f (List.filter g l) = List.filter (fun x => g x && f x) l.
Proof.
  induction l as [|x l IH]; cbn; [ reflexivity | ].
  destruct (g x); cbn; [ destruct (f x) | ]; rewrite IH; reflexivity.
Qed.

Lemma remove_all_filter ids d :
  MonsterSpawner.remove_all ids d = List.filter (spared ids) d.
Proof.
  unfold MonsterSpawner.remove_all. revert d.
  induction ids as [|i ids IH]; intros d; cbn [fold_left].
  - unfold spared. cbn. induction d as [|x d IHd]; cbn; congruence.
  - rewrite IH. unfold dict_del. rewrite filter_twice. reflexivity.
Qed.

Lemma spared_fresh ids id monster :
  id ∉ ids -> spared ids (id, monster) = true.
Proof.
  unfold spared. cbn [fst]. induction ids as [|i ids IH]; intros N;
    [ reflexivity | ].
  cbn. apply not_elem_of_cons in N as [N1 N2].
  destruct (String.eqb_spec i id); [ congruence | ].
  apply IH, N2.
Qed.

(** The agents the sweep keeps are the agents it reports, in order. *)
Lemma sweep_survivors delta_time nearby_players monsters e :
  NoDup (dict_keys monsters) ->
  let '(monsters', updates, monsters_to_remove, _) :=
    MonsterSpawner.sweep delta_time nearby_players monsters e in
  dict_keys (MonsterSpawner.remove_all monsters_to_remove monsters')
  = map fst updates.
Proof.
  unfold dict_keys.
  revert e. induction monsters as [|[monster_id monster] rest IH]; intros e N.
  - reflexivity.
  - cbn [map fst] in N. apply NoDup_cons in N as [N1 N2].
    cbn [MonsterSpawner.sweep].
    destruct (MonsterAI.update delta_time nearby_players (mkSt monster e))
      as [r s] eqn:E.
    specialize (IH (env s) N2).
    pose proof (sweep_shape delta_time nearby_players rest (env s)) as Sh.
    destruct (MonsterSpawner.sweep delta_time nearby_players rest (env s))
      as [[[rest' updates] to_remove] e'].
    destruct Sh as (Sh1 & Sh2 & _). unfold dict_keys in Sh1.
    rewrite remove_all_filter in IH.
    destruct r as [upd | x].
    + assert (D : not_defeated upd).
      { apply (update_never_defeated delta_time nearby_players
                 (mkSt monster e)). rewrite E. reflexivity. }
      apply String.eqb_neq in D. rewrite D.
      rewrite remove_all_filter. cbn [List.filter].
      rewrite spared_fresh by (intros H; apply N1, Sh2, H).
      cbn [map fst]. rewrite IH. reflexivity.
    + rewrite remove_all_filter. cbn [List.filter].
      unfold spared at 1. cbn [forallb fst]. rewrite String.eqb_refl.
      cbn [negb andb]. rewrite <- IH. f_equal.
      apply List.filter_ext_in. intros [k v] Hk.
      unfold spared. cbn [forallb fst].
      destruct (String.eqb_spec monster_id k) as [<- | _]; [ | reflexivity ].
      exfalso. apply N1. rewrite <- Sh1.
      apply (in_map fst) in Hk. apply list_elem_of_In. exact Hk.
Qed.

(** X18.  A sweep keeps the agents it reports.  When [update_monsters]
    returns, on a population with distinct ids, the ids of the reports are
    ids of the old population in their old order, and the ids of the new
    population are the ids of the reports, followed by at most one more (a
    random spawn). *)
Theorem X18_sweep_keeps_the_agents_it_reports :
  forall delta_time nearby_players s updates,
    let r := MonsterSpawner.update_monsters delta_time nearby_players s in
    NoDup (population s) ->
    fst r = Ok updates ->
    one_more_at_most (map fst updates) (population (snd r)) /\
    sublist (map fst updates) (population s).
Proof.
  intros delta_time nearby_players s updates. cbv zeta. intros N.
  unfold MonsterSpawner.update_monsters.
  pose proof (sweep_survivors delta_time nearby_players
                (MonsterSpawner.active_monsters (self s)) (env s) N) as Sv.
  pose proof (sweep_shape delta_time nearby_players
                (MonsterSpawner.active_monsters (self s)) (env s)) as Sh.
  destruct (MonsterSpawner.sweep _ _ _ _) as [[[monsters ups] rm] e].
  destruct Sh as (Sh1 & _).
  rewrite bind_run, modify_run. cbv iota.
  rewrite bind_run, modify_run. cbv iota.
  rewrite bind_run, get_self_run. cbv iota.
  cbn [self env MonsterSpawner.set_active_monsters
       MonsterSpawner.set_spawn_timer MonsterSpawner.active_monsters
       MonsterSpawner.spawn_timer MonsterSpawner.spawn_interval
       MonsterSpawner.max_monsters MonsterSpawner.spawn_points
       MonsterSpawner.monster_templates].
  rewrite bind_run.
  assert (Sub : sublist (map fst ups) (population s)).
  { rewrite <- Sv, remove_all_filter. unfold population. rewrite <- Sh1.
    unfold dict_keys. clear.
    induction monsters as [|x l IH]; cbn; [ constructor | ].
    destruct (spared rm x); cbn; [ apply sublist_skip | apply sublist_cons ];
      exact IH. }
  destruct (_ && _).
  - rewrite bind_run.
    match goal with
    | |- context [MonsterSpawner._spawn_random_monster ?s1] =>
        pose proof (spawn_random_monster_keys s1) as K;
        destruct (MonsterSpawner._spawn_random_monster s1) as [[[]|x] s2]
    end; cbv iota; [ | discriminate ].
    rewrite modify_run. cbv iota. rewrite ret_run. cbn [fst snd].
    intros [= <-]. split; [ | exact Sub ].
    unfold population in K |- *. cbn [self snd] in K |- *.
    cbn [MonsterSpawner.set_spawn_timer MonsterSpawner.active_monsters] in *.
    unfold MonsterSpawner.set_active_monsters in K.
    cbn [MonsterSpawner.active_monsters] in K. rewrite Sv in K. exact K.
  - rewrite ret_run. cbv iota. rewrite ret_run. cbn [fst snd].
    intros [= <-]. split; [ | exact Sub ].
    unfold population, MonsterSpawner.set_spawn_timer,
      MonsterSpawner.set_active_monsters.
    cbn [self MonsterSpawner.active_monsters].
    rewrite Sv. apply one_more_at_most_refl.
Qed.

Lemma X18_sweep_keeps_the_agents_it_reports_witness :
  let s := two_jaggis in
  let r := MonsterSpawner.update_monsters (Z2F 1) [hunter] s in
  let updates := returned [] (fst r) in
  NoDup (population s) /\
  fst r = Ok updates /\
  one_more_at_most (map fst updates) (population (snd r)) /\
  sublist (map fst updates) (population s).
Proof.
  assert (N : NoDup (population two_jaggis)).
  { apply (bool_decide_unpack _). vm_compute. exact I. }
  split; [ exact N | ].
  split; [ vm_compute; reflexivity | ].
  apply (X18_sweep_keeps_the_agents_it_reports (Z2F 1) [hunter] two_jaggis);
    [ exact N | vm_compute; reflexivity ].
Defined.

(** * Ids stay distinct *)

Lemma dict_get_None_keys {V} (k : string) (d : list (string * V)) :
  dict_get k d = None -> k ∉ dict_keys d.
Proof.
  unfold dict_keys. induction d as [|[k1 v1] d IH]; cbn.
  - intros _ H. inversion H.
  - destruct (String.eqb_spec k k1) as [-> | N]; [ discriminate | ].
    intros L. apply not_elem_of_cons. split; [ exact N | apply IH, L ].
Qed.

Lemma dict_set_NoDup {V} (k : string) (v : V) d :
  NoDup (dict_keys d) -> NoDup (dict_keys (dict_set k v d)).
Proof.
  intros N. destruct (dict_get k d) as [v0|] eqn:L.
  - rewrite (dict_set_keys_present k v v0 d L). exact N.
  - assert (E : dict_keys (dict_set k v d) = dict_keys d ++ [k]).
    { unfold dict_keys. clear N. induction d as [|[k1 v1] d IH]; cbn in *;
        [ reflexivity | ].
      destruct (String.eqb k k1); [ discriminate | ].
      cbn. rewrite IH by exact L. reflexivity. }
    rewrite E. apply NoDup_app. split; [ exact N | ].
    split; [ | apply NoDup_singleton ].
    intros x Hx Hk. apply list_elem_of_singleton in Hk as ->.
    apply (dict_get_None_keys _ _ L), Hx.
Qed.

Lemma spawn_monster_NoDup monster_type position s :
  NoDup (population s) ->
  NoDup (population
           (snd (MonsterSpawner.spawn_monster monster_type position s))).
Proof.
  unfold MonsterSpawner.spawn_monster, population.
  rewrite bind_run, get_self_run. cbv iota. intros N.
  destruct (_ >=? _); [ exact N | ].
  destruct (dict_get monster_type _) as [l|]; [ | exact N ].
  unfold bind, lift, liftO, modify, ret, time, randint, random_below.
  cbn -[MonsterAI.__init__ pretty String.append Z.of_nat Z.to_nat Nat.modulo].
  destruct (int_of_float _) as [seconds|]; [ | exact N ].
  destruct (MonsterAI.__init__ _ _ _) as [[monster_ai|x] e'];
    cbn -[pretty String.append Z.of_nat Z.to_nat Nat.modulo];
    [ | exact N ].
  apply dict_set_NoDup, N.
Qed.

Lemma spawn_random_monster_NoDup s :
  NoDup (population s) ->
  NoDup (population (snd (MonsterSpawner._spawn_random_monster s))).
Proof.
  intros N. unfold MonsterSpawner._spawn_random_monster.
  rewrite bind_run, get_self_run. cbv iota.
  destruct (MonsterSpawner.spawn_points (self s)) as [|p0 ps]; [ exact N | ].
  rewrite bind_run.
  destruct (lift (choice (p0 :: ps)) s) as [[spawn_point|x] s1] eqn:E1;
    apply lift_inv in E1; cbv iota;
    [ | unfold population in *; cbn [snd]; rewrite E1; exact N ].
  rewrite bind_run.
  destruct (lift (choice _) s1) as [[monster_type|x] s2] eqn:E2;
    apply lift_inv in E2; cbv iota;
    [ | unfold population in *; cbn [snd]; rewrite E2, E1; exact N ].
  rewrite bind_run.
  pose proof (spawn_monster_NoDup monster_type spawn_point s2) as K.
  unfold population in K, N |- *. rewrite E2, E1 in K. specialize (K N).
  destruct (MonsterSpawner.spawn_monster _ _ _) as [[r|x] s3];
    cbv iota; exact K.
Qed.

Lemma damage_monster_population monster_id damage attack_type status_effect
    status_duration s :
  population (snd (MonsterSpawner.damage_monster monster_id damage
                     attack_type status_effect status_duration s))
  = population s.
Proof.
  unfold population, MonsterSpawner.damage_monster.
  rewrite bind_run, get_self_run. cbv iota.
  destruct (dict_get monster_id (MonsterSpawner.active_monsters (self s)))
    as [monster|] eqn:L; [ | reflexivity ].
  rewrite bind_run. unfold MonsterSpawner.on_monster.
  destruct (MonsterAI.take_damage _ _ _ _ _) as [[act|x] s1]; cbv iota;
    cbn [fst snd self env];
    eapply dict_set_keys_present, L.
Qed.

Lemma update_monsters_NoDup delta_time nearby_players s :
  NoDup (population s) ->
  NoDup (population
           (snd (MonsterSpawner.update_monsters delta_time nearby_players s))).
Proof.
  intros N. unfold MonsterSpawner.update_monsters.
  pose proof (sweep_shape delta_time nearby_players
                (MonsterSpawner.active_monsters (self s)) (env s)) as Sh.
  destruct (MonsterSpawner.sweep _ _ _ _) as [[[monsters ups] rm] e].
  destruct Sh as (Sh1 & _).
  assert (N1 : NoDup (dict_keys (MonsterSpawner.remove_all rm monsters))).
  { rewrite remove_all_filter. unfold population in N. rewrite <- Sh1 in N.
    unfold dict_keys in *. clear Sh1.
    induction monsters as [|x l IH]; cbn in *; [ constructor | ].
    apply NoDup_cons in N as [Nx Nl].
    destruct (spared rm x); cbn; [ | apply IH, Nl ].
    apply NoDup_cons. split; [ | apply IH, Nl ].
    intros H. apply Nx. apply list_elem_of_In in H.
    apply list_elem_of_In. apply in_map_iff in H as (y & <- & Hy).
    apply in_map. apply List.filter_In in Hy as [Hy _]. exact Hy. }
  rewrite bind_run, modify_run. cbv iota.
  rewrite bind_run, modify_run. cbv iota.
  rewrite bind_run, get_self_run. cbv iota.
  rewrite bind_run.
  destruct (_ && _).
  - rewrite bind_run.
    match goal with
    | |- context [MonsterSpawner._spawn_random_monster ?s1] =>
        pose proof (spawn_random_monster_NoDup s1 N1) as K;
        destruct (MonsterSpawner._spawn_random_monster s1) as [[[]|x] s2]
    end; cbv iota; exact K.
  - rewrite ret_run. cbv iota. exact N1.
Qed.

(** X19.  The ids of the population stay distinct through every sequence
    of calls of the spawner's interface, whatever each call returns or
    raises. *)
Theorem X19_population_ids_stay_distinct :
  forall cs s, NoDup (population s) -> NoDup (population (run_calls cs s)).
Proof.
  induction cs as [|c cs IH]; intros s N; cbn [run_calls]; [ exact N | ].
  apply IH. destruct c as [p | ty p | dt players | i d ty st dur];
    cbn [run_call].
  - exact N.
  - rewrite bind_run.
    pose proof (spawn_monster_NoDup ty p s N) as K.
    destruct (MonsterSpawner.spawn_monster ty p s) as [[r|x] s1]; exact K.
  - rewrite bind_run.
    pose proof (update_monsters_NoDup dt players s N) as K.
    destruct (MonsterSpawner.update_monsters dt players s) as [[r|x] s1];
      exact K.
  - rewrite bind_run.
    pose proof (damage_monster_population i d ty st dur s) as K.
    destruct (MonsterSpawner.damage_monster i d ty st dur s) as [[r|x] s1];
      cbn [snd] in K; rewrite <- K in N; exact N.
Qed.

Lemma X19_population_ids_stay_distinct_witness :
  NoDup (population (start ticking)) /\
  NoDup (population (run_calls eleven_spawns (start ticking))).
Proof.
  assert (N : NoDup (population (start ticking))).
  { apply (bool_decide_unpack _). vm_compute. exact I. }
  split; [ exact N | ].
  apply (X19_population_ids_stay_distinct eleven_spawns (start ticking)).
  exact N.
Defined.

(** * The spawn timer *)

Lemma spawn_random_monster_keeps_timer :
  stable (fun s s' : St MonsterSpawner.t =>
            MonsterSpawner.spawn_timer (self s')
            = MonsterSpawner.spawn_timer (self s))
    MonsterSpawner._spawn_random_monster.
Proof.
  unfold MonsterSpawner._spawn_random_monster, MonsterSpawner.spawn_monster.
  stable_tac
    (fun s : St MonsterSpawner.t =>
       eq_refl (MonsterSpawner.spawn_timer (self s)))
    (fun (s1 s2 s3 : St MonsterSpawner.t)
         (H1 : MonsterSpawner.spawn_timer (self s2)
               = MonsterSpawner.spawn_timer (self s1))
         (H2 : MonsterSpawner.spawn_timer (self s3)
               = MonsterSpawner.spawn_timer (self s2)) =>
       eq_trans H2 H1);
    reflexivity.
Qed.

(** X20.  The spawn timer after [update_monsters], on a population with
    distinct ids: it was advanced by [delta_time]; when the call returned,
    the advanced value had reached [spawn_interval] and the agents reported
    were fewer than [max_monsters], it is 0 (whether or not an agent was
    spawned); otherwise it stays at the advanced value, also when the spawn
    raised. *)
Theorem X20_spawn_timer_accumulates_or_resets :
  forall delta_time nearby_players s,
    let r := MonsterSpawner.update_monsters delta_time nearby_players s in
    let elapsed := fadd (MonsterSpawner.spawn_timer (self s)) delta_time in
    NoDup (population s) ->
    MonsterSpawner.spawn_timer (self (snd r))
    = match fst r with
      | Ok updates =>
          if fleb (MonsterSpawner.spawn_interval (self s)) elapsed
             && (Z.of_nat (length updates)
                 <? MonsterSpawner.max_monsters (self s))
          then fzero else elapsed
      | Raise _ => elapsed
      end.
Proof.
  intros delta_time nearby_players s. cbv zeta. intros N.
  unfold MonsterSpawner.update_monsters.
  pose proof (sweep_survivors delta_time nearby_players
                (MonsterSpawner.active_monsters (self s)) (env s) N) as Sv.
  destruct (MonsterSpawner.sweep _ _ _ _) as [[[monsters ups] rm] e].
  apply (f_equal length) in Sv. unfold dict_keys in Sv.
  rewrite !length_map in Sv.
  rewrite bind_run, modify_run. cbv iota.
  rewrite bind_run, modify_run. cbv iota.
  rewrite bind_run, get_self_run. cbv iota.
  cbn [self env MonsterSpawner.set_active_monsters
       MonsterSpawner.set_spawn_timer MonsterSpawner.active_monsters
       MonsterSpawner.spawn_timer MonsterSpawner.spawn_interval
       MonsterSpawner.max_monsters MonsterSpawner.spawn_points
       MonsterSpawner.monster_templates].
  rewrite bind_run, Sv.
  destruct (_ && _) eqn:D.
  - rewrite bind_run.
    match goal with
    | |- context [MonsterSpawner._spawn_random_monster ?s1] =>
        pose proof (spawn_random_monster_keeps_timer s1) as K;
        destruct (MonsterSpawner._spawn_random_monster s1) as [[[]|x] s2]
    end; cbv iota.
    + rewrite modify_run. cbv iota. rewrite ret_run. cbn [fst snd].
      rewrite D. reflexivity.
    + exact K.
  - rewrite ret_run. cbv iota. rewrite ret_run. cbn [fst snd].
    rewrite D. reflexivity.
Qed.

Lemma X20_spawn_timer_accumulates_or_resets_witness :
  let s := one_jaggi ticking in
  let r := MonsterSpawner.update_monsters (Z2F 40) [hunter] s in
  let elapsed := fadd (MonsterSpawner.spawn_timer (self s)) (Z2F 40) in
  NoDup (population s) /\
  MonsterSpawner.spawn_timer (self (snd r))
  = match fst r with
    | Ok updates =>
        if fleb (MonsterSpawner.spawn_interval (self s)) elapsed
           && (Z.of_nat (length updates)
               <? MonsterSpawner.max_monsters (self s))
        then fzero else elapsed
    | Raise _ => elapsed
    end.
Proof.
  assert (N : NoDup (population (one_jaggi ticking))).
  { apply (bool_decide_unpack _). vm_compute. exact I. }
  split; [ exact N | ].
  apply (X20_spawn_timer_accumulates_or_resets (Z2F 40) [hunter]
           (one_jaggi ticking)).
  exact N.
Defined.

(** X21.  The exceptions of the agents do not escape the sweep: when no
    spawn is due ([spawn_timer + delta_time] below [spawn_interval]),
    [update_monsters] returns, whatever the agents of the population do. *)
Theorem X21_exceptions_of_agents_do_not_escape :
  forall delta_time nearby_players s,
    fleb (MonsterSpawner.spawn_interval (self s))
         (fadd (MonsterSpawner.spawn_timer (self s)) delta_time) = false ->
    exists updates,
      fst (MonsterSpawner.update_monsters delta_time nearby_players s)
      = Ok updates.
Proof.
  intros delta_time nearby_players s H.
  unfold MonsterSpawner.update_monsters.
  destruct (MonsterSpawner.sweep _ _ _ _) as [[[monsters ups] rm] e].
  rewrite bind_run, modify_run. cbv iota.
  rewrite bind_run, modify_run. cbv iota.
  rewrite bind_run, get_self_run. cbv iota.
  cbn [self env MonsterSpawner.set_active_monsters
       MonsterSpawner.set_spawn_timer MonsterSpawner.active_monsters
       MonsterSpawner.spawn_timer MonsterSpawner.spawn_interval
       MonsterSpawner.max_monsters MonsterSpawner.spawn_points
       MonsterSpawner.monster_templates].
  rewrite H. cbn [andb]. rewrite bind_run, ret_run. cbv iota.
  rewrite ret_run. eauto.
Qed.

Lemma X21_exceptions_of_agents_do_not_escape_witness :
  let s := one_jaggi ticking in
  fleb (MonsterSpawner.spawn_interval (self s))
       (fadd (MonsterSpawner.spawn_timer (self s)) (Z2F 1)) = false /\
  exists updates,
    fst (MonsterSpawner.update_monsters (Z2F 1)
           [Player.mk "player1" None (at_ 6 0 5) (Some 0)] s)
    = Ok updates.
Proof.
  split; [ vm_compute; reflexivity | ].
  apply (X21_exceptions_of_agents_do_not_escape (Z2F 1)
           [Player.mk "player1" None (at_ 6 0 5) (Some 0)]
           (one_jaggi ticking)).
  vm_compute. reflexivity.
Defined.

(** * Random spawns *)

Lemma choice_elem {A} (xs : list A) e v :
  fst (choice xs e) = Ok v -> v ∈ xs.
Proof.
  unfold choice. destruct xs as [|x0 xs]; [ discriminate | ].
  rewrite bind_run. unfold random_below at 1. cbv iota.
  destruct ((x0 :: xs) !! _) as [w|] eqn:L; [ | discriminate ].
  intros [= <-]. eapply list_elem_of_lookup_2, L.
Qed.

Lemma spawn_monster_entries monster_type position s monster_id monster :
  dict_get monster_id
    (MonsterSpawner.active_monsters
       (self (snd (MonsterSpawner.spawn_monster monster_type position s))))
  = Some monster ->
  dict_get monster_id (MonsterSpawner.active_monsters (self s)) = Some monster
  \/ (MonsterAI.position monster = position /\
      dict_get monster_type (MonsterSpawner.monster_templates (self s))
      = Some (MonsterAI.stats monster)).
Proof.
  unfold MonsterSpawner.spawn_monster.
  rewrite bind_run, get_self_run. cbv iota.
  destruct (_ >=? _); [ auto | ].
  destruct (dict_get monster_type _) as [l|]; [ | auto ].
  unfold bind, lift, liftO, modify, ret, time, randint, random_below.
  cbn -[MonsterAI.__init__ pretty String.append Z.of_nat Z.to_nat Nat.modulo].
  destruct (int_of_float _) as [seconds|]; [ | auto ].
  match goal with
  | |- context [MonsterAI.__init__ ?a ?b ?c] =>
      pose proof (init_newborn a b c) as I;
      destruct (MonsterAI.__init__ a b c) as [[monster_ai|x] e']
  end;
    cbn -[pretty String.append Z.of_nat Z.to_nat Nat.modulo] in I |- *;
    [ | auto ].
  destruct (I monster_ai eq_refl) as (_ & st & _ & N).
  match goal with
  | |- context [dict_set ?k _ _] => generalize k
  end.
  intros k. destruct (String.eqb_spec monster_id k) as [-> | O].
  - rewrite dict_get_set. intros [= <-]. right.
    rewrite N. split; reflexivity.
  - rewrite dict_get_set_ne by exact O. auto.
Qed.

(** X22.  [_spawn_random_monster] with no spawn point returns without a
    change; and every agent of the population it leaves was there before,
    under the same id, or stands on one of the registered spawn points and
    is built on a template of the catalog. *)
Theorem X22_random_spawn_uses_a_spawn_point_and_a_template :
  forall s monster_id monster,
    let r := MonsterSpawner._spawn_random_monster s in
    (MonsterSpawner.spawn_points (self s) = [] -> r = (Ok tt, s)) /\
    (dict_get monster_id (MonsterSpawner.active_monsters (self (snd r)))
     = Some monster ->
     dict_get monster_id (MonsterSpawner.active_monsters (self s))
     = Some monster
     \/ (MonsterAI.position monster ∈ MonsterSpawner.spawn_points (self s) /\
         exists monster_type,
           dict_get monster_type (MonsterSpawner.monster_templates (self s))
           = Some (MonsterAI.stats monster))).
Proof.
  intros s monster_id monster. cbv zeta.
  unfold MonsterSpawner._spawn_random_monster.
  rewrite bind_run, get_self_run. cbv iota.
  destruct (MonsterSpawner.spawn_points (self s)) as [|p0 ps] eqn:P.
  - split; [ reflexivity | auto ].
  - split; [ discriminate | ].
    rewrite bind_run.
    destruct (lift (choice (p0 :: ps)) s) as [[spawn_point|x] s1] eqn:E1;
      cbv iota; pose proof (lift_inv _ _ _ _ E1) as S1;
      [ | cbn [snd]; rewrite S1; auto ].
    assert (C : spawn_point ∈ p0 :: ps).
    { apply (choice_elem _ (env s)). unfold lift in E1.
      destruct (choice (p0 :: ps) (env s)) as [r1 e1].
      injection E1 as -> _. reflexivity. }
    rewrite bind_run.
    destruct (lift (choice _) s1) as [[monster_type|x] s2] eqn:E2;
      cbv iota; pose proof (lift_inv _ _ _ _ E2) as S2;
      [ | cbn [snd]; rewrite S2, S1; auto ].
    rewrite bind_run.
    pose proof (spawn_monster_entries monster_type spawn_point s2 monster_id
                  monster) as K.
    rewrite S2, S1 in K.
    destruct (MonsterSpawner.spawn_monster _ _ _) as [[r|x] s3];
      cbv iota; cbn [snd] in K |- *; intros L;
      (destruct (K L) as [K1 | (K1 & K2)];
       [ auto | right; rewrite K1; split; [ exact C | eauto ] ]).
Qed.

(** * Poison *)

Lemma status_loop_health current_time delta_time effects s active s' :
  MonsterAI.status_loop current_time delta_time effects s = (Ok active, s') ->
  poisoned current_time delta_time effects (MonsterAI.current_health (self s))
  = Ok (MonsterAI.current_health (self s')).
Proof.
  revert s active s'.
  induction effects as [|i rest IH]; intros s active s' E.
  - cbn in E. injection E as _ <-. reflexivity.
  - cbn [MonsterAI.status_loop] in E. cbn [poisoned].
    fold (active_at current_time i) in E.
    destruct (active_at current_time i) eqn:A; cbn [andb].
    + apply bind_Ok_inv in E as (u & s1 & E1 & E).
      apply bind_Ok_inv in E as (l & s2 & E2 & E).
      injection E as _ <-.
      apply IH in E2. rewrite <- E2. clear E2 IH.
      destruct (StatusEffectInstance.effect i) eqn:K; cbn in E1 |- *;
        try (injection E1 as _ <-; reflexivity).
      destruct (num_sub_float _ _) as [h|]; [ | discriminate ].
      injection E1 as _ <-. reflexivity.
    + apply bind_Ok_inv in E as (u & s1 & E1 & E).
      apply IH in E. rewrite <- E. clear E IH.
      destruct (StatusEffectInstance.effect i) eqn:K; cbn in E1;
        injection E1 as _ <-; reflexivity.
Qed.

(** X23.  When the status pass returns, the health it leaves is the health
    before with [intensity * delta_time] subtracted once for every poison
    instance still running, in the order of the list and with no floor;
    nothing else in the pass touches the health. *)
Theorem X23_poison_takes_its_toll_per_instance :
  forall delta_time s,
    let r := MonsterAI._update_status_effects delta_time s in
    let now := clock (env s) (ticks (env s)) in
    fst r = Ok tt ->
    poisoned now delta_time (MonsterAI.status_effects (self s))
      (MonsterAI.current_health (self s))
    = Ok (MonsterAI.current_health (self (snd r))).
Proof.
  intros delta_time s r now. subst r now.
  destruct (MonsterAI._update_status_effects delta_time s) as [o s'] eqn:E.
  cbn [fst snd]. intros ->.
  unfold MonsterAI._update_status_effects in E.
  apply bind_Ok_inv in E as (ct & s1 & E1 & E).
  unfold lift, time in E1. cbn in E1. injection E1 as <- <-.
  apply bind_Ok_inv in E as (a & s2 & E2 & E). injection E2 as <- <-.
  apply bind_Ok_inv in E as (active & s3 & E3 & E).
  apply status_loop_health in E3.
  injection E as <-. exact E3.
Qed.

Lemma X23_poison_takes_its_toll_per_instance_witness :
  let s := agent_of poisoned_jaggi in
  let r := MonsterAI._update_status_effects (Z2F 2) s in
  fst r = Ok tt /\
  poisoned (clock (env s) (ticks (env s))) (Z2F 2)
    (MonsterAI.status_effects (self s)) (MonsterAI.current_health (self s))
  = Ok (MonsterAI.current_health (self (snd r))).
Proof.
  split; [ vm_compute; reflexivity | ].
  apply (X23_poison_takes_its_toll_per_instance (Z2F 2)
           (agent_of poisoned_jaggi)).
  vm_compute. reflexivity.
Defined.

(** * The target *)

(** X24.  [update] never forgets a target: an agent that has a
    [target_player] still has one after the call, whether players are near
    or not. *)
Theorem X24_target_is_never_forgotten :
  forall delta_time nearby_players s,
    MonsterAI.target_player (self s) <> None ->
    MonsterAI.target_player
      (self (snd (MonsterAI.update delta_time nearby_players s))) <> None.
Proof.
  intros delta_time nearby_players.
  set (R := fun s s' : St MonsterAI.t =>
              MonsterAI.target_player (self s) <> None ->
              MonsterAI.target_player (self s') <> None).
  assert (Rr : forall s, R s s) by (intros s H; exact H).
  assert (Rt : forall s1 s2 s3, R s1 s2 -> R s2 s3 -> R s1 s3)
    by (intros s1 s2 s3 H1 H2 H; apply H2, H1, H).
  assert (L : forall current_time effects,
             stable R (MonsterAI.status_loop current_time delta_time effects)).
  { intros current_time effects.
    induction effects as [|effect rest IH]; cbn [MonsterAI.status_loop];
      stable_tac Rr Rt; try (intros H; exact H). }
  change (stable R (MonsterAI.update delta_time nearby_players)).
  unfold MonsterAI.update, MonsterAI._update_status_effects,
    MonsterAI._become_enraged, MonsterAI._find_nearest_player,
    MonsterAI._perform_attack, MonsterAI._chase_player,
    MonsterAI._idle_behavior.
  stable_tac Rr Rt; try (intros H; exact H); intros _; discriminate.
Qed.

Lemma X24_target_is_never_forgotten_witness :
  let s := agent_of enraged_jaggi in
  MonsterAI.target_player (self s) = Some hunter /\
  MonsterAI.target_player (self (snd (MonsterAI.update (Z2F 1) [] s)))
  <> None.
Proof.
  split; [ vm_compute; reflexivity | ].
  apply (X24_target_is_never_forgotten (Z2F 1) [] (agent_of enraged_jaggi)).
  vm_compute. discriminate.
Defined.

(** * A world without spawn points *)

(** X25.  With no spawn point registered, [update_monsters] returns and
    the ids of the population it leaves are ids of the old population, in
    their old order. *)
Theorem X25_no_spawn_point_no_growth :
  forall delta_time nearby_players s,
    let r := MonsterSpawner.update_monsters delta_time nearby_players s in
    MonsterSpawner.spawn_points (self s) = [] ->
    (exists updates, fst r = Ok updates) /\
    sublist (population (snd r)) (population s).
Proof.
  intros delta_time nearby_players s. cbv zeta. intros P.
  unfold MonsterSpawner.update_monsters.
  pose proof (sweep_shape delta_time nearby_players
                (MonsterSpawner.active_monsters (self s)) (env s)) as Sh.
  destruct (MonsterSpawner.sweep _ _ _ _) as [[[monsters ups] rm] e].
  destruct Sh as (Sh1 & _).
  assert (Sub : sublist (dict_keys (MonsterSpawner.remove_all rm monsters))
                  (population s)).
  { rewrite remove_all_filter. unfold population. rewrite <- Sh1.
    unfold dict_keys. clear.
    induction monsters as [|x l IH]; cbn; [ constructor | ].
    destruct (spared rm x); cbn; [ apply sublist_skip | apply sublist_cons ];
      exact IH. }
  rewrite bind_run, modify_run. cbv iota.
  rewrite bind_run, modify_run. cbv iota.
  rewrite bind_run, get_self_run. cbv iota.
  rewrite bind_run.
  destruct (_ && _).
  - rewrite bind_run.
    unfold MonsterSpawner._spawn_random_monster.
    rewrite bind_run, get_self_run. cbv iota.
    cbn [self MonsterSpawner.set_active_monsters
         MonsterSpawner.set_spawn_timer MonsterSpawner.spawn_points].
    rewrite P, ret_run. cbv iota. rewrite modify_run. cbv iota.
    rewrite ret_run. cbn [fst snd]. split; [ eauto | exact Sub ].
  - rewrite ret_run. cbv iota. rewrite ret_run. cbn [fst snd].
    split; [ eauto | exact Sub ].
Qed.

Lemma X25_no_spawn_point_no_growth_witness :
  let s := one_jaggi ticking in
  let r := MonsterSpawner.update_monsters (Z2F 40) [hunter] s in
  MonsterSpawner.spawn_points (self s) = [] /\
  (exists updates, fst r = Ok updates) /\
  sublist (population (snd r)) (population s).
Proof.
  split; [ vm_compute; reflexivity | ].
  apply (X25_no_spawn_point_no_growth (Z2F 40) [hunter] (one_jaggi ticking)).
  vm_compute. reflexivity.
Defined.

(** * Stunned or asleep *)

Lemma find_nearest_player_state players s :
  snd (MonsterAI._find_nearest_player players s) = s.
Proof.
  unfold MonsterAI._find_nearest_player. destruct players; reflexivity.
Qed.

Lemma idle_behavior_at_rest delta_time :
  returns at_rest (MonsterAI._idle_behavior delta_time).
Proof.
  unfold MonsterAI._idle_behavior, at_rest. returns_tac; cbn; auto.
Qed.

Lemma idle_behavior_keeps_attack_memory delta_time :
  stable (keeps attack_memory) (MonsterAI._idle_behavior delta_time).
Proof. unfold MonsterAI._idle_behavior. keeps_tac attack_memory. Qed.

Lemma behave_keeps_gate delta_time current_time nearby_players :
  stable (keeps gate) (behave delta_time current_time nearby_players).
Proof.
  pose proof perform_attack_keeps_gate.
  pose proof chase_player_keeps_gate.
  pose proof idle_behavior_keeps_gate.
  pose proof (find_nearest_player_keeps gate).
  unfold behave. keeps_tac gate.
Qed.

(** With the agent stunned or asleep, [behave] is [_idle_behavior], after
    the target has been noted. *)
Lemma behave_disabled delta_time current_time nearby_players s :
  MonsterAI.is_stunned (self s) || MonsterAI.is_sleeping (self s) = true ->
  let r := behave delta_time current_time nearby_players s in
  keeps attack_memory s (snd r) /\
  forall act,
    fst r = Ok act ->
    at_rest act /\
    (MonsterAI.is_sleeping (self s) = true ->
     act = Sleep (MonsterAI.position (self s))).
Proof.
  intros H. cbv zeta. unfold behave. rewrite bind_run.
  pose proof (find_nearest_player_state nearby_players s) as F.
  destruct (MonsterAI._find_nearest_player nearby_players s)
    as [[[player|]|x] s0]; cbn [snd] in F; subst s0; cbv iota.
  - rewrite bind_run, modify_run. cbv iota.
    rewrite bind_run, get_self_run. cbv iota. cbn [self].
    rewrite bind_run, liftP_run.
    set (s1 := mkSt (MonsterAI.set_target_player (Some player) (self s))
                 (env s)).
    destruct (Position.distance_to _ _ _) as [d|x]; cbv iota;
      [ | split; [ reflexivity | discriminate ] ].
    change (MonsterAI.is_stunned (MonsterAI.set_target_player _ (self s)))
      with (MonsterAI.is_stunned (self s)).
    change (MonsterAI.is_sleeping (MonsterAI.set_target_player _ (self s)))
      with (MonsterAI.is_sleeping (self s)).
    assert (C1 : forall b, b && negb (MonsterAI.is_stunned (self s))
                           && negb (MonsterAI.is_sleeping (self s)) = false).
    { intros b. destruct (MonsterAI.is_stunned (self s)),
                         (MonsterAI.is_sleeping (self s));
        try discriminate; destruct b; reflexivity. }
    rewrite !C1. split.
    + apply (idle_behavior_keeps_attack_memory delta_time s1).
    + intros act R. split.
      * eapply idle_behavior_at_rest, R.
      * intros Z. rewrite (idle_behavior_asleep delta_time s1) in R
          by exact Z.
        injection R as <-. reflexivity.
  - split.
    + apply (idle_behavior_keeps_attack_memory delta_time s).
    + intros act R. split.
      * eapply idle_behavior_at_rest, R.
      * intros Z. rewrite (idle_behavior_asleep delta_time s) in R by exact Z.
        injection R as <-. reflexivity.
  - split; [ reflexivity | discriminate ].
Qed.

Lemma status_loop_keeps_attack_memory current_time delta_time effects :
  stable (keeps (fun a => (attack_memory a, MonsterAI.position a)))
    (MonsterAI.status_loop current_time delta_time effects).
Proof.
  induction effects as [|effect rest IH]; cbn [MonsterAI.status_loop];
    keeps_tac (fun a => (attack_memory a, MonsterAI.position a)).
Qed.

Lemma update_status_effects_keeps_attack_memory delta_time :
  stable (keeps (fun a => (attack_memory a, MonsterAI.position a)))
    (MonsterAI._update_status_effects delta_time).
Proof.
  pose proof status_loop_keeps_attack_memory.
  unfold MonsterAI._update_status_effects.
  keeps_tac (fun a => (attack_memory a, MonsterAI.position a)).
Qed.

Lemma become_enraged_keeps_attack_memory :
  stable (keeps (fun a => (attack_memory a, MonsterAI.position a)))
    MonsterAI._become_enraged.
Proof.
  unfold MonsterAI._become_enraged.
  keeps_tac (fun a => (attack_memory a, MonsterAI.position a)).
Qed.

(** X27.  An agent that is stunned or asleep when [update] returns has not
    attacked: the report is Sleep, Patrol or Idle, and the attack timer and
    the pattern index are as before the call; if it is asleep, the report is
    Sleep at the position it had, and it has not moved. *)
Theorem X27_disabled_agent_never_attacks :
  forall delta_time nearby_players s act,
    let r := MonsterAI.update delta_time nearby_players s in
    fst r = Ok act ->
    MonsterAI.is_stunned (self (snd r)) || MonsterAI.is_sleeping (self (snd r))
    = true ->
    at_rest act /\
    attack_memory (self (snd r)) = attack_memory (self s) /\
    (MonsterAI.is_sleeping (self (snd r)) = true ->
     act = Sleep (MonsterAI.position (self s)) /\
     MonsterAI.position (self (snd r)) = MonsterAI.position (self s)).
Proof.
  intros delta_time nearby_players s act. cbv zeta.
  set (f := fun a => (attack_memory a, MonsterAI.position a)).
  rewrite update_phases, bind_run, lift_time_run. cbv iota.
  set (s1 := mkSt (self s) (tick_env (env s))).
  rewrite bind_run.
  pose proof (update_status_effects_keeps_attack_memory delta_time s1) as K2.
  destruct (MonsterAI._update_status_effects delta_time s1) as [[[]|x] s2];
    cbv iota; [ | discriminate ].
  rewrite bind_run, get_self_run. cbv iota.
  rewrite bind_run, lift_deref_run.
  destruct (heap (env s2) !! MonsterAI.stats (self s2)) as [st|];
    cbv iota; [ | discriminate ].
  rewrite bind_run, liftO_run.
  destruct (num_truediv_int _ _) as [hp|]; cbv iota; [ | discriminate ].
  rewrite bind_run.
  match goal with
  | |- context [(if ?c then MonsterAI._become_enraged else ret tt) s2] =>
      assert (K3 : keeps f s2
                     (snd ((if c then MonsterAI._become_enraged else ret tt)
                             s2)))
        by (destruct c;
            [ apply become_enraged_keeps_attack_memory | reflexivity ]);
      destruct ((if c then MonsterAI._become_enraged else ret tt) s2)
        as [[[]|x] s3]
  end; cbv iota; [ | discriminate ].
  pose proof (behave_keeps_gate delta_time (clock (env s) (ticks (env s)))
                nearby_players s3) as G.
  intros R D.
  unfold keeps, gate in G. injection G as G1 G2 _.
  rewrite G1, G2 in D.
  destruct (behave_disabled delta_time (clock (env s) (ticks (env s)))
              nearby_players s3 D) as (Kf & Hact).
  destruct (Hact act R) as (Hrest & Hsleep).
  unfold keeps, f, s1 in K2, K3. cbn [fst snd self] in K2, K3.
  pose proof (f_equal fst K2) as K21. pose proof (f_equal snd K2) as K22.
  pose proof (f_equal fst K3) as K31. pose proof (f_equal snd K3) as K32.
  cbn [fst snd] in K21, K22, K31, K32. clear K2 K3.
  unfold keeps in Kf.
  split; [ exact Hrest | ]. split; [ congruence | ].
  intros Z. rewrite G2 in Z. specialize (Hsleep Z).
  split; [ congruence | ].
  rewrite Hsleep in R.
  rewrite <- K22, <- K32.
  assert (E : ensures at_position
                (behave delta_time (clock (env s) (ticks (env s)))
                   nearby_players)).
  { unfold behave.
    repeat match goal with
           | |- ensures _ (match ?x with _ => _ end) => destruct x
           | |- ensures _ (bind _ _) => apply ensures_bind; intros ?
           end;
      first [ apply perform_attack_at_position
            | apply chase_player_at_position
            | apply idle_behavior_at_position ]. }
  specialize (E s3 (Sleep (MonsterAI.position (self s3)))
                (snd (behave delta_time (clock (env s) (ticks (env s)))
                        nearby_players s3))).
  destruct (behave _ _ _ s3) as [r3 s4]. cbn [fst snd] in *.
  subst r3. specialize (E eq_refl). unfold at_position in E. cbn in E.
  congruence.
Qed.

Lemma X27_disabled_agent_never_attacks_witness :
  let s := agent_of paralysed_jaggi in
  let r := MonsterAI.update (Z2F 1) [hunter] s in
  let act := returned (Idle (at_ 0 0 0)) (fst r) in
  fst r = Ok act /\
  MonsterAI.is_stunned (self (snd r)) || MonsterAI.is_sleeping (self (snd r))
  = true /\
  at_rest act /\
  attack_memory (self (snd r)) = attack_memory (self s) /\
  (MonsterAI.is_sleeping (self (snd r)) = true ->
   act = Sleep (MonsterAI.position (self s)) /\
   MonsterAI.position (self (snd r)) = MonsterAI.position (self s)).
Proof.
  split; [ vm_compute; reflexivity | ].
  split; [ vm_compute; reflexivity | ].
  apply (X27_disabled_agent_never_attacks (Z2F 1) [hunter]
           (agent_of paralysed_jaggi));
    vm_compute; reflexivity.
Defined.

(** * An agent whose update raises *)

Lemma dict_get_spared (ids : list string) (d : list (string * MonsterAI.t))
    (k : string) :
  k ∈ ids -> dict_get k (List.filter (spared ids) d) = None.
Proof.
  intros Hk. induction d as [|[k1 v1] d IH]; cbn; [ reflexivity | ].
  destruct (spared ids (k1, v1)) eqn:Sp; [ | exact IH ].
  cbn. destruct (String.eqb_spec k k1) as [<- | _]; [ | exact IH ].
  exfalso. unfold spared in Sp. cbn [fst] in Sp.
  rewrite forallb_forall in Sp. apply list_elem_of_In in Hk.
  specialize (Sp k Hk). rewrite String.eqb_refl in Sp. discriminate.
Qed.

(** X26.  An agent whose [update] raises is dropped: if the first agent of
    the population raises in the sweep and no spawn is due, [update_monsters]
    returns and the id of that agent is no longer in the population. *)
Theorem X26_agent_that_raises_is_dropped :
  forall delta_time nearby_players s monster_id monster rest x,
    let r := MonsterSpawner.update_monsters delta_time nearby_players s in
    MonsterSpawner.active_monsters (self s) = (monster_id, monster) :: rest ->
    fst (MonsterAI.update delta_time nearby_players (mkSt monster (env s)))
    = Raise x ->
    fleb (MonsterSpawner.spawn_interval (self s))
         (fadd (MonsterSpawner.spawn_timer (self s)) delta_time) = false ->
    (exists updates, fst r = Ok updates) /\
    dict_get monster_id (MonsterSpawner.active_monsters (self (snd r)))
    = None.
Proof.
  intros delta_time nearby_players s monster_id monster rest x. cbv zeta.
  intros A U H.
  unfold MonsterSpawner.update_monsters. rewrite A.
  cbn [MonsterSpawner.sweep].
  destruct (MonsterAI.update delta_time nearby_players (mkSt monster (env s)))
    as [r0 s0].
  cbn [fst] in U. subst r0.
  destruct (MonsterSpawner.sweep delta_time nearby_players rest (env s0))
    as [[[rest' ups] rm] e'].
  rewrite bind_run, modify_run. cbv iota.
  rewrite bind_run, modify_run. cbv iota.
  rewrite bind_run, get_self_run. cbv iota.
  cbn [self env MonsterSpawner.set_active_monsters
       MonsterSpawner.set_spawn_timer MonsterSpawner.active_monsters
       MonsterSpawner.spawn_timer MonsterSpawner.spawn_interval
       MonsterSpawner.max_monsters MonsterSpawner.spawn_points
       MonsterSpawner.monster_templates].
  rewrite H. cbn [andb]. rewrite bind_run, ret_run. cbv iota.
  rewrite ret_run. cbn [fst snd self].
  split; [ eauto | ].
  unfold MonsterSpawner.set_spawn_timer, MonsterSpawner.set_active_monsters.
  cbn [MonsterSpawner.active_monsters].
  rewrite remove_all_filter. apply dict_get_spared, list_elem_of_here.
Qed.

Lemma X26_agent_that_raises_is_dropped_witness :
  let s := one_jaggi ticking in
  let nameless := Player.mk "player1" None (at_ 6 0 5) (Some 0) in
  let r := MonsterSpawner.update_monsters (Z2F 1) [nameless] s in
  MonsterSpawner.active_monsters (self s)
  = (jaggi_id, default blank (jaggi s)) :: [] /\
  fst (MonsterAI.update (Z2F 1) [nameless]
         (mkSt (default blank (jaggi s)) (env s)))
  = Raise (KeyError "name") /\
  (exists updates, fst r = Ok updates) /\
  dict_get jaggi_id (MonsterSpawner.active_monsters (self (snd r))) = None.
Proof.
  split; [ vm_compute; reflexivity | ].
  split; [ vm_compute; reflexivity | ].
  apply (X26_agent_that_raises_is_dropped (Z2F 1)
           [Player.mk "player1" None (at_ 6 0 5) (Some 0)]
           (one_jaggi ticking) jaggi_id
           (default blank (jaggi (one_jaggi ticking))) [] (KeyError "name"));
    vm_compute; reflexivity.
Defined.
